(** * Session lifecycle, timer registry and role selection of party-manager-bot

    A shallow embedding of
    - [src/services/sessionScheduler.ts] (class [SessionScheduler]),
    - [src/modules/session/controller/session.controller.ts]
      ([cancelSession], [endSession], [regenerateSessionMessage],
      [processRoleSelection]),
    - [src/modules/session/repository/session.repository.ts]
      ([getSession], [getSessionById], [getSessions], [updateSession],
      [isUserInActiveSession], [isUserHostingOnDate]),
    followed by the properties proved about them.

    Asynchronous functions are functions in a state-and-exception monad over
    a [World]: the session table, the scheduler's [scheduledTasks] map, the
    cron jobs living in the runtime, and the list of calls made to the
    external collaborators.  A rejected promise is a [Thrown] outcome.  Each
    function runs to completion on the world it is given, without another
    request interleaved, and reads the clock once: the instant [now] it is
    called at.  [logger] calls have no effect and are left out. *)

From Stdlib Require Import ZArith Lia.
From stdpp Require Import base gmap list strings pretty.

(** ** Dates *)

(** A JavaScript [Date] is its number of milliseconds since the epoch. *)
Abbreviation Date := Z.

Module dateUtils.

(** Modelled from the spec: [shared/datetime/dateUtils.ts] is missing.  The
  spec describes "pure functions computing offsets (before/after a reference
  instant) and future/past comparisons"; the clock reading [now] that
  [isFutureDate] takes from the runtime is an explicit argument here. *)
Definition getHoursBefore (date : Date) (hours : Z) : Date :=
(date - hours * 3600000)%Z.

Definition getMinutesBefore (date : Date) (minutes : Z) : Date :=
(date - minutes * 60000)%Z.

Definition getHoursAfter (date : Date) (hours : Z) : Date :=
(date + hours * 3600000)%Z.

Definition isFutureDate (now : Date) (date : Date) : bool :=
bool_decide (now < date)%Z.

End dateUtils.
Import dateUtils.

(** ** Domain types *)

(** [session.types.ts]: [SessionStatus]. *)
Inductive SessionStatus :=
  | SCHEDULED
  | ACTIVE
  | COMPLETED
  | CANCELED
  | FULL.

Global Instance SessionStatus_eq_dec : EqDecision SessionStatus.
Proof. solve_decision. Defined.

(** Modelled from the spec: the generated Prisma enum [RoleType] is missing.
    It is "a closed set that includes exactly one exclusive role (the leader)
    and several ordinary roles"; [TANK] and [SUPPORT] are the ordinary roles
    the controller's tests name, [ORDINARY] stands for the others. *)
Inductive RoleType :=
  | GAME_MASTER
  | TANK
  | SUPPORT
  | ORDINARY (tag : string).

Global Instance RoleType_eq_dec : EqDecision RoleType.
Proof. solve_decision. Defined.

(** [party.types.ts]: [PartyMember], as [getSession] builds it. *)
Module PartyMember.
Record t := mk {
  userId : string;
  username : string;
  channelId : string;
  role : RoleType;
}.
End PartyMember.

(** [party.types.ts]: [RoleSelectionStatus], the outcomes returned by
    [processRoleSelection]. *)
Inductive RoleSelectionStatus :=
  | ADDED_TO_PARTY
  | REMOVED_FROM_PARTY
  | ROLE_CHANGED
  | PARTY_FULL
  | LOCKED
  | EXPIRED
  | INVALID
  | ALREADY_IN_SESSION
  | HOSTING_SAME_DAY.

(** [session.types.ts]: [SessionWithParty] ([Session] plus [partyMembers]);
    [eventId] and [status] are optional fields there. *)
Module Session.
Record t := mk {
  id : string;
  name : string;
  date : Date;
  timezone : string;
  campaignId : string;
  guildId : string;
  eventId : option string;
  status : option SessionStatus;
  partyMembers : list PartyMember.t;
}.
End Session.

(** [session.types.ts]: [ListSessionsResult], restricted to the fields the
    scheduler asks [getSessions] for. *)
Module ListSessionsResult.
Record t := mk {
  id : string;
  date : Date;
  status : SessionStatus;
}.
End ListSessionsResult.

(** ** The persistent store *)

Module Db.
(** A [party_member] row: the key [(session, userId)] and the role. *)
Record partyMemberRow := mkPartyMember {
  userId : string;
  roleId : RoleType;
}.

(** A [user] row, joined into the party by [getSession]. *)
Record userRow := mkUser {
  username : string;
  channelId : string;
}.

(** A [session] row with its [party_member] rows and the [guildId] of its
    campaign. *)
Record sessionRow := mkSession {
  name : string;
  date : Date;
  timezone : option string;
  campaignId : string;
  guildId : string;
  eventId : option string;
  status : SessionStatus;
  partyMembers : list partyMemberRow;
}.

Definition with_status (st : SessionStatus) (r : sessionRow) : sessionRow :=
  mkSession (name r) (date r) (timezone r) (campaignId r) (guildId r)
    (eventId r) st (partyMembers r).

Definition with_partyMembers (p : list partyMemberRow) (r : sessionRow)
  : sessionRow :=
  mkSession (name r) (date r) (timezone r) (campaignId r) (guildId r)
    (eventId r) (status r) p.

Definition with_role (role : RoleType) (r : partyMemberRow) : partyMemberRow :=
  mkPartyMember (userId r) role.
End Db.

(** ** Cron jobs and the scheduler's registry *)

(** The callback a job was created with: [handleReminder],
    [handleCancellation] or [handleCompletion] of its session. *)
Inductive JobKind :=
  | ReminderJob
  | CancellationJob
  | CompletionJob.

Global Instance JobKind_eq_dec : EqDecision JobKind.
Proof. solve_decision. Defined.

(** A [CronJob] object of the runtime: the instant it fires at, its callback
    and whether it is still started ([stop()] clears [running]). *)
Module CronJob.
Record t := mk {
  cronTime : Date;
  onTick : JobKind;
  session : string;
  running : bool;
}.

Definition stop (j : t) : t := mk (cronTime j) (onTick j) (session j) false.
End CronJob.

(** [interface ScheduledTask]: the jobs are references to [CronJob] objects,
    here their index in the runtime's job list. *)
Module ScheduledTask.
Record t := mk {
  sessionId : string;
  reminderJob : option nat;
  cancellationJob : option nat;
  completionJob : option nat;
}.

Definition with_reminderJob (j : option nat) (task : t) : t :=
  mk (sessionId task) j (cancellationJob task) (completionJob task).
Definition with_cancellationJob (j : option nat) (task : t) : t :=
  mk (sessionId task) (reminderJob task) j (completionJob task).
Definition with_completionJob (j : option nat) (task : t) : t :=
  mk (sessionId task) (reminderJob task) (cancellationJob task) j.

(** The job references a task holds. *)
Definition jobs (task : t) : list nat :=
  option_list (reminderJob task) ++ option_list (cancellationJob task)
    ++ option_list (completionJob task).
End ScheduledTask.

(** ** External collaborators *)

(** The text of a direct message sent through [notifyParty], by the values
    its builder closes over. *)
Inductive Notice :=
  | SessionCanceledNotice (sessionId : string) (reason : string)
  | SessionReminderNotice (sessionId : string).

(** A call that can fail: a write to the store or a call to Discord. *)
Inductive Call :=
  | UpdateSession (sessionId : string) (status : SessionStatus)
  | DeleteScheduledEvent (guildId : string) (eventId : string)
  | RegenerateSessionMessage (sessionId : string)
      (descriptionOverride : option string)
  | NotifyParty (userIds : list string) (notice : Notice).

Inductive ExtOp :=
  | OpUpdateSession
  | OpDeleteScheduledEvent
  | OpRegenerateSessionMessage
  | OpNotifyParty.

Global Instance ExtOp_eq_dec : EqDecision ExtOp.
Proof. solve_decision. Defined.

Definition call_op (c : Call) : ExtOp :=
  match c with
  | UpdateSession _ _ => OpUpdateSession
  | DeleteScheduledEvent _ _ => OpDeleteScheduledEvent
  | RegenerateSessionMessage _ _ => OpRegenerateSessionMessage
  | NotifyParty _ _ => OpNotifyParty
  end.

(** ** The world *)

Record World := mkWorld {
  (** the [session] table, by session id *)
  sessions : gmap string Db.sessionRow;
  (** the [user] table *)
  users : string → Db.userRow;
  (** [SessionScheduler.scheduledTasks] *)
  scheduledTasks : gmap string ScheduledTask.t;
  (** every [CronJob] created so far; a reference is an index *)
  cronJobs : list CronJob.t;
  (** the environment: [faults op n] tells whether the [n]-th call of kind
      [op] (counting from 0) fails *)
  faults : ExtOp → nat → bool;
  (** the calls attempted so far, oldest first, each with its success *)
  trace : list (Call * bool);
}.

Definition set_sessions (f : gmap string Db.sessionRow → gmap string Db.sessionRow)
    (w : World) : World :=
  mkWorld (f (sessions w)) (users w) (scheduledTasks w) (cronJobs w)
    (faults w) (trace w).

Definition set_scheduledTasks
    (f : gmap string ScheduledTask.t → gmap string ScheduledTask.t)
    (w : World) : World :=
  mkWorld (sessions w) (users w) (f (scheduledTasks w)) (cronJobs w)
    (faults w) (trace w).

Definition set_cronJobs (f : list CronJob.t → list CronJob.t) (w : World)
    : World :=
  mkWorld (sessions w) (users w) (scheduledTasks w) (f (cronJobs w))
    (faults w) (trace w).

Definition set_trace (f : list (Call * bool) → list (Call * bool)) (w : World)
    : World :=
  mkWorld (sessions w) (users w) (scheduledTasks w) (cronJobs w)
    (faults w) (f (trace w)).

(** How many calls of kind [op] were attempted so far. *)
Definition attempts (op : ExtOp) (w : World) : nat :=
  length (filter (λ e, call_op e.1 = op) (trace w)).

(** Whether the next call of kind [op] fails. *)
Definition next_fails (op : ExtOp) (w : World) : bool :=
  faults w op (attempts op w).

(** ** Promises: state and exceptions *)

Inductive Error :=
  | NotFound (sessionId : string)
  | CallFailed (c : Call).

Inductive Outcome (A : Type) :=
  | Returned (a : A)
  | Thrown (e : Error).
Arguments Returned {A} a.
Arguments Thrown {A} e.

Definition M (A : Type) : Type := World → Outcome A * World.

Definition ret {A} (a : A) : M A := λ w, (Returned a, w).

Definition bind {A B} (m : M A) (k : A → M B) : M B := λ w,
  match m w with
  | (Returned a, w') => k a w'
  | (Thrown e, w') => (Thrown e, w')
  end.

Definition throw {A} (e : Error) : M A := λ w, (Thrown e, w).

(** [try { body } catch (error) { handler }] *)
Definition try_catch {A} (body : M A) (handler : Error → M A) : M A := λ w,
  match body w with
  | (Returned a, w') => (Returned a, w')
  | (Thrown e, w') => handler e w'
  end.

(** [try { body } finally { fin }] for a finaliser that cannot throw. *)
Definition try_finally {A} (body : M A) (fin : World → World) : M A := λ w,
  match body w with
  | (o, w') => (o, fin w')
  end.

(** A synchronous method of the scheduler, which only changes the state. *)
Definition sync (f : World → World) : M unit := λ w, (Returned tt, f w).

Declare Scope promise_scope.
Delimit Scope promise_scope with promise.
Notation "'await' x ← m ; k" := (bind m (λ x, k))
  (at level 100, x name, m at level 99, k at level 200, right associativity)
  : promise_scope.
Notation "'run' m ; k" := (bind m (λ _, k))
  (at level 100, m at level 99, k at level 200, right associativity)
  : promise_scope.
Open Scope promise_scope.

(** [catch (error) { logger.error(...) }]: the error is logged and dropped. *)
Definition logged (body : M unit) : M unit := try_catch body (λ _, ret tt).

(** A call to a collaborator: it is recorded in the trace, and either fails
    or has its effect. *)
Definition perform (c : Call) (effect : World → World) : M unit := λ w,
  let failed := next_fails (call_op c) w in
  let w' := set_trace (λ t, t ++ [(c, negb failed)]) w in
  if failed then (Thrown (CallFailed c), w') else (Returned tt, effect w').

(** ** session.repository.ts *)

(** One [party_member] row joined with its [user] and [role], as the
    [partyMembers.map] of [getSession] and [getSessionById] returns it. *)
Definition toPartyMember (w : World) (member : Db.partyMemberRow)
    : PartyMember.t :=
  PartyMember.mk (Db.userId member)
    (Db.username (users w (Db.userId member)))
    (Db.channelId (users w (Db.userId member)))
    (Db.roleId member).

Definition toSessionWithParty (w : World) (sessionId : string)
    (session : Db.sessionRow) : Session.t :=
  Session.mk sessionId (Db.name session) (Db.date session)
    (default "America/Los_Angeles" (Db.timezone session))
    (Db.campaignId session) (Db.guildId session) (Db.eventId session)
    (Some (Db.status session))
    (map (toPartyMember w) (Db.partyMembers session)).

(** [getSession]: [findUniqueOrThrow] rejects when the row is missing. *)
Definition getSession (sessionId : string) : M Session.t := λ w,
  match sessions w !! sessionId with
  | Some session => (Returned (toSessionWithParty w sessionId session), w)
  | None => (Thrown (NotFound sessionId), w)
  end.

(** [getSessionById(id, true)]: the same row with its party. *)
Definition getSessionById (id : string) : M Session.t := getSession id.

(** [getSessions], with the options the scheduler passes (no user and no
    campaign filter): every session, as [{ id, date, status }]. *)
Definition getSessions : M (list ListSessionsResult.t) := λ w,
  (Returned (map (λ s, ListSessionsResult.mk s.1 (Db.date s.2) (Db.status s.2))
               (map_to_list (sessions w))), w).

(** [updateSession(sessionId, { status })]: [prisma.session.update] rejects
    when the row is missing, and the write itself can fail. *)
Definition updateSession (sessionId : string) (status : SessionStatus)
    : M unit := λ w,
  match sessions w !! sessionId with
  | None => (Thrown (NotFound sessionId), w)
  | Some _ =>
      perform (UpdateSession sessionId status)
        (set_sessions (alter (Db.with_status status) sessionId)) w
  end.

(** JavaScript truthiness of a string: [''] is falsy. *)
Definition truthy (s : string) : bool := bool_decide (s ≠ "").

Definition isPending (status : SessionStatus) : bool :=
  bool_decide (status ∈ [SCHEDULED; ACTIVE; FULL]).

Definition hasMember (userId : string) (session : Db.sessionRow) : bool :=
  bool_decide (Exists (λ m, Db.userId m = userId) (Db.partyMembers session)).

(** [isUserInActiveSession]: counts the sessions other than
    [excludeSessionId], of [campaignId], that are pending and have the user
    in their party. *)
Definition isUserInActiveSession (userId excludeSessionId campaignId : string)
    : M bool := λ w,
  let count :=
    length (filter (λ s,
        (truthy excludeSessionId = true → s.1 ≠ excludeSessionId)
        ∧ (truthy campaignId = true → Db.campaignId s.2 = campaignId)
        ∧ isPending (Db.status s.2) = true
        ∧ hasMember userId s.2 = true)
      (map_to_list (sessions w))) in
  (Returned (bool_decide (0 < count)), w).

Section calendar.
(** The calendar day of an instant in a timezone, [DATE(d AT TIME ZONE tz)]
    of the database; it is a parameter of the development. *)
Variable localDate : string → Date → Z.

(** [isUserHostingOnDate]: counts the pending sessions of the campaign on
    the same calendar day in which the user is the game master. *)
Definition isUserHostingOnDate (userId : string) (date : Date)
    (campaignId timezone : string) : M bool := λ w,
  let count :=
    length (filter (λ s,
        Db.campaignId s.2 = campaignId
        ∧ Exists (λ m, Db.userId m = userId ∧ Db.roleId m = GAME_MASTER)
            (Db.partyMembers s.2)
        ∧ isPending (Db.status s.2) = true
        ∧ localDate timezone (Db.date s.2) = localDate timezone date)
      (map_to_list (sessions w))) in
  (Returned (bool_decide (0 < count)), w).
End calendar.

(** ** partyMember.repository.ts and user.repository.ts *)

(** Modelled from the spec: [deletePartyMember] is missing.  "Removal and
    in-place role change are ordinary (non-racing, idempotent-by-identity)
    mutations keyed by (sessionId, userId)". *)
Definition deletePartyMember (userId sessionId : string) : M unit :=
  sync (set_sessions (alter (λ session,
    Db.with_partyMembers
      (filter (λ m, Db.userId m ≠ userId) (Db.partyMembers session))
      session) sessionId)).

(** Modelled from the spec: [updatePartyMemberRole] is missing; it is the
    in-place role change keyed by (sessionId, userId). *)
Definition updatePartyMemberRole (userId sessionId : string) (role : RoleType)
    : M unit :=
  sync (set_sessions (alter (λ session,
    Db.with_partyMembers
      (map (λ m, if decide (Db.userId m = userId) then Db.with_role role m
                 else m)
         (Db.partyMembers session))
      session) sessionId)).

(** Modelled from the spec: [addUserToPartyIfNotFull] is missing.  It is the
    conditional admit: "atomically insert the member only if the current
    roster size is strictly less than capacity; returns a boolean indicating
    success", with the fixed capacity 6. *)
Definition addUserToPartyIfNotFull (userId sessionId : string)
    (role : RoleType) (username : string) : M bool := λ w,
  match sessions w !! sessionId with
  | None => (Thrown (NotFound sessionId), w)
  | Some session =>
      if decide (length (Db.partyMembers session) < 6) then
        (Returned true,
         set_sessions (alter (λ session,
           Db.with_partyMembers
             (Db.partyMembers session ++ [Db.mkPartyMember userId role])
             session) sessionId) w)
      else (Returned false, w)
  end.

(** ** Discord collaborators *)

(** [deleteScheduledEvent] of the scheduled event service. *)
Definition deleteScheduledEvent (guildId eventId : string) : M unit :=
  perform (DeleteScheduledEvent guildId eventId) (λ w, w).

(** [notifyParty] of the messages module. *)
Definition notifyParty (userIds : list string) (notice : Notice) : M unit :=
  perform (NotifyParty userIds notice) (λ w, w).

(** ** sessionScheduler.ts: the registry *)

(** JavaScript truthiness of an optional object reference. *)
Definition defined {A} (o : option A) : bool :=
  match o with
  | Some _ => true
  | None => false
  end.

(** [job.stop()] on the job a reference points to. *)
Definition stopJob (job : option nat) (w : World) : World :=
  match job with
  | Some j => set_cronJobs (alter CronJob.stop j) w
  | None => w
  end.

(** [new CronJob(time, onTick, null, true, 'UTC')]: the job is started. *)
Definition newCronJob (time : Date) (onTick : JobKind) (sessionId : string)
    (w : World) : nat * World :=
  (length (cronJobs w),
   set_cronJobs (λ js, js ++ [CronJob.mk time onTick sessionId true]) w).

Definition cancelSessionTasks (sessionId : string) (w : World) : World :=
  match scheduledTasks w !! sessionId with
  | Some task =>
      let w := stopJob (ScheduledTask.reminderJob task) w in
      let w := stopJob (ScheduledTask.cancellationJob task) w in
      let w := stopJob (ScheduledTask.completionJob task) w in
      set_scheduledTasks (delete sessionId) w
  | None => w
  end.

(** [scheduleSessionTasks]; [now] is the clock reading of the call. *)
Definition scheduleSessionTasks (now : Date) (sessionId : string)
    (sessionDate : Date) (w : World) : World :=
  let w := cancelSessionTasks sessionId w in
  let reminderTime := getHoursBefore sessionDate 1 in
  let cancelTime := getMinutesBefore sessionDate 5 in
  let completionTime := getHoursAfter sessionDate 5 in
  let task := ScheduledTask.mk sessionId None None None in
  let '(task, w) :=
    if isFutureDate now reminderTime then
      let '(reminderJob, w) := newCronJob reminderTime ReminderJob sessionId w in
      (ScheduledTask.with_reminderJob (Some reminderJob) task, w)
    else (task, w) in
  let '(task, w) :=
    if isFutureDate now cancelTime then
      let '(cancellationJob, w) :=
        newCronJob cancelTime CancellationJob sessionId w in
      (ScheduledTask.with_cancellationJob (Some cancellationJob) task, w)
    else (task, w) in
  let '(task, w) :=
    if isFutureDate now completionTime then
      let '(completionJob, w) :=
        newCronJob completionTime CompletionJob sessionId w in
      (ScheduledTask.with_completionJob (Some completionJob) task, w)
    else (task, w) in
  if defined (ScheduledTask.reminderJob task)
     || defined (ScheduledTask.cancellationJob task)
     || defined (ScheduledTask.completionJob task)
  then set_scheduledTasks (insert sessionId task) w
  else w.

Definition clearReminderTask (sessionId : string) (w : World) : World :=
  match scheduledTasks w !! sessionId with
  | None => w
  | Some task =>
      match ScheduledTask.reminderJob task with
      | None => w
      | Some reminderJob =>
          let w := stopJob (Some reminderJob) w in
          let task := ScheduledTask.with_reminderJob None task in
          if negb (defined (ScheduledTask.cancellationJob task))
             && negb (defined (ScheduledTask.completionJob task))
          then set_scheduledTasks (delete sessionId) w
          else set_scheduledTasks (insert sessionId task) w
      end
  end.

Definition getScheduledTaskCount (w : World) : nat :=
  size (scheduledTasks w).

(** [shutdown]: stops the jobs of every task, then clears the map. *)
Definition shutdown (w : World) : World :=
  let w :=
    foldr (λ entry w,
        let task := entry.2 in
        let w := stopJob (ScheduledTask.reminderJob task) w in
        let w := stopJob (ScheduledTask.cancellationJob task) w in
        stopJob (ScheduledTask.completionJob task) w)
      w (reverse (map_to_list (scheduledTasks w))) in
  set_scheduledTasks (λ _, ∅) w.

(** ** session.controller.ts *)

Definition newline : string := String (Ascii.ascii_of_nat 10) "".

(** [regenerateSessionMessage]: reloads the session (a missing session
    rejects), then rebuilds and edits the Discord message. *)
Definition regenerateSessionMessage (sessionId : string)
    (descriptionOverride : option string) : M unit :=
  await session ← getSessionById sessionId;
  perform (RegenerateSessionMessage sessionId descriptionOverride) (λ w, w).

Definition cancelSession (sessionId : string) (reason : string) : M unit :=
  await session ← getSession sessionId;
  run sync (cancelSessionTasks sessionId);
  run match Session.eventId session with
      | Some eventId =>
          if truthy eventId then
            logged (deleteScheduledEvent (Session.guildId session) eventId)
          else ret tt
      | None => ret tt
      end;
  run try_catch (updateSession sessionId CANCELED) (λ error, throw error);
  run logged (regenerateSessionMessage sessionId
        (Some ("❌ **CANCELED** - " +:+ Session.name session +:+ newline
                 +:+ reason)));
  run logged (notifyParty
        (map PartyMember.userId (Session.partyMembers session))
        (SessionCanceledNotice sessionId reason));
  ret tt.

Definition endSession (sessionId : string) : M unit :=
  await session ← getSession sessionId;
  run sync (cancelSessionTasks sessionId);
  run match Session.eventId session with
      | Some eventId =>
          if truthy eventId then
            logged (deleteScheduledEvent (Session.guildId session) eventId)
          else ret tt
      | None => ret tt
      end;
  run try_catch (updateSession sessionId COMPLETED) (λ error, throw error);
  run logged (regenerateSessionMessage sessionId None);
  ret tt.

Section roleSelection.
Variable localDate : string → Date → Z.

(** [processRoleSelection]; [now] is the clock reading of [isFutureDate]. *)
Definition processRoleSelection (now : Date) (newPartyMember : PartyMember.t)
    (sessionId : string) : M RoleSelectionStatus :=
  await session ← getSession sessionId;
  let date := Session.date session in
  let party := Session.partyMembers session in
  let status := Session.status session in
  let campaignId := Session.campaignId session in
  let timezone := Session.timezone session in
  if match status with
     | Some status => bool_decide (status ≠ SCHEDULED)
     | None => false
     end
  then ret LOCKED
  else if negb (isFutureDate now date) then ret EXPIRED
  else if bool_decide (PartyMember.role newPartyMember = GAME_MASTER)
  then ret INVALID
  else
    match List.find (λ member, bool_decide (PartyMember.userId member
                                 = PartyMember.userId newPartyMember)) party
    with
    | Some existingMember =>
        if bool_decide (PartyMember.role existingMember
                        = PartyMember.role newPartyMember)
        then
          run deletePartyMember (PartyMember.userId existingMember) sessionId;
          ret REMOVED_FROM_PARTY
        else
          run updatePartyMemberRole (PartyMember.userId newPartyMember)
                sessionId (PartyMember.role newPartyMember);
          ret ROLE_CHANGED
    | None =>
        await isInAnotherSession ←
          isUserInActiveSession (PartyMember.userId newPartyMember)
            sessionId campaignId;
        if isInAnotherSession then ret ALREADY_IN_SESSION
        else
          await isHostingOnSameDay ←
            isUserHostingOnDate localDate
              (PartyMember.userId newPartyMember) date campaignId timezone;
          if isHostingOnSameDay then ret HOSTING_SAME_DAY
          else
            await wasAdded ←
              addUserToPartyIfNotFull (PartyMember.userId newPartyMember)
                sessionId (PartyMember.role newPartyMember)
                (PartyMember.username newPartyMember);
            if negb wasAdded then ret PARTY_FULL else ret ADDED_TO_PARTY
    end.
End roleSelection.

(** ** sessionScheduler.ts: the timer callbacks *)

Definition sendSessionReminders (session : Session.t) : M unit :=
  notifyParty (map PartyMember.userId (Session.partyMembers session))
    (SessionReminderNotice (Session.id session)).

Definition handleReminder (sessionId : string) : M unit :=
  try_finally
    (logged (
       await session ← getSessionById sessionId;
       sendSessionReminders session))
    (clearReminderTask sessionId).

(** The reason [cancelUnfilledSession] gives for a party of [size]. *)
Definition insufficientPlayers (size : nat) : string :=
  "Insufficient players (" +:+ pretty size +:+ "/6)".

Definition cancelUnfilledSession (session : Session.t) : M unit :=
  try_catch
    (let cancellationReason :=
       insufficientPlayers (length (Session.partyMembers session)) in
     cancelSession (Session.id session) cancellationReason)
    (λ error, logged (updateSession (Session.id session) CANCELED)).

Definition handleCancellation (sessionId : string) : M unit :=
  logged (
    await session ← getSessionById sessionId;
    let isPartyFull :=
      bool_decide (6 ≤ length (Session.partyMembers session)) in
    run (if negb isPartyFull then cancelUnfilledSession session
         else
           run logged (updateSession (Session.id session) ACTIVE);
           logged (regenerateSessionMessage (Session.id session) None));
    sync (cancelSessionTasks sessionId)).

Definition handleCompletion (sessionId : string) : M unit :=
  try_finally
    (logged (
       await session ← getSessionById sessionId;
       if bool_decide (Session.status session ≠ Some ACTIVE) then ret tt
       else endSession sessionId))
    (cancelSessionTasks sessionId).

(** ** sessionScheduler.ts: recovery at start-up *)

Definition recoveredReason : string :=
  "Session was not filled before start time (recovered after bot restart)".

(** The body of the loop of [handleMissedSessions], for one session. *)
Definition handleMissedSession (now : Date) (session : ListSessionsResult.t)
    : M unit :=
  let sessionStart := ListSessionsResult.date session in
  let completionTime := getHoursAfter sessionStart 5 in
  let id := ListSessionsResult.id session in
  let status := ListSessionsResult.status session in
  if negb (isFutureDate now sessionStart) then
    logged (
      if bool_decide (status = ACTIVE) && negb (isFutureDate now completionTime)
      then endSession id
      else if bool_decide (status = ACTIVE) && isFutureDate now completionTime
      then sync (scheduleSessionTasks now id sessionStart)
      else if bool_decide (status = SCHEDULED) || bool_decide (status = FULL)
      then
        await fullSession ← getSessionById id;
        let isPartyFull :=
          bool_decide (6 ≤ length (Session.partyMembers fullSession)) in
        if isPartyFull then
          run updateSession id ACTIVE;
          if isFutureDate now completionTime
          then sync (scheduleSessionTasks now id sessionStart)
          else endSession id
        else cancelSession id recoveredReason
      else ret tt)
  else ret tt.

Fixpoint handleMissedSessions (now : Date)
    (sessions : list ListSessionsResult.t) : M unit :=
  match sessions with
  | [] => ret tt
  | session :: rest =>
      run handleMissedSession now session;
      handleMissedSessions now rest
  end.

Definition initializeExistingSessions (now : Date) : M unit :=
  logged (
    await allSessions ← getSessions;
    let pendingSessions :=
      filter (λ session,
          ListSessionsResult.status session ∈ [SCHEDULED; FULL; ACTIVE])
        allSessions in
    run handleMissedSessions now pendingSessions;
    let futureSessions :=
      filter (λ session,
          isFutureDate now (ListSessionsResult.date session) = true)
        pendingSessions in
    sync (λ w,
      foldl (λ w session,
          scheduleSessionTasks now (ListSessionsResult.id session)
            (ListSessionsResult.date session) w)
        w futureSessions)).

(** ** session.repository.ts: the party of a new session *)

(** [partyMembersToCreate] of [createSession]: the creator as game master,
    then the members of the optional [party] whose role is not GAME_MASTER. *)
Definition partyMembersToCreate (userId : string)
    (party : option (list PartyMember.t)) : list Db.partyMemberRow :=
  Db.mkPartyMember userId GAME_MASTER
  :: match party with
     | Some party =>
         if bool_decide (0 < length party) then
           map (λ member, Db.mkPartyMember (PartyMember.userId member)
                            (PartyMember.role member))
             (filter (λ member, PartyMember.role member ≠ GAME_MASTER) party)
         else []
     | None => []
     end.

(** The [party] that [continueSession] builds and hands to [initSession]:
    the continuing user as game master, then the members of the existing
    session other than that user. *)
Definition continuedParty (userId username dmChannelId : string)
    (existingSession : Session.t) : list PartyMember.t :=
  PartyMember.mk userId username dmChannelId GAME_MASTER
  :: map (λ member,
        PartyMember.mk (PartyMember.userId member)
          (PartyMember.username member) (PartyMember.channelId member)
          (PartyMember.role member))
       (filter (λ member, PartyMember.userId member ≠ userId)
          (Session.partyMembers existingSession)).

(** ** session.controller.ts: [formatSessionsAsStr] *)

(** [ListSessionsOptions], the fields [formatSessionsAsStr] reads; an
    absent option is [false]. *)
Module ListSessionsOptions.
Record t := mk {
  includeId : bool;
  includeTime : bool;
  includeCampaign : bool;
  includeRole : bool;
}.
End ListSessionsOptions.

(** [ListSessionsResult] with the fields [formatSessionsAsStr] prints. *)
Module ListedSession.
Record t := mk {
  id : string;
  name : string;
  date : Date;
  userRole : option string;
  campaign : option string;
}.
End ListedSession.

(** JavaScript truthiness of an optional string. *)
Definition truthyOpt (s : option string) : bool :=
  match s with
  | Some s => truthy s
  | None => false
  end.

Definition tab : string := String (Ascii.ascii_of_nat 9) "".

Section formatting.
(** [Date.prototype.toUTCString] of the runtime. *)
Variable toUTCString : Date → string.

(** [headerParts]: the array with [false] for the columns that are off,
    passed through [filter(Boolean)]. *)
Definition headerParts (options : ListSessionsOptions.t) : list string :=
  omap (λ part : option string, part)
    [Some "Session Name";
     if ListSessionsOptions.includeId options
     then Some "Session Channel ID" else None;
     if ListSessionsOptions.includeTime options
     then Some "Scheduled Date" else None;
     if ListSessionsOptions.includeCampaign options
     then Some "Campaign Name" else None;
     if ListSessionsOptions.includeRole options
     then Some "User Role" else None].

(** The [row] built for one session by the callback of [sessions.map]. *)
Definition sessionCells (options : ListSessionsOptions.t)
    (session : ListedSession.t) : list string :=
  let row := [ListedSession.name session] in
  let row :=
    if ListSessionsOptions.includeId options
    then row ++ [ListedSession.id session] else row in
  let row :=
    if ListSessionsOptions.includeTime options
    then row ++ [toUTCString (ListedSession.date session)] else row in
  let row :=
    if ListSessionsOptions.includeCampaign options
       && truthyOpt (ListedSession.campaign session)
    then row ++ [default "" (ListedSession.campaign session)] else row in
  let row :=
    if ListSessionsOptions.includeRole options
       && truthyOpt (ListedSession.userRole session)
    then row ++ [default "" (ListedSession.userRole session)] else row in
  row.

Definition formatSessionsAsStr (sessions : list ListedSession.t)
    (options : ListSessionsOptions.t) (delimiter : string) : string :=
  let header := String.concat tab (headerParts options) in
  let data := map (sessionCells options) sessions in
  String.concat newline (map (String.concat delimiter) ([header] :: data)).
End formatting.

(** ** Observations used in the statements *)

(** The reasons announced to party members by [cancelSession], oldest
    first. *)
Definition cancelReasons (w : World) : list string :=
  omap (λ e, match e.1 with
             | NotifyParty _ (SessionCanceledNotice _ reason) => Some reason
             | _ => None
             end) (trace w).

Definition isCancelNotice (c : Call) : Prop :=
  match c with
  | NotifyParty _ (SessionCanceledNotice _ _) => True
  | _ => False
  end.

(** [quiet w w']: from [w] to [w'] only calls to Discord other than a
    cancellation notice were made; the store, the registry, the jobs and the
    failure schedule of the store are as they were. *)
Definition quiet (w w' : World) : Prop :=
  sessions w' = sessions w
  ∧ users w' = users w
  ∧ scheduledTasks w' = scheduledTasks w
  ∧ cronJobs w' = cronJobs w
  ∧ faults w' = faults w
  ∧ attempts OpUpdateSession w' = attempts OpUpdateSession w
  ∧ cancelReasons w' = cancelReasons w.
(** Whether the job behind reference [j] is started. *)
Definition isRunning (w : World) (j : nat) : bool :=
  match cronJobs w !! j with
  | Some job => CronJob.running job
  | None => false
  end.

(** The three instants [scheduleSessionTasks] computes for a session, each
    with the callback meant for it. *)
Definition targets (sessionDate : Date) : list (JobKind * Date) :=
  [(ReminderJob, getHoursBefore sessionDate 1);
   (CancellationJob, getMinutesBefore sessionDate 5);
   (CompletionJob, getHoursAfter sessionDate 5)].

(** Those of them that are still in the future at [now]. *)
Definition futureTargets (now sessionDate : Date) : list (JobKind * Date) :=
  filter (λ target, isFutureDate now target.2 = true) (targets sessionDate).

(** The timers of a session that can still fire: callback and instant of its
    started jobs, in the order of their creation. *)
Definition liveTimers (sessionId : string) (w : World)
    : list (JobKind * Date) :=
  map (λ job, (CronJob.onTick job, CronJob.cronTime job))
    (filter (λ job, CronJob.running job = true
                    ∧ CronJob.session job = sessionId) (cronJobs w)).

(** The registry knows every started job: it is held by the task registered
    for its session. *)
Definition registry_wf (w : World) : Prop :=
  ∀ j job, cronJobs w !! j = Some job → CronJob.running job = true →
    ∃ task, scheduledTasks w !! CronJob.session job = Some task
            ∧ j ∈ ScheduledTask.jobs task.

(** ** Example worlds *)

Module Examples.
(** A campaign's users, with their direct-message channels. *)
Definition someUsers : string → Db.userRow :=
  λ userId, Db.mkUser userId ("dm-" +:+ userId).

(** A game master and [n - 1] tanks. *)
Definition partyOf (n : nat) : list Db.partyMemberRow :=
  Db.mkPartyMember "gm" GAME_MASTER
  :: map (λ i, Db.mkPartyMember ("player" +:+ pretty i) TANK) (seq 1 (n - 1)).

(** The session "s1" starts at instant 100000000. *)
Definition start : Date := 100000000%Z.

Definition raid (status : SessionStatus) (n : nat) : Db.sessionRow :=
  Db.mkSession "Raid" start None "channel-1" "guild-1" (Some "event-1")
    status (partyOf n).

Definition noFaults : ExtOp → nat → bool := λ _ _, false.

(** Every call to Discord fails, the store works. *)
Definition discordDown : ExtOp → nat → bool :=
  λ op _, bool_decide (op ≠ OpUpdateSession).

(** The store rejects every write. *)
Definition storeDown : ExtOp → nat → bool :=
  λ op _, bool_decide (op = OpUpdateSession).

(** A fresh process with the one session "s1" in the store. *)
Definition fresh (status : SessionStatus) (n : nat)
    (faults : ExtOp → nat → bool) : World :=
  mkWorld {[ "s1" := raid status n ]} someUsers ∅ [] faults [].

(** The same once "s1" was scheduled at instant 0: its three timers are
    installed. *)
Definition scheduled (status : SessionStatus) (n : nat)
    (faults : ExtOp → nat → bool) : World :=
  scheduleSessionTasks 0 "s1" start (fresh status n faults).
End Examples.

(** ** Further observations on the registry *)

(** The session a job was created for, by reference. *)
Definition jobSession (w : World) (j : nat) : option string :=
  CronJob.session <$> cronJobs w !! j.

(** Every reference held by a task points to a job of the task's session. *)
Definition registry_owned (w : World) : Prop :=
  ∀ sessionId task j,
    scheduledTasks w !! sessionId = Some task →
    j ∈ ScheduledTask.jobs task →
    jobSession w j = Some sessionId.


(** ** A second example world *)

Module TwoSessions.
(** Two sessions of the same channel, "s1" at [Examples.start] and "s2" a
    day later, both stored and scheduled at instant 0. *)
Definition store : gmap string Db.sessionRow :=
  <[ "s2" := Db.mkSession "Heist" (Examples.start + 86400000)%Z None
               "channel-1" "guild-1" None SCHEDULED
               [Db.mkPartyMember "gm2" GAME_MASTER;
                Db.mkPartyMember "player7" SUPPORT] ]>
    {[ "s1" := Examples.raid SCHEDULED 3 ]}.

Definition fresh : World :=
  mkWorld store Examples.someUsers ∅ [] Examples.noFaults [].

Definition scheduled : World :=
  scheduleSessionTasks 0 "s2" (Examples.start + 86400000)%Z
    (scheduleSessionTasks 0 "s1" Examples.start fresh).
End TwoSessions.


(** [stepFrame sessionId w w']: going from [w] to [w'] keeps the two
    invariants of the registry and leaves the row and the timers of every
    session other than [sessionId] as they were. *)
Definition stepFrame (sessionId : string) (w w' : World) : Prop :=
  (registry_wf w → registry_wf w')
  ∧ (registry_owned w → registry_owned w')
  ∧ (∀ other, other ≠ sessionId →
       sessions w' !! other = sessions w !! other)
  ∧ (∀ other, other ≠ sessionId → registry_owned w →
       liveTimers other w' = liveTimers other w).


(** ** session.repository.ts: [isUserMemberOnDate] *)

Section memberCalendar.
Variable localDate : string → Date → Z.

(** [isUserMemberOnDate]: counts the pending sessions of the campaign on the
    same calendar day in which the user has a role other than game master. *)
Definition isUserMemberOnDate (userId : string) (date : Date)
    (campaignId timezone : string) : M bool := λ w,
  let count :=
    length (filter (λ s,
        Db.campaignId s.2 = campaignId
        ∧ Exists (λ m, Db.userId m = userId ∧ Db.roleId m ≠ GAME_MASTER)
            (Db.partyMembers s.2)
        ∧ isPending (Db.status s.2) = true
        ∧ localDate timezone (Db.date s.2) = localDate timezone date)
      (map_to_list (sessions w))) in
  (Returned (bool_decide (0 < count)), w).
End memberCalendar.

(** ** session.controller.ts: [isSessionValid] *)

(** The messages of [BotDialogs] that [isSessionValid] returns; their text
    is a parameter of the development. *)
Module BotDialogs.
Record t := mk {
  createSessionInvalidGuild : string;
  createSessionInvalidDate : string;
  createSessionDateMustBeFuture : string;
  createSessionInvalidUserId : string;
  createSessionHostingMultipleSessions : string;
  createSessionAlreadyMemberSameDay : string;
}.
End BotDialogs.

Section validation.
Variable localDate : string → Date → Z.
Variable now : Date.
Variable dialogs : BotDialogs.t.

(** [isSessionValid]: the message of the first check that fails, [''] when
    none does.  [date] is [None] for a missing or invalid [Date]. *)
Definition isSessionValid (campaignId : string) (date : option Date)
    (userId timezone : string) : M string :=
  if negb (truthy campaignId) then
    ret (BotDialogs.createSessionInvalidGuild dialogs)
  else
    match date with
    | None => ret (BotDialogs.createSessionInvalidDate dialogs)
    | Some date =>
        if negb (isFutureDate now date) then
          ret (BotDialogs.createSessionDateMustBeFuture dialogs)
        else if negb (truthy userId) then
          ret (BotDialogs.createSessionInvalidUserId dialogs)
        else
          await isHostingOnSameDay ←
            isUserHostingOnDate localDate userId date campaignId timezone;
          if isHostingOnSameDay then
            ret (BotDialogs.createSessionHostingMultipleSessions dialogs)
          else
            await isMemberOnSameDay ←
              isUserMemberOnDate localDate userId date campaignId timezone;
            if isMemberOnSameDay then
              ret (BotDialogs.createSessionAlreadyMemberSameDay dialogs)
            else ret EmptyString
    end.
End validation.

(** ** adminServer.ts *)

Module AdminServer.
(** What the request listener reads of an [http.IncomingMessage]. *)
Record Request := mkRequest {
  url : string;
  method : string;
  authorization : option string;
}.

(** What the listener does with the response: a status with a text body, a
    status with a JSON object, a status alone, or the hand-over to
    [handleRegenSession]. *)
Inductive Response :=
  | Text (status : nat) (body : string)
  | Json (status : nat) (body : list (string * string))
  | Empty (status : nat)
  | HandleRegenSession.

(** [String.prototype.slice] with one argument within the string's length. *)
Fixpoint slice (n : nat) (s : string) : string :=
  match n, s with
  | O, _ => s
  | S n, String _ s => slice n s
  | S _, EmptyString => EmptyString
  end.

Section server.
(** [crypto.createHmac('sha256', key).digest()], the digest of the empty
    message under [key]. *)
Variable hmacSha256 : string → string.

(** [isAuthorized]; [timingSafeEqual] of two digests, which have the same
    length, is their equality. *)
Definition isAuthorized (req : Request) (token : string) : bool :=
  match authorization req with
  | Some authHeader =>
      if negb (String.prefix "Bearer " authHeader) then false
      else
        let provided := slice (String.length "Bearer ") authHeader in
        let expected := hmacSha256 token in
        let received := hmacSha256 provided in
        bool_decide (expected = received)
  | None => false
  end.

(** The listener of [createAdminServer]; [adminApiToken] is
    [process.env.ADMIN_API_TOKEN]. *)
Definition createAdminServer (adminApiToken : option string) (req : Request)
    : Response :=
  if bool_decide (url req = "/health") then Text 200 "OK"
  else if bool_decide (url req = "/admin/regen-session")
          && bool_decide (method req = "POST") then
    if negb (truthyOpt adminApiToken) then
      Json 403 [("error", "Admin API not configured")]
    else if negb (isAuthorized req (default EmptyString adminApiToken)) then
      Json 401 [("error", "Unauthorized")]
    else HandleRegenSession
  else Empty 404.
End server.
End AdminServer.


(** * Properties *)

(** ** The registry functions only touch the registry and the jobs *)

Lemma cancelSessionTasks_frame sessionId w :
  sessions (cancelSessionTasks sessionId w) = sessions w
  ∧ users (cancelSessionTasks sessionId w) = users w
  ∧ faults (cancelSessionTasks sessionId w) = faults w
  ∧ trace (cancelSessionTasks sessionId w) = trace w.
Proof.
  unfold cancelSessionTasks.
  destruct (scheduledTasks w !! sessionId) as [[sid [r|] [c|] [k|]]|]; done.
Qed.

Lemma cancelSessionTasks_tasks sessionId w :
  scheduledTasks (cancelSessionTasks sessionId w)
  = delete sessionId (scheduledTasks w).
Proof.
  unfold cancelSessionTasks.
  destruct (scheduledTasks w !! sessionId) as [[sid [r|] [c|] [k|]]|] eqn:E;
    try done.
  symmetry. by apply delete_id.
Qed.

Lemma cancelSessionTasks_absent sessionId w :
  scheduledTasks w !! sessionId = None → cancelSessionTasks sessionId w = w.
Proof. unfold cancelSessionTasks. by intros ->. Qed.

Lemma cancelSessionTasks_idem sessionId w :
  cancelSessionTasks sessionId (cancelSessionTasks sessionId w)
  = cancelSessionTasks sessionId w.
Proof.
  apply cancelSessionTasks_absent.
  rewrite cancelSessionTasks_tasks. apply lookup_delete_eq.
Qed.

Lemma next_fails_cancelSessionTasks op sessionId w :
  next_fails op (cancelSessionTasks sessionId w) = next_fails op w.
Proof.
  unfold next_fails, attempts.
  destruct (cancelSessionTasks_frame sessionId w) as (_ & _ & -> & ->). done.
Qed.

Lemma getSession_found sessionId session w :
  sessions w !! sessionId = Some session →
  getSession sessionId w
  = (Returned (toSessionWithParty w sessionId session), w).
Proof. unfold getSession. by intros ->. Qed.

Lemma getSession_missing sessionId w :
  sessions w !! sessionId = None →
  getSession sessionId w = (Thrown (NotFound sessionId), w).
Proof. unfold getSession. by intros ->. Qed.

(** A logged call to Discord always returns and only extends the trace. *)
Lemma logged_perform c w :
  logged (perform c (λ w, w)) w
  = (Returned tt,
     set_trace (λ t, t ++ [(c, negb (next_fails (call_op c) w))]) w).
Proof.
  unfold logged, try_catch, perform, ret.
  by destruct (next_fails (call_op c) w).
Qed.

Lemma quiet_refl w : quiet w w.
Proof. by repeat split. Qed.

Lemma quiet_next_fails w w' :
  quiet w w' → next_fails OpUpdateSession w' = next_fails OpUpdateSession w.
Proof. intros (?&?&?&?&Hf&Ha&?). unfold next_fails. by rewrite Hf, Ha. Qed.

Lemma attempts_logged op c b w :
  attempts op (set_trace (λ t, t ++ [(c, b)]) w)
  = if decide (call_op c = op) then S (attempts op w) else attempts op w.
Proof.
  unfold attempts. simpl. rewrite filter_app, length_app.
  destruct (decide (call_op c = op)).
  - rewrite filter_cons_True by done. simpl. lia.
  - rewrite filter_cons_False by done. simpl. lia.
Qed.

Lemma attempts_set_sessions op f w :
  attempts op (set_sessions f w) = attempts op w.
Proof. done. Qed.

Lemma cancelReasons_set_sessions f w :
  cancelReasons (set_sessions f w) = cancelReasons w.
Proof. done. Qed.

Lemma cancelReasons_logged c b w :
  cancelReasons (set_trace (λ t, t ++ [(c, b)]) w)
  = cancelReasons w
    ++ match c with
       | NotifyParty _ (SessionCanceledNotice _ reason) => [reason]
       | _ => []
       end.
Proof.
  unfold cancelReasons. simpl. rewrite omap_app. f_equal.
  by destruct c as [| | |? []].
Qed.

Lemma quiet_logged c b w :
  call_op c ≠ OpUpdateSession → ¬ isCancelNotice c →
  quiet w (set_trace (λ t, t ++ [(c, b)]) w).
Proof.
  intros Hop Hc. repeat split.
  - rewrite attempts_logged. by destruct (decide _).
  - rewrite cancelReasons_logged.
    destruct c as [| | |? []]; simpl in *; try by rewrite app_nil_r.
    by destruct Hc.
Qed.

Lemma deleteEvent_quiet (eventId : option string) (guildId : string) w :
  ∃ w',
    match eventId with
    | Some eventId =>
        if truthy eventId then logged (deleteScheduledEvent guildId eventId)
        else ret tt
    | None => ret tt
    end w = (Returned tt, w')
    ∧ quiet w w'.
Proof.
  destruct eventId as [ev|]; [destruct (truthy ev)|].
  - unfold deleteScheduledEvent. rewrite logged_perform. eexists; split; [done|].
    apply quiet_logged; simpl; [discriminate | tauto].
  - exists w. split; [done|apply quiet_refl].
  - exists w. split; [done|apply quiet_refl].
Qed.

Lemma regenerateSessionMessage_quiet sessionId descriptionOverride w :
  ∃ w',
    logged (regenerateSessionMessage sessionId descriptionOverride) w
    = (Returned tt, w')
    ∧ quiet w w'.
Proof.
  unfold regenerateSessionMessage, logged, try_catch, bind, getSessionById,
    getSession.
  destruct (sessions w !! sessionId).
  - unfold perform. destruct (next_fails _ w); simpl;
      (eexists; split; [done|]); apply quiet_logged; simpl;
      solve [discriminate | tauto].
  - exists w. split; [done|apply quiet_refl].
Qed.

(** [catch (error) { throw error }] changes nothing. *)
Lemma rethrow {A} (m : M A) w : try_catch m (λ error, throw error) w = m w.
Proof. unfold try_catch, throw. by destruct (m w) as [[] ?]. Qed.

Lemma updateSession_found sessionId status session w :
  sessions w !! sessionId = Some session →
  updateSession sessionId status w
  = if next_fails OpUpdateSession w
    then (Thrown (CallFailed (UpdateSession sessionId status)),
          set_trace (λ t, t ++ [(UpdateSession sessionId status, false)]) w)
    else (Returned tt,
          set_sessions (alter (Db.with_status status) sessionId)
            (set_trace (λ t, t ++ [(UpdateSession sessionId status, true)]) w)).
Proof.
  intros H. unfold updateSession, perform. rewrite H. simpl.
  by destruct (next_fails OpUpdateSession w).
Qed.

Lemma cancelSession_run sessionId reason session w :
  sessions w !! sessionId = Some session →
  ∃ w',
    cancelSession sessionId reason w =
      (if next_fails OpUpdateSession w
       then Thrown (CallFailed (UpdateSession sessionId CANCELED))
       else Returned tt, w')
    ∧ sessions w' = (if next_fails OpUpdateSession w then sessions w
                     else alter (Db.with_status CANCELED) sessionId (sessions w))
    ∧ scheduledTasks w' = delete sessionId (scheduledTasks w)
    ∧ cronJobs w' = cronJobs (cancelSessionTasks sessionId w)
    ∧ users w' = users w ∧ faults w' = faults w
    ∧ attempts OpUpdateSession w' = S (attempts OpUpdateSession w)
    ∧ cancelReasons w' = (if next_fails OpUpdateSession w then cancelReasons w
                          else cancelReasons w ++ [reason]).
Proof.
  intros H. unfold cancelSession, bind.
  rewrite (getSession_found _ _ _ H). unfold sync at 1.
  destruct (cancelSessionTasks_frame sessionId w) as (Hs & Hu & Hf & Ht).
  pose proof (cancelSessionTasks_tasks sessionId w) as Hk.
  set (w1 := cancelSessionTasks sessionId w) in *.
  cbn [Session.eventId toSessionWithParty Session.guildId].
  destruct (deleteEvent_quiet (Db.eventId session) (Db.guildId session) w1)
    as (w2 & -> & Q2).
  pose proof (quiet_next_fails _ _ Q2) as Hn2.
  destruct Q2 as (Hs2 & Hu2 & Hk2 & Hj2 & Hf2 & Ha2 & Hr2).
  assert (next_fails OpUpdateSession w2 = next_fails OpUpdateSession w) as Hn.
  { rewrite Hn2. apply next_fails_cancelSessionTasks. }
  assert (attempts OpUpdateSession w1 = attempts OpUpdateSession w) as Ha1.
  { unfold attempts. by rewrite Ht. }
  assert (cancelReasons w1 = cancelReasons w) as Hr1.
  { unfold cancelReasons. by rewrite Ht. }
  rewrite rethrow, (updateSession_found _ _ session) by congruence.
  rewrite Hn. destruct (next_fails OpUpdateSession w).
  - eexists. split; [done|]. simpl. rewrite attempts_logged, cancelReasons_logged.
    simpl. rewrite app_nil_r. repeat split; congruence.
  - match goal with |- context [logged (regenerateSessionMessage ?i ?d) ?w] =>
      destruct (regenerateSessionMessage_quiet i d w) as (w4 & -> & Q4) end.
    destruct Q4 as (Hs4 & Hu4 & Hk4 & Hj4 & Hf4 & Ha4 & Hr4).
    unfold notifyParty. rewrite logged_perform. unfold ret.
    eexists. split; [done|]. simpl.
    rewrite attempts_logged, cancelReasons_logged. simpl.
    rewrite attempts_set_sessions, attempts_logged in Ha4.
    rewrite cancelReasons_set_sessions, cancelReasons_logged in Hr4.
    simpl in *. rewrite app_nil_r in Hr4.
    repeat split; congruence.
Qed.

Lemma endSession_run sessionId session w :
  sessions w !! sessionId = Some session →
  ∃ w',
    endSession sessionId w =
      (if next_fails OpUpdateSession w
       then Thrown (CallFailed (UpdateSession sessionId COMPLETED))
       else Returned tt, w')
    ∧ sessions w' = (if next_fails OpUpdateSession w then sessions w
                     else alter (Db.with_status COMPLETED) sessionId (sessions w))
    ∧ scheduledTasks w' = delete sessionId (scheduledTasks w)
    ∧ cronJobs w' = cronJobs (cancelSessionTasks sessionId w)
    ∧ users w' = users w ∧ faults w' = faults w
    ∧ attempts OpUpdateSession w' = S (attempts OpUpdateSession w)
    ∧ cancelReasons w' = cancelReasons w.
Proof.
  intros H. unfold endSession, bind.
  rewrite (getSession_found _ _ _ H). unfold sync at 1.
  destruct (cancelSessionTasks_frame sessionId w) as (Hs & Hu & Hf & Ht).
  pose proof (cancelSessionTasks_tasks sessionId w) as Hk.
  set (w1 := cancelSessionTasks sessionId w) in *.
  cbn [Session.eventId toSessionWithParty Session.guildId].
  destruct (deleteEvent_quiet (Db.eventId session) (Db.guildId session) w1)
    as (w2 & -> & Q2).
  pose proof (quiet_next_fails _ _ Q2) as Hn2.
  destruct Q2 as (Hs2 & Hu2 & Hk2 & Hj2 & Hf2 & Ha2 & Hr2).
  assert (next_fails OpUpdateSession w2 = next_fails OpUpdateSession w) as Hn.
  { rewrite Hn2. apply next_fails_cancelSessionTasks. }
  assert (attempts OpUpdateSession w1 = attempts OpUpdateSession w) as Ha1.
  { unfold attempts. by rewrite Ht. }
  assert (cancelReasons w1 = cancelReasons w) as Hr1.
  { unfold cancelReasons. by rewrite Ht. }
  rewrite rethrow, (updateSession_found _ _ session) by congruence.
  rewrite Hn. destruct (next_fails OpUpdateSession w).
  - eexists. split; [done|]. simpl. rewrite attempts_logged, cancelReasons_logged.
    simpl. rewrite app_nil_r. repeat split; congruence.
  - match goal with |- context [logged (regenerateSessionMessage ?i ?d) ?w] =>
      destruct (regenerateSessionMessage_quiet i d w) as (w4 & -> & Q4) end.
    destruct Q4 as (Hs4 & Hu4 & Hk4 & Hj4 & Hf4 & Ha4 & Hr4).
    unfold ret. eexists. split; [done|].
    rewrite attempts_set_sessions, attempts_logged in Ha4.
    rewrite cancelReasons_set_sessions, cancelReasons_logged in Hr4.
    simpl in *. rewrite app_nil_r in Hr4.
    repeat split; congruence.
Qed.

(** ** Errors of [cancelSession] and [endSession] *)

(** C9.  In [cancelSession] and [endSession] on an existing session, the
    promise is rejected exactly when the write of the CANCELED / COMPLETED
    status fails, with the error of that write and the stored sessions left
    as they were; when the write succeeds the promise resolves and the
    session is stored with the new status.  This holds in every world, that
    is whatever failures the environment schedules for deleting the scheduled
    event, regenerating the session message and notifying the party. *)
Theorem cancel_end_error_policy sessionId reason session w :
  sessions w !! sessionId = Some session →
  (∃ w',
     cancelSession sessionId reason w
     = (if next_fails OpUpdateSession w
        then Thrown (CallFailed (UpdateSession sessionId CANCELED))
        else Returned tt, w')
     ∧ sessions w'
       = if next_fails OpUpdateSession w then sessions w
         else <[sessionId := Db.with_status CANCELED session]> (sessions w))
  ∧ (∃ w',
       endSession sessionId w
       = (if next_fails OpUpdateSession w
          then Thrown (CallFailed (UpdateSession sessionId COMPLETED))
          else Returned tt, w')
       ∧ sessions w'
         = if next_fails OpUpdateSession w then sessions w
           else <[sessionId := Db.with_status COMPLETED session]> (sessions w)).
Proof.
  intros H. split.
  - destruct (cancelSession_run sessionId reason session w H)
      as (w' & E & Hs & _).
    exists w'. split; [done|]. rewrite Hs.
    by rewrite (alter_alt_Some _ _ _ _ H).
  - destruct (endSession_run sessionId session w H) as (w' & E & Hs & _).
    exists w'. split; [done|]. rewrite Hs.
    by rewrite (alter_alt_Some _ _ _ _ H).
Qed.

Lemma cancel_end_error_policy_witness :
  sessions (Examples.scheduled ACTIVE 3 Examples.discordDown) !! "s1"
  = Some (Examples.raid ACTIVE 3)
  ∧ (∃ w',
       cancelSession "s1" "called off"
         (Examples.scheduled ACTIVE 3 Examples.discordDown)
       = (Returned tt, w')
       ∧ sessions w' = {[ "s1" := Examples.raid CANCELED 3 ]})
  ∧ (∃ w',
       endSession "s1" (Examples.scheduled ACTIVE 3 Examples.discordDown)
       = (Returned tt, w')
       ∧ sessions w' = {[ "s1" := Examples.raid COMPLETED 3 ]}).
Proof.
  assert (sessions (Examples.scheduled ACTIVE 3 Examples.discordDown) !! "s1"
          = Some (Examples.raid ACTIVE 3)) as H by (vm_compute; reflexivity).
  split; [exact H|].
  destruct (cancel_end_error_policy "s1" "called off" _ _ H)
    as [(w1 & E1 & S1) (w2 & E2 & S2)].
  assert (next_fails OpUpdateSession
            (Examples.scheduled ACTIVE 3 Examples.discordDown) = false) as N
    by (vm_compute; reflexivity).
  rewrite N in E1, S1, E2, S2.
  split.
  - exists w1. split; [exact E1|]. rewrite S1. vm_compute. reflexivity.
  - exists w2. split; [exact E2|]. rewrite S2. vm_compute. reflexivity.
Defined.

(** ** Stopping jobs *)

Lemma stopJob_lookup job w j :
  cronJobs (stopJob job w) !! j
  = if decide (job = Some j) then CronJob.stop <$> cronJobs w !! j
    else cronJobs w !! j.
Proof.
  destruct job as [i|]; simpl.
  - rewrite list_lookup_alter.
    destruct (decide (i = j)) as [->|]; destruct (decide (Some _ = Some j));
      congruence.
  - by destruct (decide (None = Some j)).
Qed.

Lemma isRunning_stopJob job w j :
  isRunning (stopJob job w) j
  = if decide (job = Some j) then false else isRunning w j.
Proof.
  unfold isRunning. rewrite stopJob_lookup.
  destruct (decide (job = Some j)); [|done]. by destruct (cronJobs w !! j).
Qed.

Lemma isRunning_cancelSessionTasks sessionId w j :
  isRunning (cancelSessionTasks sessionId w) j
  = match scheduledTasks w !! sessionId with
    | Some task =>
        if decide (j ∈ ScheduledTask.jobs task) then false else isRunning w j
    | None => isRunning w j
    end.
Proof.
  unfold cancelSessionTasks.
  destruct (scheduledTasks w !! sessionId) as [[sid r c k]|]; [|done].
  unfold ScheduledTask.jobs. simpl.
  change (isRunning (set_scheduledTasks (delete sessionId) ?w) j)
    with (isRunning w j).
  rewrite !isRunning_stopJob.
  assert (∀ o : option nat, j ∈ option_list o ↔ o = Some j) as Hopt.
  { intros [x|]; simpl; [rewrite list_elem_of_singleton|rewrite elem_of_nil];
      naive_solver. }
  destruct (decide (j ∈ _)) as [Hin|Hnin].
  - rewrite !elem_of_app, !Hopt in Hin.
    repeat case_decide; first [done | intuition congruence].
  - rewrite !elem_of_app, !Hopt in Hnin.
    repeat case_decide; first [done | intuition congruence].
Qed.

(** ** The timer callbacks, run *)

Lemma logged_updateSession_run sessionId status session w :
  sessions w !! sessionId = Some session →
  ∃ w',
    logged (updateSession sessionId status) w = (Returned tt, w')
    ∧ sessions w' = (if next_fails OpUpdateSession w then sessions w
                     else alter (Db.with_status status) sessionId (sessions w))
    ∧ users w' = users w
    ∧ scheduledTasks w' = scheduledTasks w
    ∧ cronJobs w' = cronJobs w
    ∧ faults w' = faults w
    ∧ attempts OpUpdateSession w' = S (attempts OpUpdateSession w)
    ∧ cancelReasons w' = cancelReasons w.
Proof.
  intros H. unfold logged, try_catch.
  rewrite (updateSession_found _ _ _ _ H).
  destruct (next_fails OpUpdateSession w); (eexists; split; [done|]);
    simpl; rewrite ?attempts_set_sessions, ?cancelReasons_set_sessions,
      attempts_logged, cancelReasons_logged; simpl; by rewrite app_nil_r.
Qed.

Lemma cancelSessionTasks_congr sessionId w1 w2 :
  scheduledTasks w1 = scheduledTasks w2 → cronJobs w1 = cronJobs w2 →
  cronJobs (cancelSessionTasks sessionId w1)
  = cronJobs (cancelSessionTasks sessionId w2).
Proof.
  intros Hk Hj. unfold cancelSessionTasks. rewrite Hk.
  destruct (scheduledTasks w2 !! sessionId) as [[sid r c k]|]; [|done].
  unfold stopJob. simpl. destruct r, c, k; simpl; by rewrite Hj.
Qed.

Lemma handleCancellation_full sessionId session w :
  sessions w !! sessionId = Some session →
  6 ≤ length (Db.partyMembers session) →
  ∃ w',
    handleCancellation sessionId w = (Returned tt, w')
    ∧ sessions w' = (if next_fails OpUpdateSession w then sessions w
                     else alter (Db.with_status ACTIVE) sessionId (sessions w))
    ∧ scheduledTasks w' = delete sessionId (scheduledTasks w)
    ∧ cronJobs w' = cronJobs (cancelSessionTasks sessionId w).
Proof.
  intros H Hfull. unfold handleCancellation, logged at 1, try_catch, bind.
  unfold getSessionById. rewrite (getSession_found _ _ _ H).
  cbn [toSessionWithParty Session.partyMembers Session.id].
  rewrite length_map, bool_decide_eq_true_2 by done. cbn [negb].
  destruct (logged_updateSession_run sessionId ACTIVE session w H)
    as (w2 & -> & Hs2 & Hu2 & Hk2 & Hj2 & Hf2 & Ha2 & Hr2).
  destruct (regenerateSessionMessage_quiet sessionId None w2)
    as (w3 & -> & Hs3 & Hu3 & Hk3 & Hj3 & Hf3 & Ha3 & Hr3).
  unfold sync. eexists. split; [done|].
  destruct (cancelSessionTasks_frame sessionId w3) as (-> & _).
  rewrite cancelSessionTasks_tasks.
  rewrite (cancelSessionTasks_congr sessionId w3 w) by congruence.
  repeat split; congruence.
Qed.

Lemma handleCancellation_unfilled sessionId session w :
  sessions w !! sessionId = Some session →
  length (Db.partyMembers session) < 6 →
  ∃ w',
    handleCancellation sessionId w = (Returned tt, w')
    ∧ scheduledTasks w' = delete sessionId (scheduledTasks w)
    ∧ cronJobs w' = cronJobs (cancelSessionTasks sessionId w)
    ∧ (next_fails OpUpdateSession w = false →
       cancelSession sessionId
         (insufficientPlayers (length (Db.partyMembers session))) w
       = (Returned tt, w'))
    ∧ (next_fails OpUpdateSession w = true →
       sessions w'
       = if faults w OpUpdateSession (S (attempts OpUpdateSession w))
         then sessions w
         else alter (Db.with_status CANCELED) sessionId (sessions w)).
Proof.
  intros H Hsmall. unfold handleCancellation, logged at 1, try_catch at 1, bind.
  unfold getSessionById. rewrite (getSession_found _ _ _ H).
  cbn [toSessionWithParty Session.partyMembers Session.id].
  rewrite length_map, bool_decide_eq_false_2 by lia. cbn [negb].
  unfold cancelUnfilledSession, try_catch at 1.
  cbn [toSessionWithParty Session.partyMembers Session.id].
  rewrite length_map.
  destruct (cancelSession_run sessionId
              (insufficientPlayers (length (Db.partyMembers session)))
              session w H)
    as (w1 & -> & Hs1 & Hk1 & Hj1 & Hu1 & Hf1 & Ha1 & Hr1).
  destruct (next_fails OpUpdateSession w) eqn:Hn.
  - assert (sessions w1 !! sessionId = Some session) as H1 by congruence.
    destruct (logged_updateSession_run sessionId CANCELED session w1 H1)
      as (w2 & -> & Hs2 & Hu2 & Hk2 & Hj2 & Hf2 & Ha2 & Hr2).
    unfold sync. eexists. split; [done|].
    rewrite cancelSessionTasks_absent
      by (rewrite Hk2, Hk1; apply lookup_delete_eq).
    split; [congruence|]. split; [congruence|]. split; [done|].
    intros _. rewrite Hs2. unfold next_fails. by rewrite Hf1, Ha1, Hs1.
  - unfold sync. eexists. split; [done|].
    rewrite cancelSessionTasks_absent by (rewrite Hk1; apply lookup_delete_eq).
    split; [congruence|]. split; [congruence|]. split; done.
Qed.

Lemma handleCompletion_active sessionId session w :
  sessions w !! sessionId = Some session →
  Db.status session = ACTIVE →
  ∃ w',
    handleCompletion sessionId w = (Returned tt, w')
    ∧ logged (endSession sessionId) w = (Returned tt, w')
    ∧ sessions w' = (if next_fails OpUpdateSession w then sessions w
                     else alter (Db.with_status COMPLETED) sessionId
                            (sessions w))
    ∧ scheduledTasks w' = delete sessionId (scheduledTasks w)
    ∧ cronJobs w' = cronJobs (cancelSessionTasks sessionId w).
Proof.
  intros H Hst. unfold handleCompletion, try_finally, logged, try_catch, bind.
  unfold getSessionById. rewrite (getSession_found _ _ _ H).
  cbn [toSessionWithParty Session.status]. rewrite Hst.
  rewrite bool_decide_eq_false_2 by (intros ?; congruence).
  destruct (endSession_run sessionId session w H)
    as (w1 & -> & Hs1 & Hk1 & Hj1 & _).
  destruct (next_fails OpUpdateSession w); unfold ret;
    rewrite cancelSessionTasks_absent by (rewrite Hk1; apply lookup_delete_eq);
    by eexists.
Qed.

Lemma handleCompletion_not_active sessionId session w :
  sessions w !! sessionId = Some session →
  Db.status session ≠ ACTIVE →
  handleCompletion sessionId w = (Returned tt, cancelSessionTasks sessionId w).
Proof.
  intros H Hst. unfold handleCompletion, try_finally, logged, try_catch, bind.
  unfold getSessionById. rewrite (getSession_found _ _ _ H).
  cbn [toSessionWithParty Session.status].
  rewrite bool_decide_eq_true_2 by congruence. done.
Qed.

Lemma handleCompletion_missing sessionId w :
  sessions w !! sessionId = None →
  handleCompletion sessionId w = (Returned tt, cancelSessionTasks sessionId w).
Proof.
  intros H. unfold handleCompletion, try_finally, logged, try_catch, bind.
  unfold getSessionById. by rewrite (getSession_missing _ _ H).
Qed.

(** ** Recovery of one session, run *)

Lemma isFutureDate_start now date :
  isFutureDate now (getHoursAfter date 5) = false →
  isFutureDate now date = false.
Proof.
  unfold isFutureDate, getHoursAfter.
  rewrite !bool_decide_eq_false. lia.
Qed.

Lemma handleMissedSession_active_past now sessionId date w :
  isFutureDate now (getHoursAfter date 5) = false →
  handleMissedSession now (ListSessionsResult.mk sessionId date ACTIVE) w
  = logged (endSession sessionId) w.
Proof.
  intros Hpast. unfold handleMissedSession. simpl.
  by rewrite (isFutureDate_start _ _ Hpast), Hpast.
Qed.

Lemma handleMissedSession_unfilled now sessionId session w :
  sessions w !! sessionId = Some session →
  Db.status session = SCHEDULED ∨ Db.status session = FULL →
  isFutureDate now (Db.date session) = false →
  length (Db.partyMembers session) < 6 →
  handleMissedSession now
    (ListSessionsResult.mk sessionId (Db.date session) (Db.status session)) w
  = logged (cancelSession sessionId recoveredReason) w.
Proof.
  intros H Hst Hpast Hsmall. unfold handleMissedSession. simpl.
  rewrite Hpast. simpl.
  assert (bool_decide (Db.status session = ACTIVE) = false) as ->
    by (apply bool_decide_eq_false_2; destruct Hst; congruence).
  assert (bool_decide (Db.status session = SCHEDULED)
          || bool_decide (Db.status session = FULL) = true) as ->.
  { destruct Hst as [-> | ->]; done. }
  simpl. unfold logged, try_catch, bind, getSessionById.
  rewrite (getSession_found _ _ _ H).
  cbn [toSessionWithParty Session.partyMembers].
  rewrite length_map, bool_decide_eq_false_2 by lia. done.
Qed.

(** ** The fill deadline *)

(** C1.  The fill-deadline callback on a party of 6 stores the status ACTIVE
    and then calls [cancelSessionTasks], which stops the completion job and
    drops the session's entry: in the world where session "s1" has 6 members
    and its three timers installed, after [handleCancellation] the status is
    ACTIVE, no task is registered and the completion job (reference 2, due 5
    hours after the start) is stopped. *)
Theorem fill_deadline_full_party_stops_completion_timer :
  ScheduledTask.completionJob
    <$> scheduledTasks (Examples.scheduled SCHEDULED 6 Examples.noFaults)
        !! "s1"
  = Some (Some 2)
  ∧ isRunning (Examples.scheduled SCHEDULED 6 Examples.noFaults) 2 = true
  ∧ (handleCancellation "s1"
       (Examples.scheduled SCHEDULED 6 Examples.noFaults)).1 = Returned tt
  ∧ Db.status
      <$> sessions (handleCancellation "s1"
            (Examples.scheduled SCHEDULED 6 Examples.noFaults)).2 !! "s1"
    = Some ACTIVE
  ∧ scheduledTasks (handleCancellation "s1"
       (Examples.scheduled SCHEDULED 6 Examples.noFaults)).2 = ∅
  ∧ cronJobs (handleCancellation "s1"
       (Examples.scheduled SCHEDULED 6 Examples.noFaults)).2 !! 2
    = Some (CronJob.mk (getHoursAfter Examples.start 5) CompletionJob "s1"
              false).
Proof. vm_compute. done. Qed.

(** The same in every world: whenever the party is full, the callback leaves
    no entry for the session and every job its task held, the completion job
    included, is stopped. *)
Lemma handleCancellation_full_cancels_all sessionId session task w :
  sessions w !! sessionId = Some session →
  6 ≤ length (Db.partyMembers session) →
  scheduledTasks w !! sessionId = Some task →
  ∃ w',
    handleCancellation sessionId w = (Returned tt, w')
    ∧ scheduledTasks w' !! sessionId = None
    ∧ ∀ j, ScheduledTask.completionJob task = Some j → isRunning w' j = false.
Proof.
  intros H Hfull Htask.
  destruct (handleCancellation_full sessionId session w H Hfull)
    as (w' & E & _ & Hk & Hj).
  exists w'. split; [done|]. split.
  - rewrite Hk. apply lookup_delete_eq.
  - intros j Hc. unfold isRunning. rewrite Hj.
    pose proof (isRunning_cancelSessionTasks sessionId w j) as R.
    unfold isRunning in R. rewrite R, Htask.
    rewrite decide_True; [done|].
    unfold ScheduledTask.jobs. rewrite Hc, !elem_of_app. right. right.
    apply list_elem_of_singleton. done.
Qed.

(** C3.  When the fill-deadline callback finds a party of fewer than 6, it
    returns, no task is registered for the session any more and every job
    its task held is stopped; and when the status write succeeds the
    resulting world is that of [cancelSession] called with the reason
    "Insufficient players (size/6)" for the observed size: the session is
    stored CANCELED and that reason is the one announced.  When that write
    fails and the direct write attempted as a fallback succeeds, the session
    is stored CANCELED as well. *)
Theorem fill_deadline_unfilled_cancels sessionId session w :
  sessions w !! sessionId = Some session →
  length (Db.partyMembers session) < 6 →
  ∃ w',
    handleCancellation sessionId w = (Returned tt, w')
    ∧ scheduledTasks w' !! sessionId = None
    ∧ (∀ task j, scheduledTasks w !! sessionId = Some task →
         j ∈ ScheduledTask.jobs task → isRunning w' j = false)
    ∧ (next_fails OpUpdateSession w = false →
         cancelSession sessionId
           ("Insufficient players ("
              +:+ pretty (length (Db.partyMembers session)) +:+ "/6)") w
         = (Returned tt, w')
         ∧ sessions w'
           = <[sessionId := Db.with_status CANCELED session]> (sessions w)
         ∧ cancelReasons w'
           = cancelReasons w
             ++ ["Insufficient players ("
                   +:+ pretty (length (Db.partyMembers session)) +:+ "/6)"])
    ∧ (next_fails OpUpdateSession w = true →
       faults w OpUpdateSession (S (attempts OpUpdateSession w)) = false →
         sessions w'
         = <[sessionId := Db.with_status CANCELED session]> (sessions w)).
Proof.
  intros H Hsmall.
  destruct (handleCancellation_unfilled sessionId session w H Hsmall)
    as (w' & E & Hk & Hj & Hok & Hfallback).
  exists w'. split; [done|]. split; [|split; [|split]].
  - rewrite Hk. apply lookup_delete_eq.
  - intros task j Htask Hin. unfold isRunning. rewrite Hj.
    pose proof (isRunning_cancelSessionTasks sessionId w j) as R.
    unfold isRunning in R. rewrite R, Htask. by rewrite decide_True.
  - intros Hn. specialize (Hok Hn). split; [exact Hok|].
    destruct (cancelSession_run sessionId
                (insufficientPlayers (length (Db.partyMembers session)))
                session w H) as (w1 & E1 & Hs1 & _ & _ & _ & _ & _ & Hr1).
    rewrite Hn in E1, Hs1, Hr1.
    assert (w1 = w') as -> by (unfold insufficientPlayers in *; congruence).
    split; [|exact Hr1]. rewrite Hs1. by apply alter_alt_Some.
  - intros Hn Hretry. rewrite (Hfallback Hn), Hretry.
    by apply alter_alt_Some.
Qed.

Lemma fill_deadline_unfilled_cancels_witness :
  sessions (Examples.scheduled SCHEDULED 3 Examples.discordDown) !! "s1"
  = Some (Examples.raid SCHEDULED 3)
  ∧ length (Db.partyMembers (Examples.raid SCHEDULED 3)) < 6
  ∧ ∃ w',
      handleCancellation "s1"
        (Examples.scheduled SCHEDULED 3 Examples.discordDown)
      = (Returned tt, w')
      ∧ scheduledTasks w' !! "s1" = None
      ∧ isRunning w' 0 = false ∧ isRunning w' 1 = false
      ∧ isRunning w' 2 = false
      ∧ sessions w' = {[ "s1" := Examples.raid CANCELED 3 ]}
      ∧ cancelReasons w' = ["Insufficient players (3/6)"].
Proof.
  assert (sessions (Examples.scheduled SCHEDULED 3 Examples.discordDown)
            !! "s1" = Some (Examples.raid SCHEDULED 3)) as H
    by (vm_compute; reflexivity).
  assert (length (Db.partyMembers (Examples.raid SCHEDULED 3)) < 6) as Hsmall
    by (vm_compute; lia).
  split; [exact H|]. split; [exact Hsmall|].
  destruct (fill_deadline_unfilled_cancels "s1" _ _ H Hsmall)
    as (w' & E & Hk & Hj & Hok & _).
  exists w'. split; [exact E|]. split; [exact Hk|].
  assert (scheduledTasks (Examples.scheduled SCHEDULED 3 Examples.discordDown)
            !! "s1" = Some (ScheduledTask.mk "s1" (Some 0) (Some 1) (Some 2)))
    as Htask by (vm_compute; reflexivity).
  split; [apply (Hj _ 0 Htask); simpl; repeat constructor|].
  split; [apply (Hj _ 1 Htask); simpl; repeat constructor|].
  split; [apply (Hj _ 2 Htask); simpl; repeat constructor|].
  destruct Hok as (_ & Hs & Hr); [vm_compute; reflexivity|].
  split.
  - rewrite Hs. vm_compute. reflexivity.
  - rewrite Hr. vm_compute. reflexivity.
Defined.

(** ** Completion *)

(** C4.  For a stored session: when its status is ACTIVE, the completion
    callback returns in the very world in which recovery leaves an ACTIVE
    session whose completion instant has passed, and that world stores the
    session COMPLETED when the status write succeeds; when its status is not
    ACTIVE the callback leaves the stored sessions as they were.  Either way
    the callback leaves no task registered for the session. *)
Theorem completion_effect_online_and_recovered now sessionId session w :
  sessions w !! sessionId = Some session →
  (Db.status session = ACTIVE →
     ∃ w',
       handleCompletion sessionId w = (Returned tt, w')
       ∧ (isFutureDate now (getHoursAfter (Db.date session) 5) = false →
            handleMissedSession now
              (ListSessionsResult.mk sessionId (Db.date session) ACTIVE) w
            = (Returned tt, w'))
       ∧ (next_fails OpUpdateSession w = false →
            sessions w'
            = <[sessionId := Db.with_status COMPLETED session]> (sessions w))
       ∧ scheduledTasks w' !! sessionId = None)
  ∧ (Db.status session ≠ ACTIVE →
     ∃ w',
       handleCompletion sessionId w = (Returned tt, w')
       ∧ sessions w' = sessions w
       ∧ scheduledTasks w' !! sessionId = None).
Proof.
  intros H. split; intros Hst.
  - destruct (handleCompletion_active sessionId session w H Hst)
      as (w' & E & El & Hs & Hk & _).
    exists w'. split; [done|]. split; [|split].
    + intros Hpast. by rewrite handleMissedSession_active_past.
    + intros Hn. rewrite Hs, Hn. by apply alter_alt_Some.
    + rewrite Hk. apply lookup_delete_eq.
  - exists (cancelSessionTasks sessionId w).
    split; [by eapply handleCompletion_not_active|]. split.
    + apply cancelSessionTasks_frame.
    + rewrite cancelSessionTasks_tasks. apply lookup_delete_eq.
Qed.

Lemma completion_effect_online_and_recovered_witness :
  sessions (Examples.scheduled ACTIVE 6 Examples.noFaults) !! "s1"
  = Some (Examples.raid ACTIVE 6)
  ∧ ∃ w',
      handleCompletion "s1" (Examples.scheduled ACTIVE 6 Examples.noFaults)
      = (Returned tt, w')
      ∧ handleMissedSession 200000000
          (ListSessionsResult.mk "s1" Examples.start ACTIVE)
          (Examples.scheduled ACTIVE 6 Examples.noFaults)
        = (Returned tt, w')
      ∧ sessions w' = {[ "s1" := Examples.raid COMPLETED 6 ]}
      ∧ scheduledTasks w' !! "s1" = None.
Proof.
  assert (sessions (Examples.scheduled ACTIVE 6 Examples.noFaults) !! "s1"
          = Some (Examples.raid ACTIVE 6)) as H by (vm_compute; reflexivity).
  split; [exact H|].
  destruct (completion_effect_online_and_recovered 200000000 "s1" _ _ H)
    as [Hactive _].
  destruct Hactive as (w' & E & Em & Hs & Hk); [reflexivity|].
  exists w'. split; [exact E|]. split; [|split].
  - apply Em. vm_compute. reflexivity.
  - rewrite Hs by (vm_compute; reflexivity). vm_compute. reflexivity.
  - exact Hk.
Defined.

(** ** Terminal states *)

(** C2, as the code has it.  On a session stored COMPLETED or CANCELED, a
    late completion callback returns and leaves the stored sessions as they
    were.  [cancelSession] and [endSession] do not look at the status: when
    their write succeeds they return with the session stored CANCELED,
    respectively COMPLETED, so that the stored sessions are unchanged exactly
    when the session already had the status they write. *)
Theorem terminal_status_transitions sessionId reason session w :
  sessions w !! sessionId = Some session →
  Db.status session = COMPLETED ∨ Db.status session = CANCELED →
  (∃ w', handleCompletion sessionId w = (Returned tt, w')
         ∧ sessions w' = sessions w)
  ∧ (next_fails OpUpdateSession w = false →
     (∃ w', cancelSession sessionId reason w = (Returned tt, w')
            ∧ sessions w'
              = <[sessionId := Db.with_status CANCELED session]> (sessions w)
            ∧ (sessions w' = sessions w ↔ Db.status session = CANCELED))
     ∧ (∃ w', endSession sessionId w = (Returned tt, w')
              ∧ sessions w'
                = <[sessionId := Db.with_status COMPLETED session]>
                    (sessions w)
              ∧ (sessions w' = sessions w ↔ Db.status session = COMPLETED))).
Proof.
  intros H Hterm.
  assert (∀ st m', m' = <[sessionId := Db.with_status st session]> (sessions w)
            → (m' = sessions w ↔ Db.status session = st)) as Hiff.
  { intros st m' ->. split.
    - intros Heq.
      assert (<[sessionId := Db.with_status st session]> (sessions w)
                !! sessionId = Some session) as Hl by (by rewrite Heq).
      rewrite lookup_insert_eq in Hl. injection Hl as Hl.
      by rewrite <- Hl.
    - intros <-. apply insert_id. rewrite H. by destruct session. }
  split.
  - exists (cancelSessionTasks sessionId w). split.
    + eapply handleCompletion_not_active; [done|].
      destruct Hterm; congruence.
    + apply cancelSessionTasks_frame.
  - intros Hn. split.
    + destruct (cancelSession_run sessionId reason session w H)
        as (w' & E & Hs & _).
      rewrite Hn in E, Hs. rewrite (alter_alt_Some _ _ _ _ H) in Hs.
      exists w'. split; [done|]. split; [done|]. by apply Hiff.
    + destruct (endSession_run sessionId session w H) as (w' & E & Hs & _).
      rewrite Hn in E, Hs. rewrite (alter_alt_Some _ _ _ _ H) in Hs.
      exists w'. split; [done|]. split; [done|]. by apply Hiff.
Qed.

Lemma terminal_status_transitions_witness :
  sessions (Examples.fresh CANCELED 3 Examples.noFaults) !! "s1"
  = Some (Examples.raid CANCELED 3)
  ∧ (∃ w', handleCompletion "s1" (Examples.fresh CANCELED 3 Examples.noFaults)
           = (Returned tt, w')
           ∧ sessions w' = {[ "s1" := Examples.raid CANCELED 3 ]})
  ∧ (∃ w', cancelSession "s1" "called off"
             (Examples.fresh CANCELED 3 Examples.noFaults)
           = (Returned tt, w')
           ∧ sessions w' = {[ "s1" := Examples.raid CANCELED 3 ]})
  ∧ (∃ w', endSession "s1" (Examples.fresh CANCELED 3 Examples.noFaults)
           = (Returned tt, w')
           ∧ sessions w' = {[ "s1" := Examples.raid COMPLETED 3 ]}).
Proof.
  assert (sessions (Examples.fresh CANCELED 3 Examples.noFaults) !! "s1"
          = Some (Examples.raid CANCELED 3)) as H by (vm_compute; reflexivity).
  split; [exact H|].
  destruct (terminal_status_transitions "s1" "called off" _ _ H)
    as [(w1 & E1 & S1) Hwrite]; [by right|].
  destruct Hwrite as [(w2 & E2 & S2 & _) (w3 & E3 & S3 & _)];
    [vm_compute; reflexivity|].
  split; [|split].
  - exists w1. split; [exact E1|]. rewrite S1. vm_compute. reflexivity.
  - exists w2. split; [exact E2|]. rewrite S2. vm_compute. reflexivity.
  - exists w3. split; [exact E3|]. rewrite S3. vm_compute. reflexivity.
Defined.

(** C2 as stated fails: [cancelSession] turns a COMPLETED session into a
    CANCELED one, and [endSession] a CANCELED session into a COMPLETED
    one. *)
Lemma terminal_status_counterexample :
  Db.status <$> sessions (Examples.fresh COMPLETED 3 Examples.noFaults) !! "s1"
  = Some COMPLETED
  ∧ Db.status
      <$> sessions (cancelSession "s1" "called off"
                      (Examples.fresh COMPLETED 3 Examples.noFaults)).2 !! "s1"
    = Some CANCELED
  ∧ Db.status <$> sessions (Examples.fresh CANCELED 3 Examples.noFaults) !! "s1"
    = Some CANCELED
  ∧ Db.status
      <$> sessions (endSession "s1"
                      (Examples.fresh CANCELED 3 Examples.noFaults)).2 !! "s1"
    = Some COMPLETED.
Proof. vm_compute. done. Qed.

(** ** Recovery of an unfilled session *)

(** C7, as the code has it.  When recovery meets a SCHEDULED or FULL session
    whose start has passed and whose party is below 6, and the status write
    succeeds, it returns with the session stored CANCELED, and the reason it
    announces is "Session was not filled before start time (recovered after
    bot restart)".  The fill-deadline callback run in the same world ends
    with the same stored sessions, the same registry and the same jobs; it
    announces the shortfall reason instead. *)
Theorem recovery_cancels_unfilled now sessionId session w :
  sessions w !! sessionId = Some session →
  Db.status session = SCHEDULED ∨ Db.status session = FULL →
  isFutureDate now (Db.date session) = false →
  length (Db.partyMembers session) < 6 →
  next_fails OpUpdateSession w = false →
  ∃ w' online,
    handleMissedSession now
      (ListSessionsResult.mk sessionId (Db.date session) (Db.status session)) w
    = (Returned tt, w')
    ∧ sessions w'
      = <[sessionId := Db.with_status CANCELED session]> (sessions w)
    ∧ cancelReasons w'
      = cancelReasons w
        ++ ["Session was not filled before start time (recovered after bot restart)"]
    ∧ handleCancellation sessionId w = (Returned tt, online)
    ∧ sessions online = sessions w'
    ∧ scheduledTasks online = scheduledTasks w'
    ∧ cronJobs online = cronJobs w'
    ∧ cancelReasons online
      = cancelReasons w
        ++ [insufficientPlayers (length (Db.partyMembers session))].
Proof.
  intros H Hst Hpast Hsmall Hn.
  rewrite (handleMissedSession_unfilled _ _ _ _ H Hst Hpast Hsmall).
  unfold logged, try_catch.
  destruct (cancelSession_run sessionId recoveredReason session w H)
    as (w' & -> & Hs & Hk & Hj & _ & _ & _ & Hr).
  destruct (handleCancellation_unfilled sessionId session w H Hsmall)
    as (online & Eo & Hko & Hjo & Hok & _).
  destruct (cancelSession_run sessionId
              (insufficientPlayers (length (Db.partyMembers session)))
              session w H) as (w1 & E1 & Hs1 & _ & _ & _ & _ & _ & Hr1).
  rewrite (Hok Hn) in E1. rewrite Hn in *.
  assert (w1 = online) as -> by congruence.
  exists w', online. rewrite (alter_alt_Some _ _ _ _ H) in Hs, Hs1.
  repeat split; try done; congruence.
Qed.

Lemma recovery_cancels_unfilled_witness :
  sessions (Examples.fresh SCHEDULED 3 Examples.noFaults) !! "s1"
  = Some (Examples.raid SCHEDULED 3)
  ∧ isFutureDate 200000000 Examples.start = false
  ∧ ∃ w',
      handleMissedSession 200000000
        (ListSessionsResult.mk "s1" Examples.start SCHEDULED)
        (Examples.fresh SCHEDULED 3 Examples.noFaults)
      = (Returned tt, w')
      ∧ sessions w' = {[ "s1" := Examples.raid CANCELED 3 ]}
      ∧ cancelReasons w'
        = ["Session was not filled before start time (recovered after bot restart)"].
Proof.
  assert (sessions (Examples.fresh SCHEDULED 3 Examples.noFaults) !! "s1"
          = Some (Examples.raid SCHEDULED 3)) as H by (vm_compute; reflexivity).
  split; [exact H|]. split; [vm_compute; reflexivity|].
  destruct (recovery_cancels_unfilled 200000000 "s1" _ _ H)
    as (w' & online & E & Hs & Hr & _).
  - by left.
  - vm_compute. reflexivity.
  - vm_compute. lia.
  - vm_compute. reflexivity.
  - exists w'. split; [exact E|]. split.
    + rewrite Hs. vm_compute. reflexivity.
    + rewrite Hr. vm_compute. reflexivity.
Defined.

(** C7 as stated fails: for a party of 3 recovery announces its own reason,
    not the "Insufficient players (3/6)" of the fill-deadline callback. *)
Lemma recovery_reason_counterexample :
  cancelReasons
    (handleMissedSession 200000000
       (ListSessionsResult.mk "s1" Examples.start SCHEDULED)
       (Examples.fresh SCHEDULED 3 Examples.noFaults)).2
  = ["Session was not filled before start time (recovered after bot restart)"]
  ∧ cancelReasons
      (handleCancellation "s1" (Examples.fresh SCHEDULED 3 Examples.noFaults)).2
    = ["Insufficient players (3/6)"]
  ∧ cancelReasons
      (handleMissedSession 200000000
         (ListSessionsResult.mk "s1" Examples.start SCHEDULED)
         (Examples.fresh SCHEDULED 3 Examples.noFaults)).2
    ≠ cancelReasons
        (handleCancellation "s1"
           (Examples.fresh SCHEDULED 3 Examples.noFaults)).2.
Proof. vm_compute. repeat split; discriminate. Qed.

(** ** Role selection *)

Lemma find_toPartyMember w userId (party : list Db.partyMemberRow) :
  List.find (λ member, bool_decide (PartyMember.userId member = userId))
    (map (toPartyMember w) party)
  = toPartyMember w
      <$> List.find (λ m, bool_decide (Db.userId m = userId)) party.
Proof.
  induction party as [|m party IH]; [done|]. simpl.
  destruct (bool_decide (Db.userId m = userId)); [done|apply IH].
Qed.

(** C5, as the code has it.  A request for the GAME_MASTER role never changes
    the world, so no roster is touched.  On a stored session its outcome is
    LOCKED when the status is not SCHEDULED, EXPIRED when the status is
    SCHEDULED and the date is not in the future, and INVALID when the status
    is SCHEDULED and the date is in the future. *)
Theorem game_master_selection_rejected localDate now newPartyMember sessionId
    w :
  PartyMember.role newPartyMember = GAME_MASTER →
  ∃ outcome,
    processRoleSelection localDate now newPartyMember sessionId w
    = (outcome, w)
    ∧ ∀ session, sessions w !! sessionId = Some session →
        outcome
        = Returned
            (if bool_decide (Db.status session ≠ SCHEDULED) then LOCKED
             else if isFutureDate now (Db.date session) then INVALID
             else EXPIRED).
Proof.
  intros Hrole. unfold processRoleSelection, bind, getSession.
  destruct (sessions w !! sessionId) as [session|] eqn:H.
  - cbn [toSessionWithParty Session.status Session.date].
    destruct (bool_decide (Db.status session ≠ SCHEDULED)) eqn:Hst.
    + eexists. split; [done|]. intros ? [= <-]. by rewrite Hst.
    + destruct (isFutureDate now (Db.date session)) eqn:Hfut; simpl.
      * rewrite bool_decide_eq_true_2 by done.
        eexists. split; [done|]. intros ? [= <-]. by rewrite Hst, Hfut.
      * eexists. split; [done|]. intros ? [= <-]. by rewrite Hst, Hfut.
  - eexists. split; [done|]. intros ? [=].
Qed.

Lemma game_master_selection_rejected_witness :
  PartyMember.role (PartyMember.mk "player9" "Nine" "dm-player9" GAME_MASTER)
  = GAME_MASTER
  ∧ processRoleSelection (λ _ date, (date `div` 86400000)%Z) 0
      (PartyMember.mk "player9" "Nine" "dm-player9" GAME_MASTER) "s1"
      (Examples.fresh SCHEDULED 3 Examples.noFaults)
    = (Returned INVALID, Examples.fresh SCHEDULED 3 Examples.noFaults).
Proof.
  split; [reflexivity|].
  destruct (game_master_selection_rejected (λ _ date, (date `div` 86400000)%Z)
              0 (PartyMember.mk "player9" "Nine" "dm-player9" GAME_MASTER)
              "s1" (Examples.fresh SCHEDULED 3 Examples.noFaults) eq_refl)
    as (outcome & E & Ho).
  rewrite E. f_equal.
  apply (Ho (Examples.raid SCHEDULED 3)). vm_compute. reflexivity.
Defined.

(** C5 as stated fails: on an ACTIVE session, and on a SCHEDULED session
    whose date has passed, a request for the GAME_MASTER role is answered
    LOCKED, respectively EXPIRED, not INVALID. *)
Lemma game_master_selection_counterexample :
  (processRoleSelection (λ _ date, (date `div` 86400000)%Z) 0
     (PartyMember.mk "player9" "Nine" "dm-player9" GAME_MASTER) "s1"
     (Examples.fresh ACTIVE 3 Examples.noFaults)).1
  = Returned LOCKED
  ∧ (processRoleSelection (λ _ date, (date `div` 86400000)%Z) 200000000
       (PartyMember.mk "player9" "Nine" "dm-player9" GAME_MASTER) "s1"
       (Examples.fresh SCHEDULED 3 Examples.noFaults)).1
    = Returned EXPIRED
  ∧ (processRoleSelection (λ _ date, (date `div` 86400000)%Z) 0
       (PartyMember.mk "player9" "Nine" "dm-player9" GAME_MASTER) "s1"
       (Examples.fresh ACTIVE 3 Examples.noFaults)).1
    ≠ Returned INVALID.
Proof. vm_compute. repeat split; discriminate. Qed.

(** C8.  On a SCHEDULED session with a future date, a request for a role
    other than GAME_MASTER by a user who has an entry in the party: when the
    entry has the requested role the outcome is REMOVED_FROM_PARTY and the
    party is left with exactly its entries of the other users; otherwise the
    outcome is ROLE_CHANGED and the party is the same list in which, position
    by position, the entries of the requester have the requested role and the
    entries of the other users are as they were.  Nothing else in the world
    changes. *)
Theorem existing_member_selection localDate now newPartyMember sessionId
    session existing w :
  sessions w !! sessionId = Some session →
  Db.status session = SCHEDULED →
  isFutureDate now (Db.date session) = true →
  PartyMember.role newPartyMember ≠ GAME_MASTER →
  List.find (λ m, bool_decide (Db.userId m = PartyMember.userId newPartyMember))
    (Db.partyMembers session) = Some existing →
  ∃ outcome party' w',
    processRoleSelection localDate now newPartyMember sessionId w
    = (Returned outcome, w')
    ∧ sessions w'
      = <[sessionId := Db.with_partyMembers party' session]> (sessions w)
    ∧ users w' = users w ∧ scheduledTasks w' = scheduledTasks w
    ∧ cronJobs w' = cronJobs w ∧ faults w' = faults w ∧ trace w' = trace w
    ∧ if decide (Db.roleId existing = PartyMember.role newPartyMember)
      then
        outcome = REMOVED_FROM_PARTY
        ∧ (existing ∉ party')
        ∧ ∀ m, m ∈ party'
               ↔ m ∈ Db.partyMembers session
                 ∧ Db.userId m ≠ PartyMember.userId newPartyMember
      else
        outcome = ROLE_CHANGED
        ∧ length party' = length (Db.partyMembers session)
        ∧ ∀ i m, Db.partyMembers session !! i = Some m →
            party' !! i
            = Some (if decide (Db.userId m = PartyMember.userId newPartyMember)
                    then Db.mkPartyMember (Db.userId m)
                           (PartyMember.role newPartyMember)
                    else m).
Proof.
  intros H Hst Hfut Hrole Hfind.
  unfold processRoleSelection, bind. rewrite (getSession_found _ _ _ H).
  cbn [toSessionWithParty Session.status Session.date Session.partyMembers].
  rewrite Hst, Hfut. cbn [negb].
  rewrite (bool_decide_eq_false_2 (SCHEDULED ≠ SCHEDULED)) by (intros ?; done).
  rewrite bool_decide_eq_false_2 by done.
  rewrite find_toPartyMember, Hfind. cbn [fmap option_fmap option_map].
  cbn [toPartyMember PartyMember.role PartyMember.userId].
  apply find_some in Hfind as [Hin Hu].
  apply bool_decide_eq_true_1 in Hu.
  destruct (decide (Db.roleId existing = PartyMember.role newPartyMember))
    as [Heq|Hne].
  - rewrite bool_decide_eq_true_2 by done.
    unfold deletePartyMember, sync, ret. cbn.
    eexists _, _, _. split; [done|]. cbn.
    rewrite (alter_alt_Some _ _ _ _ H). split; [by rewrite Hu|].
    do 5 (split; [done|]). split; [done|]. split.
    + rewrite list_elem_of_filter. tauto.
    + intros m. rewrite list_elem_of_filter. tauto.
  - rewrite bool_decide_eq_false_2 by done.
    unfold updatePartyMemberRole, sync, ret. cbn.
    eexists _, _, _. split; [done|]. cbn.
    rewrite (alter_alt_Some _ _ _ _ H). split; [done|].
    do 5 (split; [done|]). split; [done|]. split.
    + by rewrite length_map.
    + intros i m Hi.
      change (map ?f ?l) with (f <$> l).
      rewrite list_lookup_fmap, Hi. done.
Qed.

(** ** Scheduling *)

Lemma filter_cons_bool {A} (b : A → bool) (x : A) (l : list A) :
  filter (λ y, b y = true) (x :: l)
  = if b x then x :: filter (λ y, b y = true) l
    else filter (λ y, b y = true) l.
Proof.
  rewrite filter_cons. destruct (b x); case_decide; congruence.
Qed.

Lemma scheduleSessionTasks_run now sessionId sessionDate w :
  ∃ task,
    cronJobs (scheduleSessionTasks now sessionId sessionDate w)
    = cronJobs (cancelSessionTasks sessionId w)
      ++ map (λ target, CronJob.mk target.2 target.1 sessionId true)
           (futureTargets now sessionDate)
    ∧ scheduledTasks (scheduleSessionTasks now sessionId sessionDate w)
      = match futureTargets now sessionDate with
        | [] => delete sessionId (scheduledTasks w)
        | _ => <[sessionId := task]> (delete sessionId (scheduledTasks w))
        end
    ∧ ScheduledTask.jobs task
      = seq (length (cronJobs w)) (length (futureTargets now sessionDate))
    ∧ defined (ScheduledTask.reminderJob task)
      = isFutureDate now (getHoursBefore sessionDate 1)
    ∧ defined (ScheduledTask.cancellationJob task)
      = isFutureDate now (getMinutesBefore sessionDate 5)
    ∧ defined (ScheduledTask.completionJob task)
      = isFutureDate now (getHoursAfter sessionDate 5)
    ∧ sessions (scheduleSessionTasks now sessionId sessionDate w) = sessions w
    ∧ users (scheduleSessionTasks now sessionId sessionDate w) = users w
    ∧ faults (scheduleSessionTasks now sessionId sessionDate w) = faults w
    ∧ trace (scheduleSessionTasks now sessionId sessionDate w) = trace w.
Proof.
  unfold scheduleSessionTasks, futureTargets, targets.
  rewrite !(filter_cons_bool (λ target, isFutureDate now target.2)), filter_nil.
  cbn [snd].
  destruct (cancelSessionTasks_frame sessionId w) as (Hs & Hu & Hf & Ht).
  pose proof (cancelSessionTasks_tasks sessionId w) as Hk.
  assert (length (cronJobs (cancelSessionTasks sessionId w))
          = length (cronJobs w)) as Hlen.
  { unfold cancelSessionTasks.
    destruct (scheduledTasks w !! sessionId) as [[sid r c k]|]; [|done].
    destruct r, c, k; simpl; by rewrite ?length_alter. }
  set (w0 := cancelSessionTasks sessionId w) in *.
  set (n := length (cronJobs w)) in *.
  exists (ScheduledTask.mk sessionId
    (if isFutureDate now (getHoursBefore sessionDate 1) then Some n else None)
    (if isFutureDate now (getMinutesBefore sessionDate 5)
     then Some (n + if isFutureDate now (getHoursBefore sessionDate 1)
                    then 1 else 0)
     else None)
    (if isFutureDate now (getHoursAfter sessionDate 5)
     then Some (n + (if isFutureDate now (getHoursBefore sessionDate 1)
                     then 1 else 0)
                  + (if isFutureDate now (getMinutesBefore sessionDate 5)
                     then 1 else 0))
     else None)).
  destruct (isFutureDate now (getHoursBefore sessionDate 1));
    destruct (isFutureDate now (getMinutesBefore sessionDate 5));
    destruct (isFutureDate now (getHoursAfter sessionDate 5));
    cbn; rewrite ?length_app, ?Hlen, ?Hk; cbn;
    rewrite <- ?app_assoc; cbn;
    repeat split; try done;
    unfold ScheduledTask.jobs, ScheduledTask.with_reminderJob,
      ScheduledTask.with_cancellationJob, ScheduledTask.with_completionJob;
    cbn; rewrite ?Nat.add_0_r, ?app_nil_r, ?Nat.add_1_r; done.
Qed.

Lemma stopJob_lookup_inv job w j stopped :
  cronJobs (stopJob job w) !! j = Some stopped →
  ∃ before,
    cronJobs w !! j = Some before
    ∧ CronJob.session stopped = CronJob.session before
    ∧ (CronJob.running stopped = true → CronJob.running before = true).
Proof.
  rewrite stopJob_lookup. destruct (decide (job = Some j)).
  - destruct (cronJobs w !! j) as [before|]; [|done].
    intros [= <-]. exists before. by repeat split.
  - intros Hl. exists stopped. by repeat split.
Qed.

Lemma cancelSessionTasks_lookup_inv sessionId w j stopped :
  cronJobs (cancelSessionTasks sessionId w) !! j = Some stopped →
  ∃ before,
    cronJobs w !! j = Some before
    ∧ CronJob.session stopped = CronJob.session before
    ∧ (CronJob.running stopped = true → CronJob.running before = true).
Proof.
  unfold cancelSessionTasks.
  destruct (scheduledTasks w !! sessionId) as [task|].
  - change (cronJobs (set_scheduledTasks (delete sessionId) ?w)) with (cronJobs w).
    intros H3.
    destruct (stopJob_lookup_inv _ _ _ _ H3) as (j2 & H2 & Hs2 & Hr2).
    destruct (stopJob_lookup_inv _ _ _ _ H2) as (j1 & H1 & Hs1 & Hr1).
    destruct (stopJob_lookup_inv _ _ _ _ H1) as (j0 & H0 & Hs0 & Hr0).
    exists j0. repeat split; [done|congruence|tauto].
  - intros Hl. exists stopped. by repeat split.
Qed.

(** After [cancelSessionTasks], no job of the session is started. *)
Lemma cancelSessionTasks_none_running sessionId w j job :
  registry_wf w →
  cronJobs (cancelSessionTasks sessionId w) !! j = Some job →
  CronJob.running job = true →
  CronJob.session job ≠ sessionId.
Proof.
  intros Hwf Hl Hrun Hsess.
  destruct (cancelSessionTasks_lookup_inv _ _ _ _ Hl)
    as (before & Hb & Hs & Hr).
  destruct (Hwf j before Hb (Hr Hrun)) as (task & Htask & Hin).
  pose proof (isRunning_cancelSessionTasks sessionId w j) as R.
  rewrite <- Hs, Hsess in Htask. rewrite Htask, decide_True in R by done.
  unfold isRunning in R. rewrite Hl in R. congruence.
Qed.

Lemma registry_wf_cancelSessionTasks sessionId w :
  registry_wf w → registry_wf (cancelSessionTasks sessionId w).
Proof.
  intros Hwf j job Hl Hrun.
  pose proof (cancelSessionTasks_none_running _ _ _ _ Hwf Hl Hrun) as Hne.
  destruct (cancelSessionTasks_lookup_inv _ _ _ _ Hl)
    as (before & Hb & Hs & Hr).
  destruct (Hwf j before Hb (Hr Hrun)) as (task & Htask & Hin).
  exists task. split; [|done].
  rewrite cancelSessionTasks_tasks, lookup_delete_ne by done. by rewrite Hs.
Qed.

Lemma filter_none {A} (P : A → Prop) `{∀ x, Decision (P x)} (l : list A) :
  (∀ x, x ∈ l → ¬ P x) → filter P l = [].
Proof.
  induction l as [|x l IH]; intros Hl; [done|].
  rewrite filter_cons_False by (apply Hl; left).
  apply IH. intros y Hy. apply Hl. by right.
Qed.

Lemma filter_all {A} (P : A → Prop) `{∀ x, Decision (P x)} (l : list A) :
  (∀ x, x ∈ l → P x) → filter P l = l.
Proof.
  induction l as [|x l IH]; intros Hl; [done|].
  rewrite filter_cons_True by (apply Hl; left).
  f_equal. apply IH. intros y Hy. apply Hl. by right.
Qed.

Lemma liveTimers_cancelSessionTasks sessionId w :
  registry_wf w → liveTimers sessionId (cancelSessionTasks sessionId w) = [].
Proof.
  intros Hwf. unfold liveTimers. rewrite filter_none; [done|].
  intros job [j Hl]%list_elem_of_lookup [Hrun Hsess].
  by eapply cancelSessionTasks_none_running.
Qed.

(** The timers of a session once scheduled are exactly the future targets. *)
Lemma liveTimers_scheduleSessionTasks now sessionId sessionDate w :
  registry_wf w →
  liveTimers sessionId (scheduleSessionTasks now sessionId sessionDate w)
  = futureTargets now sessionDate.
Proof.
  intros Hwf.
  destruct (scheduleSessionTasks_run now sessionId sessionDate w)
    as (task & Hj & _).
  unfold liveTimers. rewrite Hj, filter_app, map_app.
  fold (liveTimers sessionId (cancelSessionTasks sessionId w)).
  rewrite liveTimers_cancelSessionTasks by done. simpl.
  rewrite filter_all.
  - rewrite map_map. simpl. rewrite <- (map_id (futureTargets _ _)) at 2.
    apply map_ext. by intros [].
  - intros job Hin. apply list_elem_of_In, in_map_iff in Hin
      as (target & <- & _). done.
Qed.

Lemma registry_wf_scheduleSessionTasks now sessionId sessionDate w :
  registry_wf w →
  registry_wf (scheduleSessionTasks now sessionId sessionDate w).
Proof.
  intros Hwf j job Hl Hrun.
  destruct (scheduleSessionTasks_run now sessionId sessionDate w)
    as (task & Hj & Hk & Hjobs & _).
  assert (length (cronJobs (cancelSessionTasks sessionId w))
          = length (cronJobs w)) as Hlen.
  { unfold cancelSessionTasks.
    destruct (scheduledTasks w !! sessionId) as [[sid r c k]|]; [|done].
    destruct r, c, k; simpl; by rewrite ?length_alter. }
  rewrite Hj in Hl. apply lookup_app_Some in Hl as [Hl|[Hge Hl]].
  - pose proof (cancelSessionTasks_none_running _ _ _ _ Hwf Hl Hrun) as Hne.
    destruct (registry_wf_cancelSessionTasks sessionId w Hwf j job Hl Hrun)
      as (task' & Htask' & Hin).
    exists task'. split; [|done]. rewrite Hk.
    rewrite cancelSessionTasks_tasks in Htask'.
    destruct (futureTargets now sessionDate); [done|].
    by rewrite lookup_insert_ne.
  - change (map ?f ?l) with (f <$> l) in Hl.
    rewrite list_lookup_fmap in Hl.
    destruct (futureTargets now sessionDate !! _) as [target|] eqn:Ht; [|done].
    injection Hl as <-. simpl.
    apply lookup_lt_Some in Ht.
    exists task. split.
    + rewrite Hk. destruct (futureTargets now sessionDate); [simpl in Ht; lia|].
      apply lookup_insert_eq.
    + rewrite Hjobs. apply elem_of_seq. lia.
Qed.

Lemma scheduleSessionTasks_all_passed now sessionId sessionDate w :
  isFutureDate now (getHoursBefore sessionDate 1) = false →
  isFutureDate now (getMinutesBefore sessionDate 5) = false →
  isFutureDate now (getHoursAfter sessionDate 5) = false →
  scheduleSessionTasks now sessionId sessionDate w
  = cancelSessionTasks sessionId w.
Proof. intros H1 H2 H3. unfold scheduleSessionTasks. by rewrite H1, H2, H3. Qed.

Lemma futureTargets_nil now sessionDate :
  futureTargets now sessionDate = []
  ↔ isFutureDate now (getHoursBefore sessionDate 1) = false
    ∧ isFutureDate now (getMinutesBefore sessionDate 5) = false
    ∧ isFutureDate now (getHoursAfter sessionDate 5) = false.
Proof.
  unfold futureTargets, targets.
  rewrite !(filter_cons_bool (λ target, isFutureDate now target.2)), filter_nil.
  cbn [snd].
  destruct (isFutureDate now (getHoursBefore sessionDate 1)),
    (isFutureDate now (getMinutesBefore sessionDate 5)),
    (isFutureDate now (getHoursAfter sessionDate 5)); split;
    first [done | intros (?&?&?); done].
Qed.

Lemma length_cancelSessionTasks sessionId w :
  length (cronJobs (cancelSessionTasks sessionId w)) = length (cronJobs w).
Proof.
  unfold cancelSessionTasks.
  destruct (scheduledTasks w !! sessionId) as [[sid r c k]|]; [|done].
  destruct r, c, k; simpl; by rewrite ?length_alter.
Qed.

Lemma isRunning_scheduleSessionTasks_old now sessionId sessionDate w j :
  j < length (cronJobs w) →
  isRunning (scheduleSessionTasks now sessionId sessionDate w) j
  = isRunning (cancelSessionTasks sessionId w) j.
Proof.
  intros Hlt.
  destruct (scheduleSessionTasks_run now sessionId sessionDate w)
    as (task & Hj & _).
  unfold isRunning. rewrite Hj, lookup_app_l; [done|].
  by rewrite length_cancelSessionTasks.
Qed.

(** C10.  [scheduleSessionTasks(id, date)] cancels the tasks of [id], then
    creates one started job for each of the three targets (date - 1 hour,
    date - 5 minutes, date + 5 hours) that is in the future at the time of
    the call, and no other job.  An entry is registered for [id] if and only
    if at least one target is in the future, and it then holds a reminder,
    cancellation or completion job exactly when the corresponding target is
    in the future.  When the three targets have passed the call is
    [cancelSessionTasks(id)]: no entry is left for [id], which
    [getScheduledTaskCount] does not count.  In every case the jobs that the
    prior entry of [id] held are stopped, every other job that existed is as
    started as it was, and the jobs that exist afterwards are those that
    existed and one more for each future target; so, when the registry knew
    every started job, the timers of [id] that can still fire are exactly
    its future targets. *)
Theorem schedule_installs_future_targets now sessionId sessionDate w :
  cronJobs (scheduleSessionTasks now sessionId sessionDate w)
  = cronJobs (cancelSessionTasks sessionId w)
    ++ map (λ target, CronJob.mk target.2 target.1 sessionId true)
         (filter (λ target, isFutureDate now target.2 = true)
            [(ReminderJob, getHoursBefore sessionDate 1);
             (CancellationJob, getMinutesBefore sessionDate 5);
             (CompletionJob, getHoursAfter sessionDate 5)])
  ∧ (is_Some (scheduledTasks (scheduleSessionTasks now sessionId sessionDate w)
                !! sessionId)
     ↔ isFutureDate now (getHoursBefore sessionDate 1) = true
       ∨ isFutureDate now (getMinutesBefore sessionDate 5) = true
       ∨ isFutureDate now (getHoursAfter sessionDate 5) = true)
  ∧ (∀ task,
       scheduledTasks (scheduleSessionTasks now sessionId sessionDate w)
         !! sessionId = Some task →
       defined (ScheduledTask.reminderJob task)
       = isFutureDate now (getHoursBefore sessionDate 1)
       ∧ defined (ScheduledTask.cancellationJob task)
         = isFutureDate now (getMinutesBefore sessionDate 5)
       ∧ defined (ScheduledTask.completionJob task)
         = isFutureDate now (getHoursAfter sessionDate 5))
  ∧ (isFutureDate now (getHoursBefore sessionDate 1) = false →
     isFutureDate now (getMinutesBefore sessionDate 5) = false →
     isFutureDate now (getHoursAfter sessionDate 5) = false →
     scheduleSessionTasks now sessionId sessionDate w
     = cancelSessionTasks sessionId w
     ∧ (sessionId
        ∉ dom (scheduledTasks
                 (scheduleSessionTasks now sessionId sessionDate w)))
     ∧ getScheduledTaskCount (scheduleSessionTasks now sessionId sessionDate w)
       = size (delete sessionId (scheduledTasks w)))
  ∧ (∀ task j,
       scheduledTasks w !! sessionId = Some task →
       j ∈ ScheduledTask.jobs task →
       j < length (cronJobs w) →
       isRunning (scheduleSessionTasks now sessionId sessionDate w) j = false)
  ∧ (∀ j,
       j < length (cronJobs w) →
       (∀ task, scheduledTasks w !! sessionId = Some task →
                j ∉ ScheduledTask.jobs task) →
       isRunning (scheduleSessionTasks now sessionId sessionDate w) j
       = isRunning w j)
  ∧ length (cronJobs (scheduleSessionTasks now sessionId sessionDate w))
    = length (cronJobs w) + length (futureTargets now sessionDate)
  ∧ (registry_wf w →
     liveTimers sessionId (scheduleSessionTasks now sessionId sessionDate w)
     = futureTargets now sessionDate).
Proof.
  destruct (scheduleSessionTasks_run now sessionId sessionDate w)
    as (task & Hj & Hk & _ & Hr & Hc & Hd & _).
  pose proof (futureTargets_nil now sessionDate) as Hnil.
  split; [exact Hj|]. split; [|split; [|split; [|split; [|split; [|split]]]]].
  - rewrite Hk. destruct (futureTargets now sessionDate) eqn:E.
    + rewrite lookup_delete_eq. split; [by intros [? ?]|].
      destruct Hnil as [(-> & -> & ->) _]; [done|]. by intros [|[|]].
    + rewrite lookup_insert_eq. split; [|by eauto].
      intros _.
      destruct (isFutureDate now (getHoursBefore sessionDate 1)); [by left|].
      destruct (isFutureDate now (getMinutesBefore sessionDate 5));
        [by right; left|].
      destruct (isFutureDate now (getHoursAfter sessionDate 5));
        [by right; right|].
      destruct Hnil as [_ Hnil]. by discriminate Hnil.
  - intros task' Htask'. rewrite Hk in Htask'.
    destruct (futureTargets now sessionDate).
    + by rewrite lookup_delete_eq in Htask'.
    + rewrite lookup_insert_eq in Htask'. by injection Htask' as <-.
  - intros H1 H2 H3.
    rewrite (scheduleSessionTasks_all_passed _ _ _ _ H1 H2 H3).
    split; [done|]. unfold getScheduledTaskCount.
    rewrite cancelSessionTasks_tasks. split; [|done].
    rewrite elem_of_dom, lookup_delete_eq. by intros [? ?].
  - intros prior j Hprior Hin Hlt.
    rewrite isRunning_scheduleSessionTasks_old by done.
    rewrite isRunning_cancelSessionTasks, Hprior.
    by rewrite decide_True.
  - intros j Hlt Hnot.
    rewrite isRunning_scheduleSessionTasks_old by done.
    rewrite isRunning_cancelSessionTasks.
    destruct (scheduledTasks w !! sessionId) as [prior|]; [|done].
    rewrite decide_False; [done|]. by apply Hnot.
  - by rewrite Hj, length_app, length_cancelSessionTasks, length_map.
  - apply liveTimers_scheduleSessionTasks.
Qed.

(** With the three timers of "s1" installed (jobs 0, 1 and 2, all started), a
    call after the three targets have passed leaves no entry and stops the
    three jobs. *)
Lemma schedule_installs_future_targets_witness :
  (isRunning (Examples.scheduled SCHEDULED 6 Examples.noFaults) 0 = true
   ∧ isRunning (Examples.scheduled SCHEDULED 6 Examples.noFaults) 1 = true
   ∧ isRunning (Examples.scheduled SCHEDULED 6 Examples.noFaults) 2 = true)
  ∧ scheduleSessionTasks 200000000 "s1" Examples.start
      (Examples.scheduled SCHEDULED 6 Examples.noFaults)
    = cancelSessionTasks "s1"
        (Examples.scheduled SCHEDULED 6 Examples.noFaults)
  ∧ getScheduledTaskCount
      (scheduleSessionTasks 200000000 "s1" Examples.start
         (Examples.scheduled SCHEDULED 6 Examples.noFaults)) = 0
  ∧ (isRunning
       (scheduleSessionTasks 200000000 "s1" Examples.start
          (Examples.scheduled SCHEDULED 6 Examples.noFaults)) 0 = false
     ∧ isRunning
         (scheduleSessionTasks 200000000 "s1" Examples.start
            (Examples.scheduled SCHEDULED 6 Examples.noFaults)) 1 = false
     ∧ isRunning
         (scheduleSessionTasks 200000000 "s1" Examples.start
            (Examples.scheduled SCHEDULED 6 Examples.noFaults)) 2 = false).
Proof.
  split; [vm_compute; done|].
  destruct (schedule_installs_future_targets 200000000 "s1" Examples.start
              (Examples.scheduled SCHEDULED 6 Examples.noFaults))
    as (_ & _ & _ & Hpassed & Hstopped & _).
  destruct Hpassed as (E & _ & Hcount); [vm_compute; reflexivity ..|].
  split; [exact E|]. split; [rewrite Hcount; vm_compute; reflexivity|].
  assert (scheduledTasks (Examples.scheduled SCHEDULED 6 Examples.noFaults)
            !! "s1"
          = Some (ScheduledTask.mk "s1" (Some 0) (Some 1) (Some 2))) as Htask
    by (vm_compute; reflexivity).
  repeat split; apply (Hstopped _ _ Htask);
    first [ by (vm_compute; lia)
          | by (cbv [ScheduledTask.jobs ScheduledTask.reminderJob
                     ScheduledTask.cancellationJob ScheduledTask.completionJob];
                simpl; rewrite !elem_of_cons; intuition lia) ].
Defined.

(** ** Rescheduling *)

Lemma scheduledTasks_reschedule now1 sessionId date1 w :
  delete sessionId
    (scheduledTasks (scheduleSessionTasks now1 sessionId date1 w))
  = delete sessionId (scheduledTasks w).
Proof.
  destruct (scheduleSessionTasks_run now1 sessionId date1 w)
    as (task & _ & -> & _).
  destruct (futureTargets now1 date1).
  - apply delete_delete_eq.
  - rewrite delete_insert_eq. apply delete_delete_eq.
Qed.

(** C6, as the code has it.  In a world whose registry knows every started
    job, after two calls of [scheduleSessionTasks] in succession for the same
    id there is at most one task registered for the id, and there is one if
    and only if at least one of the three targets of the second call is
    still in the future at that call: when they have all passed, no task is
    registered for the id.  The registry counts the tasks of the other ids
    and that one, if any.  The timers of the session that can still fire are
    exactly the future targets of the second call, each once: they are the
    timers a single call would leave.  Every job the first call created has
    been stopped by the second, the task registered for the id holds the
    jobs created by the second call and no other, and the registry has the
    ids it would have after the second call alone, so the same task
    count. *)
Theorem reschedule_replaces now1 now2 sessionId date1 date2 w :
  registry_wf w →
  liveTimers sessionId
    (scheduleSessionTasks now2 sessionId date2
       (scheduleSessionTasks now1 sessionId date1 w))
  = futureTargets now2 date2
  ∧ liveTimers sessionId
      (scheduleSessionTasks now2 sessionId date2
         (scheduleSessionTasks now1 sessionId date1 w))
    = liveTimers sessionId (scheduleSessionTasks now2 sessionId date2 w)
  ∧ (∀ j,
       length (cronJobs w) ≤ j
       < length (cronJobs (scheduleSessionTasks now1 sessionId date1 w)) →
       isRunning
         (scheduleSessionTasks now2 sessionId date2
            (scheduleSessionTasks now1 sessionId date1 w)) j = false)
  ∧ (∀ task,
       scheduledTasks
         (scheduleSessionTasks now2 sessionId date2
            (scheduleSessionTasks now1 sessionId date1 w)) !! sessionId
       = Some task →
       ScheduledTask.jobs task
       = seq (length (cronJobs (scheduleSessionTasks now1 sessionId date1 w)))
           (length (futureTargets now2 date2)))
  ∧ dom (scheduledTasks
           (scheduleSessionTasks now2 sessionId date2
              (scheduleSessionTasks now1 sessionId date1 w)))
    = dom (scheduledTasks (scheduleSessionTasks now2 sessionId date2 w))
  ∧ getScheduledTaskCount
      (scheduleSessionTasks now2 sessionId date2
         (scheduleSessionTasks now1 sessionId date1 w))
    = getScheduledTaskCount (scheduleSessionTasks now2 sessionId date2 w)
  ∧ (is_Some
       (scheduledTasks
          (scheduleSessionTasks now2 sessionId date2
             (scheduleSessionTasks now1 sessionId date1 w)) !! sessionId)
     ↔ isFutureDate now2 (getHoursBefore date2 1) = true
       ∨ isFutureDate now2 (getMinutesBefore date2 5) = true
       ∨ isFutureDate now2 (getHoursAfter date2 5) = true)
  ∧ getScheduledTaskCount
      (scheduleSessionTasks now2 sessionId date2
         (scheduleSessionTasks now1 sessionId date1 w))
    = size (delete sessionId (scheduledTasks w))
      + (if isFutureDate now2 (getHoursBefore date2 1)
            || isFutureDate now2 (getMinutesBefore date2 5)
            || isFutureDate now2 (getHoursAfter date2 5)
         then 1 else 0).
Proof.
  intros Hwf.
  pose proof (registry_wf_scheduleSessionTasks now1 sessionId date1 w Hwf)
    as Hwf1.
  set (w1 := scheduleSessionTasks now1 sessionId date1 w) in *.
  assert (dom (scheduledTasks (scheduleSessionTasks now2 sessionId date2 w1))
          = dom (scheduledTasks (scheduleSessionTasks now2 sessionId date2 w)))
    as Hdom.
  { destruct (scheduleSessionTasks_run now2 sessionId date2 w1)
      as (task2 & _ & -> & _).
    destruct (scheduleSessionTasks_run now2 sessionId date2 w)
      as (task & _ & -> & _).
    unfold w1. rewrite (scheduledTasks_reschedule now1).
    destruct (futureTargets now2 date2); [done|].
    by rewrite !dom_insert_L. }
  split; [|split; [|split; [|split; [|split; [|split; [|split]]]]]].
  - by apply liveTimers_scheduleSessionTasks.
  - by rewrite !liveTimers_scheduleSessionTasks.
  - intros j [Hge Hlt].
    rewrite isRunning_scheduleSessionTasks_old by done.
    rewrite isRunning_cancelSessionTasks.
    destruct (scheduleSessionTasks_run now1 sessionId date1 w)
      as (task & Hj & Hk & Hjobs & _).
    fold w1 in Hj, Hk. rewrite Hk.
    rewrite Hj, length_app, length_cancelSessionTasks, length_map in Hlt.
    destruct (futureTargets now1 date1) eqn:E; [simpl in Hlt; lia|].
    rewrite lookup_insert_eq, decide_True; [done|].
    rewrite Hjobs. apply elem_of_seq. lia.
  - intros task Htask.
    destruct (scheduleSessionTasks_run now2 sessionId date2 w1)
      as (task2 & _ & Hk2 & Hjobs2 & _).
    rewrite Hk2 in Htask. destruct (futureTargets now2 date2).
    + by rewrite lookup_delete_eq in Htask.
    + rewrite lookup_insert_eq in Htask. by injection Htask as <-.
  - exact Hdom.
  - unfold getScheduledTaskCount. by rewrite <- !size_dom, Hdom.
  - destruct (scheduleSessionTasks_run now2 sessionId date2 w1)
      as (task2 & _ & -> & _).
    pose proof (futureTargets_nil now2 date2) as Hnil.
    destruct (futureTargets now2 date2) eqn:E.
    + rewrite lookup_delete_eq. split; [by intros [? ?]|].
      destruct Hnil as [(-> & -> & ->) _]; [done|]. by intros [|[|]].
    + rewrite lookup_insert_eq. split; [|by eauto].
      intros _.
      destruct (isFutureDate now2 (getHoursBefore date2 1)); [by left|].
      destruct (isFutureDate now2 (getMinutesBefore date2 5));
        [by right; left|].
      destruct (isFutureDate now2 (getHoursAfter date2 5));
        [by right; right|].
      destruct Hnil as [_ Hnil]. by discriminate Hnil.
  - unfold getScheduledTaskCount.
    destruct (scheduleSessionTasks_run now2 sessionId date2 w1)
      as (task2 & _ & -> & _).
    unfold w1. rewrite (scheduledTasks_reschedule now1).
    pose proof (futureTargets_nil now2 date2) as Hnil.
    destruct (futureTargets now2 date2) eqn:E.
    + destruct Hnil as [(-> & -> & ->) _]; [done|]. simpl. lia.
    + rewrite map_size_insert_None by apply lookup_delete_eq.
      destruct (isFutureDate now2 (getHoursBefore date2 1)); [simpl; lia|].
      destruct (isFutureDate now2 (getMinutesBefore date2 5)); [simpl; lia|].
      destruct (isFutureDate now2 (getHoursAfter date2 5)); [simpl; lia|].
      destruct Hnil as [_ Hnil]. by discriminate Hnil.
Qed.

Lemma reschedule_replaces_witness :
  registry_wf (Examples.fresh SCHEDULED 6 Examples.noFaults)
  ∧ liveTimers "s1"
      (scheduleSessionTasks 0 "s1" 200000000
         (scheduleSessionTasks 0 "s1" Examples.start
            (Examples.fresh SCHEDULED 6 Examples.noFaults)))
    = [(ReminderJob, 196400000%Z); (CancellationJob, 199700000%Z);
       (CompletionJob, 218000000%Z)]
  ∧ getScheduledTaskCount
      (scheduleSessionTasks 0 "s1" 200000000
         (scheduleSessionTasks 0 "s1" Examples.start
            (Examples.fresh SCHEDULED 6 Examples.noFaults))) = 1.
Proof.
  assert (registry_wf (Examples.fresh SCHEDULED 6 Examples.noFaults)) as Hwf.
  { intros j job Hl. simpl in Hl. by rewrite lookup_nil in Hl. }
  split; [exact Hwf|].
  destruct (reschedule_replaces 0 0 "s1" Examples.start 200000000 _ Hwf)
    as (Elive & _ & _ & _ & _ & Ecount & _).
  split.
  - rewrite Elive. vm_compute. reflexivity.
  - rewrite Ecount. vm_compute. reflexivity.
Defined.

(** C6 as stated fails: when the second call comes with a date whose three
    targets have passed, the task that the first call registered is removed
    and none is registered in its place, so that the id has no registered
    task, not exactly one. *)
Lemma reschedule_counterexample :
  getScheduledTaskCount
    (scheduleSessionTasks 50000000 "s1" Examples.start
       (Examples.fresh SCHEDULED 6 Examples.noFaults)) = 1
  ∧ scheduledTasks
      (scheduleSessionTasks 50000000 "s1" 10000000
         (scheduleSessionTasks 50000000 "s1" Examples.start
            (Examples.fresh SCHEDULED 6 Examples.noFaults))) !! "s1" = None
  ∧ getScheduledTaskCount
      (scheduleSessionTasks 50000000 "s1" 10000000
         (scheduleSessionTasks 50000000 "s1" Examples.start
            (Examples.fresh SCHEDULED 6 Examples.noFaults))) = 0.
Proof. vm_compute. done. Qed.

Lemma existing_member_selection_witness :
  sessions (Examples.fresh SCHEDULED 3 Examples.noFaults) !! "s1"
  = Some (Examples.raid SCHEDULED 3)
  ∧ isFutureDate 0 (Db.date (Examples.raid SCHEDULED 3)) = true
  ∧ (∃ party' w',
       processRoleSelection (λ _ date, (date `div` 86400000)%Z) 0
         (PartyMember.mk "player1" "One" "dm-player1" TANK) "s1"
         (Examples.fresh SCHEDULED 3 Examples.noFaults)
       = (Returned REMOVED_FROM_PARTY, w')
       ∧ sessions w'
         = {[ "s1" := Db.with_partyMembers party'
                        (Examples.raid SCHEDULED 3) ]}
       ∧ Db.mkPartyMember "player1" TANK ∉ party')
  ∧ (∃ party' w',
       processRoleSelection (λ _ date, (date `div` 86400000)%Z) 0
         (PartyMember.mk "player1" "One" "dm-player1" SUPPORT) "s1"
         (Examples.fresh SCHEDULED 3 Examples.noFaults)
       = (Returned ROLE_CHANGED, w')
       ∧ sessions w'
         = {[ "s1" := Db.with_partyMembers party'
                        (Examples.raid SCHEDULED 3) ]}
       ∧ party' !! 1 = Some (Db.mkPartyMember "player1" SUPPORT)
       ∧ party' !! 2 = Some (Db.mkPartyMember "player2" TANK)).
Proof.
  assert (sessions (Examples.fresh SCHEDULED 3 Examples.noFaults) !! "s1"
          = Some (Examples.raid SCHEDULED 3)) as H by (vm_compute; reflexivity).
  assert (isFutureDate 0 (Db.date (Examples.raid SCHEDULED 3)) = true) as Hfut
    by (vm_compute; reflexivity).
  split; [exact H|]. split; [exact Hfut|]. split.
  - destruct (existing_member_selection (λ _ date, (date `div` 86400000)%Z) 0
                (PartyMember.mk "player1" "One" "dm-player1" TANK) "s1"
                (Examples.raid SCHEDULED 3) (Db.mkPartyMember "player1" TANK)
                (Examples.fresh SCHEDULED 3 Examples.noFaults) H eq_refl Hfut)
      as (outcome & party' & w' & E & Hs & _ & _ & _ & _ & _ & Hbranch).
    + discriminate.
    + vm_compute. reflexivity.
    + cbn in Hbranch. destruct Hbranch as (-> & Hgone & _).
      exists party', w'. split; [exact E|]. split; [|exact Hgone].
      rewrite Hs. apply insert_singleton_eq.
  - destruct (existing_member_selection (λ _ date, (date `div` 86400000)%Z) 0
                (PartyMember.mk "player1" "One" "dm-player1" SUPPORT) "s1"
                (Examples.raid SCHEDULED 3) (Db.mkPartyMember "player1" TANK)
                (Examples.fresh SCHEDULED 3 Examples.noFaults) H eq_refl Hfut)
      as (outcome & party' & w' & E & Hs & _ & _ & _ & _ & _ & Hbranch).
    + discriminate.
    + vm_compute. reflexivity.
    + cbn in Hbranch. destruct Hbranch as (-> & _ & Hat).
      exists party', w'. split; [exact E|]. split; [|split].
      * rewrite Hs. apply insert_singleton_eq.
      * apply (Hat 1 (Db.mkPartyMember "player1" TANK)). reflexivity.
      * apply (Hat 2 (Db.mkPartyMember "player2" TANK)). reflexivity.
Defined.

(** * Further properties of the scheduler *)

(** ** References and jobs *)

Lemma elem_of_option_list_Some (o : option nat) j :
  j ∈ option_list o ↔ o = Some j.
Proof.
  destruct o as [x|]; simpl.
  - rewrite list_elem_of_singleton. split; [by intros ->|by intros [= ->]].
  - rewrite elem_of_nil. split; [done|discriminate].
Qed.

Lemma elem_of_jobs j task :
  j ∈ ScheduledTask.jobs task
  ↔ ScheduledTask.reminderJob task = Some j
    ∨ ScheduledTask.cancellationJob task = Some j
    ∨ ScheduledTask.completionJob task = Some j.
Proof.
  unfold ScheduledTask.jobs.
  by rewrite !elem_of_app, !elem_of_option_list_Some.
Qed.

Lemma isRunning_true w j :
  isRunning w j = true
  ↔ ∃ job, cronJobs w !! j = Some job ∧ CronJob.running job = true.
Proof.
  unfold isRunning. destruct (cronJobs w !! j) as [job|].
  - split; [by exists job|by intros (? & [= <-] & ?)].
  - split; [done|by intros (? & ? & ?)].
Qed.

Lemma registry_wf_alt w :
  registry_wf w
  ↔ ∀ j sessionId,
      isRunning w j = true → jobSession w j = Some sessionId →
      ∃ task, scheduledTasks w !! sessionId = Some task
              ∧ j ∈ ScheduledTask.jobs task.
Proof.
  unfold registry_wf, jobSession. split.
  - intros Hwf j sessionId (job & Hl & Hrun)%isRunning_true Hs.
    rewrite Hl in Hs. injection Hs as <-. by apply Hwf.
  - intros Hwf j job Hl Hrun. apply Hwf.
    + apply isRunning_true. by exists job.
    + by rewrite Hl.
Qed.

Lemma jobSession_stopJob job w j :
  jobSession (stopJob job w) j = jobSession w j.
Proof.
  unfold jobSession. rewrite stopJob_lookup.
  destruct (decide (job = Some j)); [|done].
  by destruct (cronJobs w !! j).
Qed.

Lemma jobSession_cancelSessionTasks sessionId w j :
  jobSession (cancelSessionTasks sessionId w) j = jobSession w j.
Proof.
  unfold cancelSessionTasks.
  destruct (scheduledTasks w !! sessionId) as [task|]; [|done].
  change (jobSession (set_scheduledTasks (delete sessionId) ?w) j)
    with (jobSession w j).
  by rewrite !jobSession_stopJob.
Qed.

Lemma jobSession_lt w j sessionId :
  jobSession w j = Some sessionId → j < length (cronJobs w).
Proof.
  unfold jobSession. intros H. apply lookup_lt_is_Some.
  destruct (cronJobs w !! j); [by eexists|done].
Qed.

Lemma isRunning_clearReminderTask sessionId w j :
  isRunning (clearReminderTask sessionId w) j
  = match scheduledTasks w !! sessionId with
    | Some task =>
        if decide (ScheduledTask.reminderJob task = Some j) then false
        else isRunning w j
    | None => isRunning w j
    end.
Proof.
  unfold clearReminderTask.
  destruct (scheduledTasks w !! sessionId) as [task|]; [|done].
  destruct (ScheduledTask.reminderJob task) as [r|] eqn:Hr.
  - set (w1 := stopJob (Some r) w).
    assert (∀ f, isRunning (set_scheduledTasks f w1) j = isRunning w1 j)
      as Hf by done.
    destruct (negb _ && negb _); rewrite Hf; unfold w1;
      by rewrite isRunning_stopJob.
  - by rewrite decide_False.
Qed.

Lemma jobSession_clearReminderTask sessionId w j :
  jobSession (clearReminderTask sessionId w) j = jobSession w j.
Proof.
  unfold clearReminderTask.
  destruct (scheduledTasks w !! sessionId) as [task|]; [|done].
  destruct (ScheduledTask.reminderJob task) as [r|]; [|done].
  set (w1 := stopJob (Some r) w).
  assert (∀ f, jobSession (set_scheduledTasks f w1) j = jobSession w1 j)
    as Hf by done.
  destruct (negb _ && negb _); rewrite Hf; unfold w1;
    by rewrite jobSession_stopJob.
Qed.

Lemma scheduledTasks_clearReminderTask sessionId w :
  scheduledTasks (clearReminderTask sessionId w)
  = match scheduledTasks w !! sessionId with
    | Some task =>
        match ScheduledTask.reminderJob task with
        | Some _ =>
            if defined (ScheduledTask.cancellationJob task)
               || defined (ScheduledTask.completionJob task)
            then <[sessionId := ScheduledTask.with_reminderJob None task]>
                   (scheduledTasks w)
            else delete sessionId (scheduledTasks w)
        | None => scheduledTasks w
        end
    | None => scheduledTasks w
    end.
Proof.
  unfold clearReminderTask.
  destruct (scheduledTasks w !! sessionId) as [[sid r c k]|]; [|done].
  destruct r as [r|]; [|done]. simpl.
  by destruct c, k.
Qed.

Lemma clearReminderTask_frame sessionId w :
  sessions (clearReminderTask sessionId w) = sessions w
  ∧ users (clearReminderTask sessionId w) = users w
  ∧ faults (clearReminderTask sessionId w) = faults w
  ∧ trace (clearReminderTask sessionId w) = trace w.
Proof.
  unfold clearReminderTask.
  destruct (scheduledTasks w !! sessionId) as [[sid [r|] c k]|]; try done.
  simpl. by destruct (negb _ && negb _).
Qed.

(** ** The reminder slot *)

(** X1.  [clearReminderTask] stops the reminder job of the session and no
    other job, and changes no other session's entry.  The session's entry
    loses its reminder; it is deleted exactly when it holds neither a
    cancellation nor a completion job.  Without an entry, or with an entry
    that has no reminder, nothing changes. *)
Theorem clearReminderTask_only_reminder sessionId w :
  (∀ task r,
     scheduledTasks w !! sessionId = Some task →
     ScheduledTask.reminderJob task = Some r →
     isRunning (clearReminderTask sessionId w) r = false
     ∧ (∀ j, j ≠ r →
          isRunning (clearReminderTask sessionId w) j = isRunning w j)
     ∧ scheduledTasks (clearReminderTask sessionId w) !! sessionId
       = if defined (ScheduledTask.cancellationJob task)
            || defined (ScheduledTask.completionJob task)
         then Some (ScheduledTask.mk (ScheduledTask.sessionId task) None
                      (ScheduledTask.cancellationJob task)
                      (ScheduledTask.completionJob task))
         else None)
  ∧ (∀ task,
       scheduledTasks w !! sessionId = Some task →
       ScheduledTask.reminderJob task = None →
       clearReminderTask sessionId w = w)
  ∧ (scheduledTasks w !! sessionId = None → clearReminderTask sessionId w = w)
  ∧ (∀ other, other ≠ sessionId →
       scheduledTasks (clearReminderTask sessionId w) !! other
       = scheduledTasks w !! other)
  ∧ sessions (clearReminderTask sessionId w) = sessions w.
Proof.
  split; [|split; [|split; [|split]]].
  - intros task r Htask Hr. split; [|split].
    + by rewrite isRunning_clearReminderTask, Htask, decide_True.
    + intros j Hj. rewrite isRunning_clearReminderTask, Htask.
      rewrite decide_False; [done|]. rewrite Hr. by intros [= ->].
    + rewrite scheduledTasks_clearReminderTask, Htask, Hr.
      destruct (defined _ || defined _).
      * by rewrite lookup_insert_eq.
      * by rewrite lookup_delete_eq.
  - intros task Htask Hr. unfold clearReminderTask. by rewrite Htask, Hr.
  - intros Htask. unfold clearReminderTask. by rewrite Htask.
  - intros other Hne. rewrite scheduledTasks_clearReminderTask.
    destruct (scheduledTasks w !! sessionId) as [task|]; [|done].
    destruct (ScheduledTask.reminderJob task); [|done].
    destruct (defined _ || defined _).
    + by rewrite lookup_insert_ne.
    + by rewrite lookup_delete_ne.
  - apply clearReminderTask_frame.
Qed.

Lemma clearReminderTask_only_reminder_witness :
  scheduledTasks (Examples.scheduled SCHEDULED 3 Examples.noFaults) !! "s1"
  = Some (ScheduledTask.mk "s1" (Some 0) (Some 1) (Some 2))
  ∧ isRunning
      (clearReminderTask "s1"
         (Examples.scheduled SCHEDULED 3 Examples.noFaults)) 0 = false
  ∧ isRunning
      (clearReminderTask "s1"
         (Examples.scheduled SCHEDULED 3 Examples.noFaults)) 2 = true
  ∧ scheduledTasks
      (clearReminderTask "s1"
         (Examples.scheduled SCHEDULED 3 Examples.noFaults)) !! "s1"
    = Some (ScheduledTask.mk "s1" None (Some 1) (Some 2)).
Proof.
  assert (scheduledTasks (Examples.scheduled SCHEDULED 3 Examples.noFaults)
            !! "s1" = Some (ScheduledTask.mk "s1" (Some 0) (Some 1) (Some 2)))
    as Htask by (vm_compute; reflexivity).
  split; [exact Htask|].
  destruct (clearReminderTask_only_reminder "s1"
              (Examples.scheduled SCHEDULED 3 Examples.noFaults))
    as (Hclear & _).
  destruct (Hclear _ 0 Htask eq_refl) as (Hstopped & Hothers & Hentry).
  split; [exact Hstopped|]. split; [|exact Hentry].
  rewrite Hothers by discriminate. vm_compute. reflexivity.
Defined.

Lemma clearReminderTask_set_trace f sessionId w :
  clearReminderTask sessionId (set_trace f w)
  = set_trace f (clearReminderTask sessionId w).
Proof.
  unfold clearReminderTask. simpl.
  destruct (scheduledTasks w !! sessionId) as [[sid [r|] c k]|]; try done.
  simpl. by destruct (negb _ && negb _).
Qed.

Lemma userIds_toPartyMember w (party : list Db.partyMemberRow) :
  map PartyMember.userId (map (toPartyMember w) party) = map Db.userId party.
Proof. rewrite map_map. by apply map_ext. Qed.

(** X2.  The reminder callback never rejects and never writes to the store.
    When the session is stored it makes one [notifyParty] call, addressed to
    the user ids of the stored party in their order; when it is missing it
    calls nobody.  In both cases, and whether or not that call failed, it
    then clears the reminder slot and nothing else, so every job other than
    the session's reminder job is as started as it was. *)
Theorem handleReminder_effect sessionId w :
  ∃ w',
    handleReminder sessionId w = (Returned tt, w')
    ∧ sessions w' = sessions w
    ∧ scheduledTasks w' = scheduledTasks (clearReminderTask sessionId w)
    ∧ cronJobs w' = cronJobs (clearReminderTask sessionId w)
    ∧ trace w'
      = trace w
        ++ match sessions w !! sessionId with
           | Some session =>
               [(NotifyParty (map Db.userId (Db.partyMembers session))
                   (SessionReminderNotice sessionId),
                 negb (next_fails OpNotifyParty w))]
           | None => []
           end
    ∧ ∀ j,
        (∀ task, scheduledTasks w !! sessionId = Some task →
                 ScheduledTask.reminderJob task ≠ Some j) →
        isRunning w' j = isRunning w j.
Proof.
  unfold handleReminder, try_finally, logged, try_catch, bind, getSessionById,
    getSession.
  assert (∀ w', cronJobs w' = cronJobs (clearReminderTask sessionId w) →
            ∀ j, (∀ task, scheduledTasks w !! sessionId = Some task →
                          ScheduledTask.reminderJob task ≠ Some j) →
                 isRunning w' j = isRunning w j) as Hkeep.
  { intros w' Hj j Hnot.
    transitivity (isRunning (clearReminderTask sessionId w) j).
    { unfold isRunning. by rewrite Hj. }
    rewrite isRunning_clearReminderTask.
    destruct (scheduledTasks w !! sessionId) as [task|]; [|done].
    rewrite decide_False; [done|]. by apply Hnot. }
  destruct (sessions w !! sessionId) as [session|] eqn:H.
  - unfold sendSessionReminders, notifyParty, perform.
    cbn [toSessionWithParty Session.partyMembers Session.id call_op].
    rewrite userIds_toPartyMember.
    destruct (next_fails OpNotifyParty w); cbn [negb]; unfold ret;
      rewrite clearReminderTask_set_trace;
      (eexists; split; [done|]);
      destruct (clearReminderTask_frame sessionId w) as (Hs & _ & _ & Ht);
      cbn; rewrite ?Hs, ?Ht; repeat split; try done; by apply Hkeep.
  - unfold ret. eexists. split; [done|].
    destruct (clearReminderTask_frame sessionId w) as (Hs & _ & _ & Ht).
    rewrite Hs, Ht, app_nil_r. repeat split; try done. by apply Hkeep.
Qed.

(** ** Shutdown *)

Lemma isRunning_stopTask task w j :
  isRunning
    (stopJob (ScheduledTask.completionJob task)
       (stopJob (ScheduledTask.cancellationJob task)
          (stopJob (ScheduledTask.reminderJob task) w))) j
  = if decide (j ∈ ScheduledTask.jobs task) then false else isRunning w j.
Proof.
  rewrite !isRunning_stopJob.
  destruct (decide (j ∈ ScheduledTask.jobs task)) as [Hin|Hnin].
  - rewrite elem_of_jobs in Hin.
    repeat case_decide; first [done | intuition congruence].
  - rewrite elem_of_jobs in Hnin.
    repeat case_decide; first [done | intuition congruence].
Qed.

Lemma stopTasks_isRunning (l : list (string * ScheduledTask.t)) w j :
  isRunning
    (foldr (λ entry w,
        let task := entry.2 in
        let w := stopJob (ScheduledTask.reminderJob task) w in
        let w := stopJob (ScheduledTask.cancellationJob task) w in
        stopJob (ScheduledTask.completionJob task) w) w l) j
  = if decide (Exists (λ entry, j ∈ ScheduledTask.jobs entry.2) l) then false
    else isRunning w j.
Proof.
  induction l as [|entry l IH].
  - done.
  - cbn [foldr]. cbv zeta in IH |- *. rewrite isRunning_stopTask, IH.
    destruct (decide (j ∈ ScheduledTask.jobs entry.2)).
    + rewrite decide_True; [done|]. by left.
    + destruct (decide (Exists _ l)).
      * rewrite decide_True; [done|]. by right.
      * rewrite decide_False; [done|]. by intros [?|?]%Exists_cons.
Qed.

Lemma stopTasks_frame (l : list (string * ScheduledTask.t)) w :
  sessions
    (foldr (λ entry w,
        let task := entry.2 in
        let w := stopJob (ScheduledTask.reminderJob task) w in
        let w := stopJob (ScheduledTask.cancellationJob task) w in
        stopJob (ScheduledTask.completionJob task) w) w l)
  = sessions w.
Proof.
  induction l as [|entry l IH]; [done|]. simpl.
  destruct (ScheduledTask.reminderJob entry.2),
    (ScheduledTask.cancellationJob entry.2),
    (ScheduledTask.completionJob entry.2); simpl; exact IH.
Qed.

Lemma isRunning_shutdown w j :
  isRunning (shutdown w) j
  = if decide (∃ sessionId task, scheduledTasks w !! sessionId = Some task
                                 ∧ j ∈ ScheduledTask.jobs task)
    then false else isRunning w j.
Proof.
  unfold shutdown.
  change (isRunning (set_scheduledTasks ?f ?w) j) with (isRunning w j).
  rewrite stopTasks_isRunning.
  destruct (decide (Exists _ _)) as [Hex|Hnex].
  - rewrite decide_True; [done|].
    apply Exists_exists in Hex as ([sessionId task] & Hin & Hj).
    apply elem_of_reverse, elem_of_map_to_list in Hin. by exists sessionId, task.
  - rewrite decide_False; [done|]. intros (sessionId & task & Htask & Hj).
    apply Hnex, Exists_exists. exists (sessionId, task). split; [|done].
    by apply elem_of_reverse, elem_of_map_to_list.
Qed.

(** X3.  [shutdown] empties the registry, so that [getScheduledTaskCount] is
    0, stops every job that a registered task holds, starts none, and leaves
    the stored sessions alone.  When the registry knows every started job, no
    job at all is started afterwards. *)
Theorem shutdown_stops_everything w :
  scheduledTasks (shutdown w) = ∅
  ∧ getScheduledTaskCount (shutdown w) = 0
  ∧ sessions (shutdown w) = sessions w
  ∧ (∀ sessionId task j,
       scheduledTasks w !! sessionId = Some task →
       j ∈ ScheduledTask.jobs task →
       isRunning (shutdown w) j = false)
  ∧ (∀ j, isRunning (shutdown w) j = true → isRunning w j = true)
  ∧ (registry_wf w → ∀ j, isRunning (shutdown w) j = false).
Proof.
  split; [done|]. split; [apply map_size_empty|]. split.
  { unfold shutdown. simpl. apply stopTasks_frame. }
  split; [|split].
  - intros sessionId task j Htask Hj. rewrite isRunning_shutdown.
    rewrite decide_True; [done|]. by exists sessionId, task.
  - intros j. rewrite isRunning_shutdown. by destruct (decide _).
  - intros Hwf j. rewrite isRunning_shutdown.
    destruct (decide _) as [|Hno]; [done|].
    destruct (isRunning w j) eqn:Hrun; [|done].
    apply isRunning_true in Hrun as (job & Hl & Hrun).
    destruct (Hwf j job Hl Hrun) as (task & Htask & Hj).
    exfalso. apply Hno. by exists (CronJob.session job), task.
Qed.

Lemma registry_wf_fresh sessions users faults trace :
  registry_wf (mkWorld sessions users ∅ [] faults trace).
Proof. intros j job Hl. simpl in Hl. by rewrite lookup_nil in Hl. Qed.

Lemma registry_owned_fresh sessions users faults trace :
  registry_owned (mkWorld sessions users ∅ [] faults trace).
Proof. intros sessionId task j Htask. simpl in Htask. by rewrite lookup_empty in Htask. Qed.

Lemma shutdown_stops_everything_witness :
  registry_wf (Examples.scheduled ACTIVE 6 Examples.noFaults)
  ∧ isRunning (Examples.scheduled ACTIVE 6 Examples.noFaults) 2 = true
  ∧ isRunning (shutdown (Examples.scheduled ACTIVE 6 Examples.noFaults)) 2
    = false
  ∧ getScheduledTaskCount
      (shutdown (Examples.scheduled ACTIVE 6 Examples.noFaults)) = 0.
Proof.
  assert (registry_wf (Examples.scheduled ACTIVE 6 Examples.noFaults)) as Hwf.
  { apply registry_wf_scheduleSessionTasks, registry_wf_fresh. }
  split; [exact Hwf|]. split; [vm_compute; reflexivity|].
  destruct (shutdown_stops_everything
              (Examples.scheduled ACTIVE 6 Examples.noFaults))
    as (_ & Hcount & _ & _ & _ & Hnone).
  split; [exact (Hnone Hwf 2)|exact Hcount].
Defined.

(** ** The registry invariants *)

Lemma registry_wf_clearReminderTask sessionId w :
  registry_wf w → registry_wf (clearReminderTask sessionId w).
Proof.
  rewrite !registry_wf_alt. intros Hwf j s Hrun Hs.
  rewrite isRunning_clearReminderTask in Hrun.
  rewrite jobSession_clearReminderTask in Hs.
  rewrite scheduledTasks_clearReminderTask.
  destruct (scheduledTasks w !! sessionId) as [task|] eqn:Htask;
    [|by apply Hwf].
  destruct (decide (ScheduledTask.reminderJob task = Some j)) as [|Hnr];
    [done|].
  destruct (Hwf j s Hrun Hs) as (task' & Htask' & Hj).
  destruct (ScheduledTask.reminderJob task) as [r|] eqn:Hr; [|by eauto].
  destruct (decide (s = sessionId)) as [->|Hne].
  - assert (task' = task) as -> by congruence.
    apply elem_of_jobs in Hj as [Hj|Hj]; [congruence|].
    assert (defined (ScheduledTask.cancellationJob task)
            || defined (ScheduledTask.completionJob task) = true) as ->.
    { destruct Hj as [-> | ->]; [done|]. apply orb_true_r. }
    rewrite lookup_insert_eq. eexists. split; [done|].
    apply elem_of_jobs. simpl. tauto.
  - exists task'. split; [|done].
    destruct (defined _ || defined _).
    + by rewrite lookup_insert_ne.
    + by rewrite lookup_delete_ne.
Qed.

Lemma registry_wf_shutdown w : registry_wf w → registry_wf (shutdown w).
Proof.
  intros Hwf. apply registry_wf_alt. intros j s Hrun _. exfalso.
  rewrite isRunning_shutdown in Hrun.
  destruct (decide _) as [|Hno]; [done|].
  apply isRunning_true in Hrun as (job & Hl & Hrun).
  destruct (Hwf j job Hl Hrun) as (task & Htask & Hj).
  apply Hno. by exists (CronJob.session job), task.
Qed.

Lemma registry_owned_cancelSessionTasks sessionId w :
  registry_owned w → registry_owned (cancelSessionTasks sessionId w).
Proof.
  intros Hown s task j Htask Hj.
  rewrite cancelSessionTasks_tasks in Htask.
  apply lookup_delete_Some in Htask as [Hne Htask].
  rewrite jobSession_cancelSessionTasks. by eapply Hown.
Qed.

Lemma registry_owned_scheduleSessionTasks now sessionId sessionDate w :
  registry_owned w →
  registry_owned (scheduleSessionTasks now sessionId sessionDate w).
Proof.
  intros Hown s task j Htask Hj.
  destruct (scheduleSessionTasks_run now sessionId sessionDate w)
    as (new & Hjobs & Hk & Hnew & _).
  assert (∀ s' task', s' ≠ sessionId → scheduledTasks w !! s' = Some task' →
            j ∈ ScheduledTask.jobs task' →
            jobSession (scheduleSessionTasks now sessionId sessionDate w) j
            = Some s') as Hold.
  { intros s' task' Hne Htask' Hj'.
    pose proof (Hown s' task' j Htask' Hj') as Hs.
    unfold jobSession. rewrite Hjobs, lookup_app_l.
    - fold (jobSession (cancelSessionTasks sessionId w) j).
      by rewrite jobSession_cancelSessionTasks.
    - rewrite length_cancelSessionTasks. by eapply jobSession_lt. }
  rewrite Hk in Htask.
  destruct (futureTargets now sessionDate) as [|target targets] eqn:E.
  - apply lookup_delete_Some in Htask as [Hne Htask]. by eapply Hold.
  - destruct (decide (s = sessionId)) as [->|Hne].
    + rewrite lookup_insert_eq in Htask. injection Htask as <-.
      rewrite Hnew in Hj. apply elem_of_seq in Hj as [Hge Hlt].
      unfold jobSession. rewrite Hjobs, lookup_app_r
        by (rewrite length_cancelSessionTasks; lia).
      rewrite length_cancelSessionTasks.
      change (map ?f ?l) with (f <$> l). rewrite list_lookup_fmap.
      destruct ((target :: targets) !! (j - length (cronJobs w))) eqn:Hl;
        [done|].
      apply lookup_ge_None in Hl. lia.
    + rewrite lookup_insert_ne in Htask by done.
      apply lookup_delete_Some in Htask as [_ Htask]. by eapply Hold.
Qed.

Lemma registry_owned_clearReminderTask sessionId w :
  registry_owned w → registry_owned (clearReminderTask sessionId w).
Proof.
  intros Hown s task j Htask Hj.
  rewrite jobSession_clearReminderTask.
  rewrite scheduledTasks_clearReminderTask in Htask.
  destruct (scheduledTasks w !! sessionId) as [old|] eqn:Hold;
    [|by eapply Hown].
  destruct (ScheduledTask.reminderJob old) as [r|] eqn:Hr; [|by eapply Hown].
  destruct (defined _ || defined _).
  - destruct (decide (s = sessionId)) as [->|Hne].
    + rewrite lookup_insert_eq in Htask. injection Htask as <-.
      apply (Hown sessionId old j Hold).
      apply elem_of_jobs in Hj. simpl in Hj. apply elem_of_jobs.
      destruct Hj as [|[|]]; [done|tauto|tauto].
    + rewrite lookup_insert_ne in Htask by done. by eapply Hown.
  - apply lookup_delete_Some in Htask as [_ Htask]. by eapply Hown.
Qed.

Lemma registry_owned_shutdown w : registry_owned (shutdown w).
Proof.
  intros s task j Htask. unfold shutdown in Htask. simpl in Htask.
  by rewrite lookup_empty in Htask.
Qed.

(** X4.  Two invariants of the registry are kept by every method that
    changes it ([scheduleSessionTasks], [cancelSessionTasks],
    [clearReminderTask], [shutdown]): every started job is held by the task
    registered for its session, and every reference a task holds points to a
    job created for the task's session. *)
Theorem registry_invariants_preserved now sessionId sessionDate w :
  registry_wf w → registry_owned w →
  (registry_wf (scheduleSessionTasks now sessionId sessionDate w)
   ∧ registry_owned (scheduleSessionTasks now sessionId sessionDate w))
  ∧ (registry_wf (cancelSessionTasks sessionId w)
     ∧ registry_owned (cancelSessionTasks sessionId w))
  ∧ (registry_wf (clearReminderTask sessionId w)
     ∧ registry_owned (clearReminderTask sessionId w))
  ∧ (registry_wf (shutdown w) ∧ registry_owned (shutdown w)).
Proof.
  intros Hwf Hown. repeat split.
  - by apply registry_wf_scheduleSessionTasks.
  - by apply registry_owned_scheduleSessionTasks.
  - by apply registry_wf_cancelSessionTasks.
  - by apply registry_owned_cancelSessionTasks.
  - by apply registry_wf_clearReminderTask.
  - by apply registry_owned_clearReminderTask.
  - by apply registry_wf_shutdown.
  - apply registry_owned_shutdown.
Qed.

Lemma registry_invariants_preserved_witness :
  registry_wf TwoSessions.fresh ∧ registry_owned TwoSessions.fresh
  ∧ registry_wf (scheduleSessionTasks 0 "s1" Examples.start TwoSessions.fresh)
  ∧ registry_owned
      (scheduleSessionTasks 0 "s1" Examples.start TwoSessions.fresh).
Proof.
  pose proof (registry_wf_fresh TwoSessions.store Examples.someUsers
                Examples.noFaults []) as Hwf.
  pose proof (registry_owned_fresh TwoSessions.store Examples.someUsers
                Examples.noFaults []) as Hown.
  split; [exact Hwf|]. split; [exact Hown|].
  apply (registry_invariants_preserved 0 "s1" Examples.start _ Hwf Hown).
Defined.

(** ** Sessions do not disturb each other *)

Lemma filter_alter_same {A} (P : A → Prop) `{∀ x, Decision (P x)}
    (f : A → A) (l : list A) (j : nat) :
  (∀ x, l !! j = Some x → ¬ P x ∧ ¬ P (f x)) →
  filter P (alter f j l) = filter P l.
Proof.
  revert j. induction l as [|x l IH]; intros j Hj; [done|].
  destruct j as [|j].
  - change (alter f 0 (x :: l)) with (f x :: l).
    destruct (Hj x eq_refl) as [Hx Hfx].
    by rewrite !filter_cons_False.
  - change (alter f (S j) (x :: l)) with (x :: alter f j l).
    rewrite !filter_cons, (IH j); [done|]. intros y Hy. by apply Hj.
Qed.

Lemma liveTimers_stopJob other job w :
  (∀ j, job = Some j → jobSession w j ≠ Some other) →
  liveTimers other (stopJob job w) = liveTimers other w.
Proof.
  intros Hjob. destruct job as [j|]; [|done].
  unfold liveTimers. simpl. f_equal. apply filter_alter_same.
  intros x Hx. specialize (Hjob j eq_refl).
  unfold jobSession in Hjob. rewrite Hx in Hjob. simpl in Hjob.
  split; intros [_ Hs]; simpl in Hs; congruence.
Qed.

Lemma liveTimers_cancelSessionTasks_other sessionId other w :
  registry_owned w → other ≠ sessionId →
  liveTimers other (cancelSessionTasks sessionId w) = liveTimers other w.
Proof.
  intros Hown Hne. unfold cancelSessionTasks.
  destruct (scheduledTasks w !! sessionId) as [task|] eqn:Htask; [|done].
  change (liveTimers other (set_scheduledTasks (delete sessionId) ?w))
    with (liveTimers other w).
  assert (∀ j, j ∈ ScheduledTask.jobs task → jobSession w j ≠ Some other)
    as Hj.
  { intros j Hj. rewrite (Hown sessionId task j Htask Hj). congruence. }
  rewrite !liveTimers_stopJob; [done|..];
    intros j Hs; rewrite ?jobSession_stopJob; apply Hj, elem_of_jobs; tauto.
Qed.

Lemma liveTimers_clearReminderTask_other sessionId other w :
  registry_owned w → other ≠ sessionId →
  liveTimers other (clearReminderTask sessionId w) = liveTimers other w.
Proof.
  intros Hown Hne. unfold clearReminderTask.
  destruct (scheduledTasks w !! sessionId) as [task|] eqn:Htask; [|done].
  destruct (ScheduledTask.reminderJob task) as [r|] eqn:Hr; [|done].
  set (w1 := stopJob (Some r) w).
  assert (∀ f, liveTimers other (set_scheduledTasks f w1) = liveTimers other w1)
    as Hf by done.
  destruct (negb _ && negb _); rewrite Hf; unfold w1;
    (apply liveTimers_stopJob; intros j [= <-];
     rewrite (Hown sessionId task r Htask) by (apply elem_of_jobs; tauto);
     congruence).
Qed.

Lemma liveTimers_scheduleSessionTasks_other now sessionId sessionDate other w :
  registry_owned w → other ≠ sessionId →
  liveTimers other (scheduleSessionTasks now sessionId sessionDate w)
  = liveTimers other w.
Proof.
  intros Hown Hne.
  destruct (scheduleSessionTasks_run now sessionId sessionDate w)
    as (task & Hj & _).
  rewrite <- (liveTimers_cancelSessionTasks_other sessionId other w) by done.
  unfold liveTimers. rewrite Hj, filter_app, map_app.
  rewrite (filter_none _ (map _ (futureTargets now sessionDate))).
  - simpl. by rewrite app_nil_r.
  - intros job Hin [_ Hs]. apply list_elem_of_In, in_map_iff in Hin
      as (target & <- & _). simpl in Hs. congruence.
Qed.

Lemma scheduledTasks_scheduleSessionTasks_other now sessionId sessionDate other
    w :
  other ≠ sessionId →
  scheduledTasks (scheduleSessionTasks now sessionId sessionDate w) !! other
  = scheduledTasks w !! other.
Proof.
  intros Hne.
  destruct (scheduleSessionTasks_run now sessionId sessionDate w)
    as (task & _ & -> & _).
  destruct (futureTargets now sessionDate).
  - by rewrite lookup_delete_ne.
  - by rewrite lookup_insert_ne, lookup_delete_ne.
Qed.

(** X5.  When every reference a task holds points to a job of its own
    session, scheduling, cancelling or clearing the reminder of one session
    leaves every other session as it was: the same registered task and the
    same timers that can still fire. *)
Theorem other_sessions_untouched now sessionId sessionDate other w :
  registry_owned w → other ≠ sessionId →
  (liveTimers other (scheduleSessionTasks now sessionId sessionDate w)
   = liveTimers other w
   ∧ scheduledTasks (scheduleSessionTasks now sessionId sessionDate w) !! other
     = scheduledTasks w !! other)
  ∧ (liveTimers other (cancelSessionTasks sessionId w) = liveTimers other w
     ∧ scheduledTasks (cancelSessionTasks sessionId w) !! other
       = scheduledTasks w !! other)
  ∧ (liveTimers other (clearReminderTask sessionId w) = liveTimers other w
     ∧ scheduledTasks (clearReminderTask sessionId w) !! other
       = scheduledTasks w !! other).
Proof.
  intros Hown Hne. repeat split.
  - by apply liveTimers_scheduleSessionTasks_other.
  - by apply scheduledTasks_scheduleSessionTasks_other.
  - by apply liveTimers_cancelSessionTasks_other.
  - by rewrite cancelSessionTasks_tasks, lookup_delete_ne.
  - by apply liveTimers_clearReminderTask_other.
  - rewrite scheduledTasks_clearReminderTask.
    destruct (scheduledTasks w !! sessionId) as [task|]; [|done].
    destruct (ScheduledTask.reminderJob task); [|done].
    destruct (defined _ || defined _).
    + by rewrite lookup_insert_ne.
    + by rewrite lookup_delete_ne.
Qed.

Lemma other_sessions_untouched_witness :
  registry_owned TwoSessions.scheduled
  ∧ liveTimers "s2" (cancelSessionTasks "s1" TwoSessions.scheduled)
    = [(ReminderJob, 182800000%Z); (CancellationJob, 186100000%Z);
       (CompletionJob, 204400000%Z)]
  ∧ liveTimers "s1" (cancelSessionTasks "s1" TwoSessions.scheduled) = [].
Proof.
  assert (registry_owned TwoSessions.scheduled) as Hown.
  { do 2 apply registry_owned_scheduleSessionTasks.
    apply registry_owned_fresh. }
  split; [exact Hown|].
  destruct (other_sessions_untouched 0 "s1" Examples.start "s2" _ Hown)
    as (_ & (Hlive & _) & _); [discriminate|].
  split.
  - rewrite Hlive. vm_compute. reflexivity.
  - vm_compute. reflexivity.
Defined.

(** * Further properties of the controller and the callbacks *)

(** ** A session that is not stored *)

(** X6.  For a session id that is not in the store: [cancelSession] and
    [endSession] reject with the error of the lookup and change nothing, not
    even the timers, which they cancel only after the lookup;
    [regenerateSessionMessage] rejects without calling Discord; the
    fill-deadline callback swallows the error and leaves the world, its own
    entry in the registry included, as it was; the completion callback
    swallows it too and still cancels the session's tasks. *)
Theorem missing_session_behaviour sessionId reason description w :
  sessions w !! sessionId = None →
  cancelSession sessionId reason w = (Thrown (NotFound sessionId), w)
  ∧ endSession sessionId w = (Thrown (NotFound sessionId), w)
  ∧ regenerateSessionMessage sessionId description w
    = (Thrown (NotFound sessionId), w)
  ∧ handleCancellation sessionId w = (Returned tt, w)
  ∧ handleCompletion sessionId w
    = (Returned tt, cancelSessionTasks sessionId w).
Proof.
  intros H. repeat split.
  - unfold cancelSession, bind. by rewrite (getSession_missing _ _ H).
  - unfold endSession, bind. by rewrite (getSession_missing _ _ H).
  - unfold regenerateSessionMessage, bind, getSessionById.
    by rewrite (getSession_missing _ _ H).
  - unfold handleCancellation, logged, try_catch, bind, getSessionById.
    by rewrite (getSession_missing _ _ H).
  - by apply handleCompletion_missing.
Qed.

Lemma missing_session_behaviour_witness :
  sessions (Examples.scheduled SCHEDULED 3 Examples.noFaults) !! "s7" = None
  ∧ cancelSession "s7" "called off"
      (Examples.scheduled SCHEDULED 3 Examples.noFaults)
    = (Thrown (NotFound "s7"),
       Examples.scheduled SCHEDULED 3 Examples.noFaults)
  ∧ handleCancellation "s7"
      (Examples.scheduled SCHEDULED 3 Examples.noFaults)
    = (Returned tt, Examples.scheduled SCHEDULED 3 Examples.noFaults).
Proof.
  assert (sessions (Examples.scheduled SCHEDULED 3 Examples.noFaults) !! "s7"
          = None) as H by (vm_compute; reflexivity).
  split; [exact H|].
  destruct (missing_session_behaviour "s7" "called off" None _ H)
    as (Hc & _ & _ & Hf & _).
  split; [exact Hc|exact Hf].
Defined.

(** ** A status write that fails *)

Lemma liveTimers_congr sessionId w1 w2 :
  cronJobs w1 = cronJobs w2 → liveTimers sessionId w1 = liveTimers sessionId w2.
Proof. unfold liveTimers. by intros ->. Qed.

(** X7.  [cancelSession] and [endSession] cancel the session's tasks before
    they write the status.  So when the write fails on a stored session, the
    rejected call leaves the session with its old row but without a
    registered task and, if the registry knew every started job, without any
    timer that can still fire; and [cancelSession] has then announced no
    reason to the party.  The fill-deadline callback on a full party whose
    write of ACTIVE fails returns with the same result: old row, no
    timers. *)
Theorem failed_write_leaves_no_timers sessionId reason session w :
  sessions w !! sessionId = Some session →
  next_fails OpUpdateSession w = true →
  registry_wf w →
  (∃ w',
     cancelSession sessionId reason w
     = (Thrown (CallFailed (UpdateSession sessionId CANCELED)), w')
     ∧ sessions w' = sessions w
     ∧ scheduledTasks w' !! sessionId = None
     ∧ liveTimers sessionId w' = []
     ∧ cancelReasons w' = cancelReasons w)
  ∧ (∃ w',
       endSession sessionId w
       = (Thrown (CallFailed (UpdateSession sessionId COMPLETED)), w')
       ∧ sessions w' = sessions w
       ∧ scheduledTasks w' !! sessionId = None
       ∧ liveTimers sessionId w' = [])
  ∧ (6 ≤ length (Db.partyMembers session) →
     ∃ w',
       handleCancellation sessionId w = (Returned tt, w')
       ∧ sessions w' = sessions w
       ∧ scheduledTasks w' !! sessionId = None
       ∧ liveTimers sessionId w' = []).
Proof.
  intros H Hn Hwf.
  pose proof (liveTimers_cancelSessionTasks sessionId w Hwf) as Hlive.
  split; [|split].
  - destruct (cancelSession_run sessionId reason session w H)
      as (w' & E & Hs & Hk & Hj & _ & _ & _ & Hr).
    rewrite Hn in E, Hs, Hr. exists w'. split; [done|]. split; [done|].
    split; [by rewrite Hk, lookup_delete_eq|]. split; [|done].
    by rewrite (liveTimers_congr _ _ _ Hj).
  - destruct (endSession_run sessionId session w H)
      as (w' & E & Hs & Hk & Hj & _).
    rewrite Hn in E, Hs. exists w'. split; [done|]. split; [done|].
    split; [by rewrite Hk, lookup_delete_eq|].
    by rewrite (liveTimers_congr _ _ _ Hj).
  - intros Hfull.
    destruct (handleCancellation_full sessionId session w H Hfull)
      as (w' & E & Hs & Hk & Hj).
    rewrite Hn in Hs. exists w'. split; [done|]. split; [done|].
    split; [by rewrite Hk, lookup_delete_eq|].
    by rewrite (liveTimers_congr _ _ _ Hj).
Qed.

Lemma failed_write_leaves_no_timers_witness :
  sessions (Examples.scheduled SCHEDULED 6 Examples.storeDown) !! "s1"
  = Some (Examples.raid SCHEDULED 6)
  ∧ liveTimers "s1" (Examples.scheduled SCHEDULED 6 Examples.storeDown)
    = [(ReminderJob, 96400000%Z); (CancellationJob, 99700000%Z);
       (CompletionJob, 118000000%Z)]
  ∧ ∃ w',
      handleCancellation "s1"
        (Examples.scheduled SCHEDULED 6 Examples.storeDown)
      = (Returned tt, w')
      ∧ sessions w' = {[ "s1" := Examples.raid SCHEDULED 6 ]}
      ∧ liveTimers "s1" w' = [].
Proof.
  assert (sessions (Examples.scheduled SCHEDULED 6 Examples.storeDown) !! "s1"
          = Some (Examples.raid SCHEDULED 6)) as H by (vm_compute; reflexivity).
  split; [exact H|]. split; [vm_compute; reflexivity|].
  destruct (failed_write_leaves_no_timers "s1" "called off" _ _ H)
    as (_ & _ & Hfull).
  - vm_compute. reflexivity.
  - apply registry_wf_scheduleSessionTasks, registry_wf_fresh.
  - destruct Hfull as (w' & E & Hs & _ & Hlive); [vm_compute; lia|].
    exists w'. split; [exact E|]. split; [|exact Hlive].
    rewrite Hs. vm_compute. reflexivity.
Defined.

(** * Further properties of the recovery at start-up *)

Lemma futureTargets_after_start now date :
  isFutureDate now date = false →
  futureTargets now date
  = if isFutureDate now (getHoursAfter date 5)
    then [(CompletionJob, getHoursAfter date 5)] else [].
Proof.
  intros Hpast. unfold futureTargets, targets.
  rewrite !(filter_cons_bool (λ target, isFutureDate now target.2)), filter_nil.
  cbn [snd].
  assert (isFutureDate now (getHoursBefore date 1) = false) as ->.
  { revert Hpast. unfold isFutureDate, getHoursBefore.
    rewrite !bool_decide_eq_false. lia. }
  assert (isFutureDate now (getMinutesBefore date 5) = false) as ->.
  { revert Hpast. unfold isFutureDate, getMinutesBefore.
    rewrite !bool_decide_eq_false. lia. }
  done.
Qed.

(** X8.  Recovery of a session listed ACTIVE whose start has passed and whose
    completion instant (start + 5 hours) is still ahead is one call of
    [scheduleSessionTasks] with the original start: the store is not
    written, the task registered for the session holds a completion job only
    and, if the registry knew every started job, the one timer of the
    session that can still fire is its completion at start + 5 hours. *)
Theorem recovery_active_in_window now sessionId date w :
  isFutureDate now date = false →
  isFutureDate now (getHoursAfter date 5) = true →
  handleMissedSession now (ListSessionsResult.mk sessionId date ACTIVE) w
  = (Returned tt, scheduleSessionTasks now sessionId date w)
  ∧ sessions (scheduleSessionTasks now sessionId date w) = sessions w
  ∧ scheduledTasks (scheduleSessionTasks now sessionId date w) !! sessionId
    = Some (ScheduledTask.mk sessionId None None
              (Some (length (cronJobs w))))
  ∧ (registry_wf w →
     liveTimers sessionId (scheduleSessionTasks now sessionId date w)
     = [(CompletionJob, getHoursAfter date 5)]).
Proof.
  intros Hpast Hwindow.
  pose proof (futureTargets_after_start now date Hpast) as Hft.
  rewrite Hwindow in Hft.
  split; [|split; [|split]].
  - unfold handleMissedSession. simpl. by rewrite Hpast, Hwindow.
  - by destruct (scheduleSessionTasks_run now sessionId date w)
      as (task & _ & _ & _ & _ & _ & _ & -> & _).
  - unfold scheduleSessionTasks.
    assert (isFutureDate now (getHoursBefore date 1) = false) as ->.
    { revert Hpast. unfold isFutureDate, getHoursBefore.
      rewrite !bool_decide_eq_false. lia. }
    assert (isFutureDate now (getMinutesBefore date 5) = false) as ->.
    { revert Hpast. unfold isFutureDate, getMinutesBefore.
      rewrite !bool_decide_eq_false. lia. }
    rewrite Hwindow. cbn. rewrite lookup_insert_eq.
    by rewrite length_cancelSessionTasks.
  - intros Hwf. by rewrite liveTimers_scheduleSessionTasks, Hft.
Qed.

Lemma recovery_active_in_window_witness :
  isFutureDate 110000000 Examples.start = false
  ∧ isFutureDate 110000000 (getHoursAfter Examples.start 5) = true
  ∧ handleMissedSession 110000000
      (ListSessionsResult.mk "s1" Examples.start ACTIVE)
      (Examples.fresh ACTIVE 6 Examples.noFaults)
    = (Returned tt,
       scheduleSessionTasks 110000000 "s1" Examples.start
         (Examples.fresh ACTIVE 6 Examples.noFaults))
  ∧ liveTimers "s1"
      (scheduleSessionTasks 110000000 "s1" Examples.start
         (Examples.fresh ACTIVE 6 Examples.noFaults))
    = [(CompletionJob, 118000000%Z)].
Proof.
  assert (isFutureDate 110000000 Examples.start = false) as Hpast
    by (vm_compute; reflexivity).
  assert (isFutureDate 110000000 (getHoursAfter Examples.start 5) = true)
    as Hwindow by (vm_compute; reflexivity).
  split; [exact Hpast|]. split; [exact Hwindow|].
  destruct (recovery_active_in_window 110000000 "s1" Examples.start
              (Examples.fresh ACTIVE 6 Examples.noFaults) Hpast Hwindow)
    as (E & _ & _ & Hlive).
  split; [exact E|]. apply Hlive, registry_wf_fresh.
Defined.

(** X9.  Recovery of a stored SCHEDULED or FULL session whose start has
    passed and whose party has 6 members or more first writes ACTIVE.  If
    that write fails, recovery returns all the same, with the store, the
    registry and the jobs as they were.  If it succeeds and the completion
    instant is still ahead, the session is stored ACTIVE and its only timer
    that can still fire is the completion at start + 5 hours.  If it succeeds
    and the completion instant has passed too, the session is ended at once:
    no task is left for it, and it is stored COMPLETED, or ACTIVE when that
    second write fails. *)
Theorem recovery_full_party now sessionId session w :
  sessions w !! sessionId = Some session →
  Db.status session = SCHEDULED ∨ Db.status session = FULL →
  isFutureDate now (Db.date session) = false →
  6 ≤ length (Db.partyMembers session) →
  ∃ w',
    handleMissedSession now
      (ListSessionsResult.mk sessionId (Db.date session) (Db.status session)) w
    = (Returned tt, w')
    ∧ (next_fails OpUpdateSession w = true →
       sessions w' = sessions w
       ∧ scheduledTasks w' = scheduledTasks w
       ∧ cronJobs w' = cronJobs w)
    ∧ (next_fails OpUpdateSession w = false →
       isFutureDate now (getHoursAfter (Db.date session) 5) = true →
       sessions w' = <[sessionId := Db.with_status ACTIVE session]> (sessions w)
       ∧ (registry_wf w →
          liveTimers sessionId w'
          = [(CompletionJob, getHoursAfter (Db.date session) 5)]))
    ∧ (next_fails OpUpdateSession w = false →
       isFutureDate now (getHoursAfter (Db.date session) 5) = false →
       scheduledTasks w' !! sessionId = None
       ∧ sessions w'
         = <[sessionId :=
               Db.with_status
                 (if faults w OpUpdateSession (S (attempts OpUpdateSession w))
                  then ACTIVE else COMPLETED) session]> (sessions w)).
Proof.
  intros H Hst Hpast Hfull. unfold handleMissedSession. simpl.
  rewrite Hpast. simpl.
  assert (bool_decide (Db.status session = ACTIVE) = false) as ->
    by (apply bool_decide_eq_false_2; destruct Hst; congruence).
  assert (bool_decide (Db.status session = SCHEDULED)
          || bool_decide (Db.status session = FULL) = true) as ->.
  { destruct Hst as [-> | ->]; done. }
  simpl. unfold logged, try_catch, bind, getSessionById.
  rewrite (getSession_found _ _ _ H).
  cbn [toSessionWithParty Session.partyMembers].
  rewrite length_map, bool_decide_eq_true_2 by done.
  rewrite (updateSession_found _ _ _ _ H).
  destruct (next_fails OpUpdateSession w) eqn:Hn.
  - eexists. split; [done|]. split; [done|]. split; intros [=].
  - set (w1 := set_sessions (alter (Db.with_status ACTIVE) sessionId)
                 (set_trace (λ t, t ++ [(UpdateSession sessionId ACTIVE, true)])
                    w)).
    assert (sessions w1 !! sessionId = Some (Db.with_status ACTIVE session))
      as H1.
    { unfold w1. simpl. by rewrite lookup_alter_eq, H. }
    destruct (isFutureDate now (getHoursAfter (Db.date session) 5)) eqn:Hw.
    + unfold sync. eexists. split; [done|]. split; [intros [=]|].
      split; [|intros _ [=]]. intros _ _. split.
      * destruct (scheduleSessionTasks_run now sessionId (Db.date session) w1)
          as (task & _ & _ & _ & _ & _ & _ & -> & _).
        unfold w1. simpl. by apply alter_alt_Some.
      * intros Hwf.
        rewrite liveTimers_scheduleSessionTasks by apply Hwf.
        by rewrite futureTargets_after_start, Hw.
    + destruct (endSession_run sessionId _ w1 H1)
        as (w2 & -> & Hs2 & Hk2 & _).
      assert (next_fails OpUpdateSession w1
              = faults w OpUpdateSession (S (attempts OpUpdateSession w)))
        as Hn1.
      { unfold next_fails, w1.
        rewrite attempts_set_sessions, attempts_logged. done. }
      rewrite Hn1 in Hs2 |- *.
      assert (sessions w1
              = <[sessionId := Db.with_status ACTIVE session]> (sessions w))
        as Hs1 by (unfold w1; simpl; by apply alter_alt_Some).
      exists w2. split.
      { by destruct (faults w OpUpdateSession _). }
      split; [intros [=]|]. split; [intros _ [=]|]. intros _ _. split.
      * by rewrite Hk2, lookup_delete_eq.
      * rewrite Hs2. destruct (faults w OpUpdateSession _); [done|].
        rewrite Hs1, alter_insert_eq. by destruct session.
Qed.

Lemma recovery_full_party_witness :
  sessions (Examples.fresh FULL 6 Examples.noFaults) !! "s1"
  = Some (Examples.raid FULL 6)
  ∧ (∃ w',
       handleMissedSession 110000000
         (ListSessionsResult.mk "s1" Examples.start FULL)
         (Examples.fresh FULL 6 Examples.noFaults)
       = (Returned tt, w')
       ∧ sessions w' = {[ "s1" := Examples.raid ACTIVE 6 ]}
       ∧ liveTimers "s1" w' = [(CompletionJob, 118000000%Z)])
  ∧ (∃ w',
       handleMissedSession 200000000
         (ListSessionsResult.mk "s1" Examples.start FULL)
         (Examples.fresh FULL 6 Examples.noFaults)
       = (Returned tt, w')
       ∧ sessions w' = {[ "s1" := Examples.raid COMPLETED 6 ]}).
Proof.
  assert (sessions (Examples.fresh FULL 6 Examples.noFaults) !! "s1"
          = Some (Examples.raid FULL 6)) as H by (vm_compute; reflexivity).
  split; [exact H|]. split.
  - destruct (recovery_full_party 110000000 "s1" _ _ H)
      as (w' & E & _ & Hwindow & _).
    + by right.
    + vm_compute. reflexivity.
    + vm_compute. lia.
    + destruct Hwindow as (Hs & Hlive); [vm_compute; reflexivity ..|].
      exists w'. split; [exact E|]. split.
      * rewrite Hs. vm_compute. reflexivity.
      * apply Hlive, registry_wf_fresh.
  - destruct (recovery_full_party 200000000 "s1" _ _ H)
      as (w' & E & _ & _ & Hpassed).
    + by right.
    + vm_compute. reflexivity.
    + vm_compute. lia.
    + destruct Hpassed as (_ & Hs); [vm_compute; reflexivity ..|].
      exists w'. split; [exact E|]. rewrite Hs. vm_compute. reflexivity.
Defined.

(** ** Recovery, session by session *)

Lemma logged_returns (body : M unit) w : (logged body w).1 = Returned tt.
Proof.
  unfold logged, try_catch, ret. by destruct (body w) as [[[]|e] w'].
Qed.

Lemma handleMissedSession_returns now session w :
  (handleMissedSession now session w).1 = Returned tt.
Proof.
  unfold handleMissedSession.
  destruct (negb _); [apply logged_returns|done].
Qed.

Lemma handleMissedSessions_fold now (l : list ListSessionsResult.t) w :
  handleMissedSessions now l w
  = (Returned tt, foldl (λ w session, (handleMissedSession now session w).2) w l).
Proof.
  revert w. induction l as [|session l IH]; intros w; [done|].
  simpl. unfold bind.
  pose proof (handleMissedSession_returns now session w) as Hr.
  destruct (handleMissedSession now session w) as [o w1]. simpl in Hr.
  rewrite Hr. apply IH.
Qed.

Lemma registry_wf_congr w1 w2 :
  scheduledTasks w1 = scheduledTasks w2 → cronJobs w1 = cronJobs w2 →
  registry_wf w2 → registry_wf w1.
Proof. unfold registry_wf. by intros -> ->. Qed.

Lemma registry_owned_congr w1 w2 :
  scheduledTasks w1 = scheduledTasks w2 → cronJobs w1 = cronJobs w2 →
  registry_owned w2 → registry_owned w1.
Proof. unfold registry_owned, jobSession. by intros -> ->. Qed.

(** What one step of recovery may do to the registry and to the rows of the
    other sessions. *)
Lemma registry_step sessionId w w' :
  (scheduledTasks w' = scheduledTasks w ∧ cronJobs w' = cronJobs w)
  ∨ (scheduledTasks w' = scheduledTasks (cancelSessionTasks sessionId w)
     ∧ cronJobs w' = cronJobs (cancelSessionTasks sessionId w)) →
  (registry_wf w → registry_wf w')
  ∧ (registry_owned w → registry_owned w')
  ∧ (∀ other, other ≠ sessionId → registry_owned w →
       liveTimers other w' = liveTimers other w).
Proof.
  intros [[Hk Hj]|[Hk Hj]]; repeat split.
  - by apply registry_wf_congr.
  - by apply registry_owned_congr.
  - intros other _ _. by apply liveTimers_congr.
  - intros Hwf. eapply registry_wf_congr; [done..|].
    by apply registry_wf_cancelSessionTasks.
  - intros Hown. eapply registry_owned_congr; [done..|].
    by apply registry_owned_cancelSessionTasks.
  - intros other Hne Hown. rewrite (liveTimers_congr _ _ _ Hj).
    by apply liveTimers_cancelSessionTasks_other.
Qed.

Lemma endSession_total sessionId w :
  (∀ other, other ≠ sessionId →
     sessions (endSession sessionId w).2 !! other = sessions w !! other)
  ∧ ((scheduledTasks (endSession sessionId w).2 = scheduledTasks w
      ∧ cronJobs (endSession sessionId w).2 = cronJobs w)
     ∨ (scheduledTasks (endSession sessionId w).2
        = scheduledTasks (cancelSessionTasks sessionId w)
        ∧ cronJobs (endSession sessionId w).2
          = cronJobs (cancelSessionTasks sessionId w))).
Proof.
  destruct (sessions w !! sessionId) as [session|] eqn:H.
  - destruct (endSession_run sessionId session w H)
      as (w' & -> & Hs & Hk & Hj & _). simpl. split.
    + intros other Hne. rewrite Hs.
      destruct (next_fails OpUpdateSession w); [done|].
      by rewrite lookup_alter_ne.
    + right. by rewrite cancelSessionTasks_tasks.
  - unfold endSession, bind. rewrite (getSession_missing _ _ H). simpl.
    split; [done|]. by left.
Qed.

Lemma cancelSession_total sessionId reason w :
  (∀ other, other ≠ sessionId →
     sessions (cancelSession sessionId reason w).2 !! other
     = sessions w !! other)
  ∧ ((scheduledTasks (cancelSession sessionId reason w).2 = scheduledTasks w
      ∧ cronJobs (cancelSession sessionId reason w).2 = cronJobs w)
     ∨ (scheduledTasks (cancelSession sessionId reason w).2
        = scheduledTasks (cancelSessionTasks sessionId w)
        ∧ cronJobs (cancelSession sessionId reason w).2
          = cronJobs (cancelSessionTasks sessionId w))).
Proof.
  destruct (sessions w !! sessionId) as [session|] eqn:H.
  - destruct (cancelSession_run sessionId reason session w H)
      as (w' & -> & Hs & Hk & Hj & _). simpl. split.
    + intros other Hne. rewrite Hs.
      destruct (next_fails OpUpdateSession w); [done|].
      by rewrite lookup_alter_ne.
    + right. by rewrite cancelSessionTasks_tasks.
  - unfold cancelSession, bind. rewrite (getSession_missing _ _ H). simpl.
    split; [done|]. by left.
Qed.

Lemma logged_world (body : M unit) w : (logged body w).2 = (body w).2.
Proof.
  unfold logged, try_catch, ret. by destruct (body w) as [[[]|e] w'].
Qed.

Lemma stepFrame_refl sessionId w : stepFrame sessionId w w.
Proof. by repeat split. Qed.

Lemma stepFrame_trans sessionId w1 w2 w3 :
  stepFrame sessionId w1 w2 → stepFrame sessionId w2 w3 →
  stepFrame sessionId w1 w3.
Proof.
  intros (Hwf1 & Hown1 & Hs1 & Hl1) (Hwf2 & Hown2 & Hs2 & Hl2).
  repeat split; [tauto|tauto|..].
  - intros other Hne. by rewrite Hs2, Hs1.
  - intros other Hne Hown. rewrite Hl2, Hl1; auto.
Qed.

Lemma stepFrame_registry_step sessionId w w' :
  (∀ other, other ≠ sessionId → sessions w' !! other = sessions w !! other) →
  (scheduledTasks w' = scheduledTasks w ∧ cronJobs w' = cronJobs w)
  ∨ (scheduledTasks w' = scheduledTasks (cancelSessionTasks sessionId w)
     ∧ cronJobs w' = cronJobs (cancelSessionTasks sessionId w)) →
  stepFrame sessionId w w'.
Proof.
  intros Hs Hreg.
  destruct (registry_step sessionId w w' Hreg) as (Hwf & Hown & Hl).
  by repeat split.
Qed.

Lemma stepFrame_scheduleSessionTasks now sessionId sessionDate w :
  stepFrame sessionId w (scheduleSessionTasks now sessionId sessionDate w).
Proof.
  repeat split.
  - apply registry_wf_scheduleSessionTasks.
  - apply registry_owned_scheduleSessionTasks.
  - intros other _.
    by destruct (scheduleSessionTasks_run now sessionId sessionDate w)
      as (task & _ & _ & _ & _ & _ & _ & -> & _).
  - intros other Hne Hown. by apply liveTimers_scheduleSessionTasks_other.
Qed.

Lemma stepFrame_endSession sessionId w :
  stepFrame sessionId w (endSession sessionId w).2.
Proof.
  destruct (endSession_total sessionId w) as [Hs Hreg].
  by apply stepFrame_registry_step.
Qed.

Lemma stepFrame_cancelSession sessionId reason w :
  stepFrame sessionId w (cancelSession sessionId reason w).2.
Proof.
  destruct (cancelSession_total sessionId reason w) as [Hs Hreg].
  by apply stepFrame_registry_step.
Qed.

Lemma stepFrame_updateSession sessionId status w :
  stepFrame sessionId w (updateSession sessionId status w).2.
Proof.
  unfold updateSession. destruct (sessions w !! sessionId) eqn:H.
  - unfold perform. destruct (next_fails _ w); simpl.
    + apply stepFrame_registry_step; [done|by left].
    + apply stepFrame_registry_step; [|by left].
      intros other Hne. simpl. by rewrite lookup_alter_ne.
  - apply stepFrame_refl.
Qed.

(** One step of recovery only concerns its own session, and does nothing at
    all for a session whose start is ahead. *)
Lemma handleMissedSession_frame now session w :
  stepFrame (ListSessionsResult.id session) w
    (handleMissedSession now session w).2
  ∧ (isFutureDate now (ListSessionsResult.date session) = true →
     (handleMissedSession now session w).2 = w).
Proof.
  unfold handleMissedSession.
  destruct (isFutureDate now (ListSessionsResult.date session)) eqn:Hfut;
    simpl.
  { split; [apply stepFrame_refl|done]. }
  split; [|done]. rewrite logged_world.
  destruct (bool_decide (ListSessionsResult.status session = ACTIVE)).
  - destruct (isFutureDate now (getHoursAfter _ 5)); simpl.
    + apply stepFrame_scheduleSessionTasks.
    + apply stepFrame_endSession.
  - simpl. destruct (bool_decide _ || bool_decide _); [|apply stepFrame_refl].
    unfold bind, getSessionById, getSession.
    destruct (sessions w !! ListSessionsResult.id session); simpl;
      [|apply stepFrame_refl].
    destruct (bool_decide (6 ≤ _)).
    + pose proof (stepFrame_updateSession (ListSessionsResult.id session)
                    ACTIVE w) as Hupd.
      destruct (updateSession (ListSessionsResult.id session) ACTIVE w)
        as [[[]|e] w1]; simpl in *; [|done].
      eapply stepFrame_trans; [exact Hupd|].
      destruct (isFutureDate now (getHoursAfter _ 5)).
      * apply stepFrame_scheduleSessionTasks.
      * apply stepFrame_endSession.
    + apply stepFrame_cancelSession.
Qed.

Lemma handleMissedSessions_frame now (l : list ListSessionsResult.t) other w :
  Forall (λ session,
      ListSessionsResult.id session ≠ other
      ∨ isFutureDate now (ListSessionsResult.date session) = true) l →
  (registry_wf w →
   registry_wf
     (foldl (λ w session, (handleMissedSession now session w).2) w l))
  ∧ (registry_owned w →
     registry_owned
       (foldl (λ w session, (handleMissedSession now session w).2) w l))
  ∧ sessions (foldl (λ w session, (handleMissedSession now session w).2) w l)
      !! other = sessions w !! other
  ∧ (registry_owned w →
     liveTimers other
       (foldl (λ w session, (handleMissedSession now session w).2) w l)
     = liveTimers other w).
Proof.
  revert w. induction l as [|session l IH]; intros w Hall; [done|].
  apply Forall_cons in Hall as [Hhead Hall]. simpl.
  destruct (handleMissedSession_frame now session w)
    as [(Hwf & Hown & Hs & Hl) Hfut].
  destruct (IH (handleMissedSession now session w).2 Hall)
    as (Hwf' & Hown' & Hs' & Hl').
  split; [tauto|]. split; [tauto|].
  destruct Hhead as [Hne|Hf].
  - split; [by rewrite Hs', Hs|].
    intros Ho. rewrite Hl', Hl; auto.
  - rewrite (Hfut Hf) in *. split; [done|]. exact Hl'.
Qed.

(** ** Scheduling a list of sessions *)

Lemma scheduleAll_frame now (l : list ListSessionsResult.t) w :
  sessions
    (foldl (λ w session,
        scheduleSessionTasks now (ListSessionsResult.id session)
          (ListSessionsResult.date session) w) w l) = sessions w
  ∧ (registry_wf w →
     registry_wf
       (foldl (λ w session,
           scheduleSessionTasks now (ListSessionsResult.id session)
             (ListSessionsResult.date session) w) w l))
  ∧ (registry_owned w →
     registry_owned
       (foldl (λ w session,
           scheduleSessionTasks now (ListSessionsResult.id session)
             (ListSessionsResult.date session) w) w l))
  ∧ (∀ other, other ∉ map ListSessionsResult.id l → registry_owned w →
       liveTimers other
         (foldl (λ w session,
             scheduleSessionTasks now (ListSessionsResult.id session)
               (ListSessionsResult.date session) w) w l)
       = liveTimers other w).
Proof.
  revert w. induction l as [|session l IH]; intros w; [done|]. simpl.
  destruct (stepFrame_scheduleSessionTasks now (ListSessionsResult.id session)
              (ListSessionsResult.date session) w) as (Hwf & Hown & _ & Hl).
  destruct (IH (scheduleSessionTasks now (ListSessionsResult.id session)
                  (ListSessionsResult.date session) w))
    as (Hs' & Hwf' & Hown' & Hl').
  split.
  { rewrite Hs'.
    by destruct (scheduleSessionTasks_run now (ListSessionsResult.id session)
                   (ListSessionsResult.date session) w)
      as (task & _ & _ & _ & _ & _ & _ & -> & _). }
  split; [tauto|]. split; [tauto|].
  intros other Hnotin Ho. apply not_elem_of_cons in Hnotin as [Hne Hnotin].
  rewrite Hl', Hl; auto.
Qed.

Lemma scheduleAll_in now (l : list ListSessionsResult.t) session w :
  registry_wf w → registry_owned w →
  NoDup (map ListSessionsResult.id l) → session ∈ l →
  liveTimers (ListSessionsResult.id session)
    (foldl (λ w session,
        scheduleSessionTasks now (ListSessionsResult.id session)
          (ListSessionsResult.date session) w) w l)
  = futureTargets now (ListSessionsResult.date session).
Proof.
  revert w. induction l as [|head l IH]; intros w Hwf Hown Hnd Hin.
  { by apply elem_of_nil in Hin. }
  simpl in Hnd. apply NoDup_cons in Hnd as [Hfresh Hnd]. simpl.
  destruct (stepFrame_scheduleSessionTasks now (ListSessionsResult.id head)
              (ListSessionsResult.date head) w) as (Hwf1 & Hown1 & _).
  apply elem_of_cons in Hin as [->|Hin].
  - destruct (scheduleAll_frame now l
                (scheduleSessionTasks now (ListSessionsResult.id head)
                   (ListSessionsResult.date head) w)) as (_ & _ & _ & Hl).
    rewrite Hl by auto. by apply liveTimers_scheduleSessionTasks.
  - apply IH; auto.
Qed.

Lemma listed_sessions w :
  NoDup (map ListSessionsResult.id
           (map (λ s : string * Db.sessionRow,
                   ListSessionsResult.mk s.1 (Db.date s.2) (Db.status s.2))
              (map_to_list (sessions w))))
  ∧ ∀ listed,
      listed
      ∈ map (λ s : string * Db.sessionRow,
               ListSessionsResult.mk s.1 (Db.date s.2) (Db.status s.2))
          (map_to_list (sessions w))
      ↔ ∃ session,
          sessions w !! ListSessionsResult.id listed = Some session
          ∧ ListSessionsResult.date listed = Db.date session
          ∧ ListSessionsResult.status listed = Db.status session.
Proof.
  split.
  - rewrite map_map. simpl. apply (NoDup_fst_map_to_list (sessions w)).
  - intros listed. change (map ?f ?l) with (f <$> l).
    rewrite list_elem_of_fmap. split.
    + intros ([sessionId session] & -> & Hin%elem_of_map_to_list).
      by exists session.
    + intros (session & Hl & Hd & Hst).
      exists (ListSessionsResult.id listed, session). split.
      * destruct listed; simpl in *. by subst.
      * by apply elem_of_map_to_list.
Qed.

(** ** Initialisation *)

(** X10.  [handleMissedSessions] never rejects: it handles the sessions one
    after the other, each in the world the previous one left, whatever
    failed while handling it. *)
Theorem handleMissedSessions_isolates_failures now
    (l : list ListSessionsResult.t) w :
  handleMissedSessions now l w
  = (Returned tt, foldl (λ w session, (handleMissedSession now session w).2) w l)
  ∧ ∀ l1 l2,
      handleMissedSessions now (l1 ++ l2) w
      = handleMissedSessions now l2 (handleMissedSessions now l1 w).2.
Proof.
  split; [apply handleMissedSessions_fold|].
  intros l1 l2. rewrite !handleMissedSessions_fold. simpl.
  by rewrite foldl_app.
Qed.

(** X11.  In a world whose registry satisfies its two invariants,
    [initializeExistingSessions] returns, and afterwards: every stored
    session that is SCHEDULED, FULL or ACTIVE and starts in the future has
    its row unchanged and, as timers that can still fire, exactly the future
    ones of its three targets; every stored session that is COMPLETED or
    CANCELED has its row unchanged and the timers it had. *)
Theorem initializeExistingSessions_effect now w :
  registry_wf w → registry_owned w →
  ∃ w',
    initializeExistingSessions now w = (Returned tt, w')
    ∧ (∀ sessionId session,
         sessions w !! sessionId = Some session →
         Db.status session ∈ [SCHEDULED; FULL; ACTIVE] →
         isFutureDate now (Db.date session) = true →
         sessions w' !! sessionId = Some session
         ∧ liveTimers sessionId w' = futureTargets now (Db.date session))
    ∧ (∀ sessionId session,
         sessions w !! sessionId = Some session →
         Db.status session = COMPLETED ∨ Db.status session = CANCELED →
         sessions w' !! sessionId = Some session
         ∧ liveTimers sessionId w' = liveTimers sessionId w).
Proof.
  intros Hwf Hown.
  unfold initializeExistingSessions, logged, try_catch, bind, getSessions.
  rewrite handleMissedSessions_fold. unfold sync.
  destruct (listed_sessions w) as [Hnd Hlisted].
  set (all := map (λ s : string * Db.sessionRow,
                     ListSessionsResult.mk s.1 (Db.date s.2) (Db.status s.2))
                (map_to_list (sessions w))) in *.
  set (pending := filter (λ session,
                     ListSessionsResult.status session
                     ∈ [SCHEDULED; FULL; ACTIVE]) all).
  set (future := filter (λ session,
                    isFutureDate now (ListSessionsResult.date session) = true)
                   pending).
  set (w1 := foldl (λ w session, (handleMissedSession now session w).2) w
               pending).
  eexists. split; [done|].
  assert (NoDup (map ListSessionsResult.id future)) as Hndf.
  { eapply sublist_NoDup; [exact Hnd|].
    change (map ?f ?l) with (f <$> l). apply fmap_sublist.
    unfold future, pending.
    etrans; apply sublist_filter. }
  destruct (scheduleAll_frame now future w1) as (Hs2 & _ & _ & Hl2).
  split.
  - intros sessionId session H Hst Hfut.
    set (listed := ListSessionsResult.mk sessionId (Db.date session)
                     (Db.status session)).
    assert (listed ∈ future) as Hin.
    { unfold future, pending. rewrite !list_elem_of_filter.
      split; [done|]. split; [done|]. apply Hlisted. by exists session. }
    destruct (handleMissedSessions_frame now pending sessionId w)
      as (Hwf1 & Hown1 & Hs1 & _).
    { apply Forall_forall. intros s Hs.
      destruct (decide (ListSessionsResult.id s = sessionId)) as [Heq|];
        [|by left]. right.
      unfold pending in Hs. apply list_elem_of_filter in Hs as [_ Hs].
      apply Hlisted in Hs as (session' & H' & Hd & _).
      rewrite Heq, H in H'. injection H' as <-. by rewrite Hd. }
    split.
    + rewrite Hs2. unfold w1. by rewrite Hs1.
    + apply (scheduleAll_in now future listed w1); auto.
  - intros sessionId session H Hterm.
    assert (∀ s, s ∈ pending → ListSessionsResult.id s ≠ sessionId) as Hnot.
    { intros s Hs Heq. unfold pending in Hs.
      apply list_elem_of_filter in Hs as [Hp Hs].
      apply Hlisted in Hs as (session' & H' & _ & Hst).
      rewrite Heq, H in H'. injection H' as <-. rewrite Hst in Hp.
      destruct Hterm as [Ht|Ht]; rewrite Ht in Hp;
        repeat (apply elem_of_cons in Hp as [Hp|Hp]; [discriminate|]);
        by apply elem_of_nil in Hp. }
    destruct (handleMissedSessions_frame now pending sessionId w)
      as (Hwf1 & Hown1 & Hs1 & Hl1).
    { apply Forall_forall. intros s Hs. left. by apply Hnot. }
    split.
    + rewrite Hs2. unfold w1. by rewrite Hs1.
    + rewrite Hl2; [unfold w1; by rewrite Hl1| |by apply Hown1].
      intros Hin. change (map ?f ?l) with (f <$> l) in Hin.
      apply list_elem_of_fmap in Hin as (s & Heq & Hs).
      unfold future in Hs. apply list_elem_of_filter in Hs as [_ Hs].
      by apply (Hnot s Hs).
Qed.

Lemma initializeExistingSessions_effect_witness :
  registry_wf TwoSessions.fresh ∧ registry_owned TwoSessions.fresh
  ∧ ∃ w',
      initializeExistingSessions 0 TwoSessions.fresh = (Returned tt, w')
      ∧ liveTimers "s1" w'
        = [(ReminderJob, 96400000%Z); (CancellationJob, 99700000%Z);
           (CompletionJob, 118000000%Z)]
      ∧ liveTimers "s2" w'
        = [(ReminderJob, 182800000%Z); (CancellationJob, 186100000%Z);
           (CompletionJob, 204400000%Z)].
Proof.
  pose proof (registry_wf_fresh TwoSessions.store Examples.someUsers
                Examples.noFaults []) as Hwf.
  pose proof (registry_owned_fresh TwoSessions.store Examples.someUsers
                Examples.noFaults []) as Hown.
  split; [exact Hwf|]. split; [exact Hown|].
  destruct (initializeExistingSessions_effect 0 _ Hwf Hown)
    as (w' & E & Hfuture & _).
  exists w'. split; [exact E|]. split.
  - destruct (Hfuture "s1" (Examples.raid SCHEDULED 3)) as [_ ->];
      [vm_compute; reflexivity|by left|vm_compute; reflexivity|].
    vm_compute. reflexivity.
  - destruct (Hfuture "s2"
                (Db.mkSession "Heist" (Examples.start + 86400000)%Z None
                   "channel-1" "guild-1" None SCHEDULED
                   [Db.mkPartyMember "gm2" GAME_MASTER;
                    Db.mkPartyMember "player7" SUPPORT])) as [_ ->];
      [vm_compute; reflexivity|by left|vm_compute; reflexivity|].
    vm_compute. reflexivity.
Defined.

(** * Further properties of role selection *)

Lemma isUserInActiveSession_run userId excludeSessionId campaignId w :
  ∃ answer,
    isUserInActiveSession userId excludeSessionId campaignId w
    = (Returned answer, w)
    ∧ (answer = true
       ↔ ∃ other session,
           sessions w !! other = Some session
           ∧ (excludeSessionId ≠ "" → other ≠ excludeSessionId)
           ∧ (campaignId ≠ "" → Db.campaignId session = campaignId)
           ∧ Db.status session ∈ [SCHEDULED; ACTIVE; FULL]
           ∧ userId ∈ map Db.userId (Db.partyMembers session)).
Proof.
  unfold isUserInActiveSession. eexists. split; [done|].
  rewrite bool_decide_eq_true.
  assert (∀ session, hasMember userId session = true
                     ↔ userId ∈ map Db.userId (Db.partyMembers session))
    as Hmember.
  { intros session. unfold hasMember. rewrite bool_decide_eq_true.
    rewrite Exists_exists. change (map ?f ?l) with (f <$> l).
    rewrite list_elem_of_fmap. split; intros (m & ? & ?); by exists m. }
  assert (∀ s : string, truthy s = true ↔ s ≠ "") as Htruthy.
  { intros s. unfold truthy. by rewrite bool_decide_eq_true. }
  split.
  - intros Hpos.
    destruct (filter _ (map_to_list (sessions w))) as [|[other session] rest]
      eqn:Hfilter; [simpl in Hpos; lia|].
    assert ((other, session) ∈ filter
              (λ s : string * Db.sessionRow,
                 (truthy excludeSessionId = true → s.1 ≠ excludeSessionId)
                 ∧ (truthy campaignId = true
                    → Db.campaignId s.2 = campaignId)
                 ∧ isPending (Db.status s.2) = true
                 ∧ hasMember userId s.2 = true)
              (map_to_list (sessions w))) as Hin
      by (rewrite Hfilter; left).
    apply list_elem_of_filter in Hin as [(He & Hc & Hp & Hm) Hin].
    apply elem_of_map_to_list in Hin. simpl in *.
    exists other, session. rewrite <- !Htruthy, <- Hmember.
    unfold isPending in Hp. rewrite bool_decide_eq_true in Hp. done.
  - intros (other & session & Hl & He & Hc & Hp & Hm).
    assert ((other, session) ∈ filter
              (λ s : string * Db.sessionRow,
                 (truthy excludeSessionId = true → s.1 ≠ excludeSessionId)
                 ∧ (truthy campaignId = true
                    → Db.campaignId s.2 = campaignId)
                 ∧ isPending (Db.status s.2) = true
                 ∧ hasMember userId s.2 = true)
              (map_to_list (sessions w))) as Hin.
    { apply list_elem_of_filter. split; [|by apply elem_of_map_to_list].
      simpl. rewrite !Htruthy, Hmember. unfold isPending.
      by rewrite bool_decide_eq_true. }
    destruct (filter _ (map_to_list (sessions w))); [|simpl; lia].
    by apply elem_of_nil in Hin.
Qed.

Lemma isUserHostingOnDate_run localDate userId date campaignId timezone w :
  ∃ answer,
    isUserHostingOnDate localDate userId date campaignId timezone w
    = (Returned answer, w).
Proof. unfold isUserHostingOnDate. by eexists. Qed.

(** X12.  Whenever [processRoleSelection] answers LOCKED, EXPIRED, INVALID,
    ALREADY_IN_SESSION or HOSTING_SAME_DAY, it has changed nothing: the
    world it returns in is the world it was called in. *)
Theorem role_selection_rejections_read_only localDate now newPartyMember
    sessionId w outcome w' :
  processRoleSelection localDate now newPartyMember sessionId w
  = (Returned outcome, w') →
  outcome ∈ [LOCKED; EXPIRED; INVALID; ALREADY_IN_SESSION; HOSTING_SAME_DAY] →
  w' = w.
Proof.
  intros Hrun Hout.
  assert (outcome ≠ REMOVED_FROM_PARTY ∧ outcome ≠ ROLE_CHANGED
          ∧ outcome ≠ PARTY_FULL ∧ outcome ≠ ADDED_TO_PARTY)
    as (Hn1 & Hn2 & Hn3 & Hn4).
  { repeat (apply elem_of_cons in Hout as [->|Hout]; [by repeat split|]).
    by apply elem_of_nil in Hout. }
  unfold processRoleSelection, bind, getSession in Hrun.
  destruct (sessions w !! sessionId) as [session|]; [|discriminate].
  cbn [toSessionWithParty Session.status Session.date Session.partyMembers
       Session.campaignId Session.timezone] in Hrun.
  destruct (bool_decide (Db.status session ≠ SCHEDULED));
    [by injection Hrun as _ <-|].
  destruct (negb _); [by injection Hrun as _ <-|].
  destruct (bool_decide (PartyMember.role newPartyMember = GAME_MASTER));
    [by injection Hrun as _ <-|].
  destruct (List.find _ _) as [existing|].
  - destruct (bool_decide _); unfold ret in Hrun; simpl in Hrun;
      injection Hrun as <- _; congruence.
  - destruct (isUserInActiveSession_run (PartyMember.userId newPartyMember)
                sessionId (Db.campaignId session) w) as (inOther & E1 & _).
    rewrite E1 in Hrun.
    destruct inOther; [by injection Hrun as _ <-|].
    destruct (isUserHostingOnDate_run localDate
                (PartyMember.userId newPartyMember) (Db.date session)
                (Db.campaignId session)
                (default "America/Los_Angeles" (Db.timezone session)) w)
      as (hosting & E2).
    rewrite E2 in Hrun.
    destruct hosting; [by injection Hrun as _ <-|].
    destruct (addUserToPartyIfNotFull _ _ _ _ w) as [[[]|e] w2];
      simpl in Hrun; [| |discriminate];
      injection Hrun as <- _; congruence.
Qed.

Lemma role_selection_rejections_read_only_witness :
  processRoleSelection (λ _ date, (date `div` 86400000)%Z) 0
    (PartyMember.mk "player2" "Two" "dm-player2" TANK) "s2" TwoSessions.fresh
  = (Returned ALREADY_IN_SESSION, TwoSessions.fresh).
Proof.
  destruct (processRoleSelection (λ _ date, (date `div` 86400000)%Z) 0
              (PartyMember.mk "player2" "Two" "dm-player2" TANK) "s2"
              TwoSessions.fresh) as [o w'] eqn:E.
  assert (o = Returned ALREADY_IN_SESSION) as ->.
  { apply (f_equal fst) in E. simpl in E. rewrite <- E. vm_compute.
    reflexivity. }
  by rewrite (role_selection_rejections_read_only _ _ _ _ _ _ _ E)
    by (do 3 right; left).
Defined.

(** X13.  Role selection is open on SCHEDULED sessions only: on a stored
    session with any other status, FULL included, every request, also the
    request of a member for the role they hold (the way to leave), is
    answered LOCKED; on a SCHEDULED session whose date is not in the future
    every request is answered EXPIRED.  Nothing is changed in either case. *)
Theorem selection_locked_or_expired localDate now newPartyMember sessionId
    session w :
  sessions w !! sessionId = Some session →
  (Db.status session ≠ SCHEDULED →
   processRoleSelection localDate now newPartyMember sessionId w
   = (Returned LOCKED, w))
  ∧ (Db.status session = SCHEDULED →
     isFutureDate now (Db.date session) = false →
     processRoleSelection localDate now newPartyMember sessionId w
     = (Returned EXPIRED, w)).
Proof.
  intros H. unfold processRoleSelection, bind.
  rewrite (getSession_found _ _ _ H).
  cbn [toSessionWithParty Session.status Session.date]. split.
  - intros Hst. by rewrite bool_decide_eq_true_2.
  - intros Hst Hpast. rewrite Hst, Hpast.
    by rewrite bool_decide_eq_false_2 by (intros ?; done).
Qed.

Lemma selection_locked_or_expired_witness :
  sessions (Examples.fresh FULL 6 Examples.noFaults) !! "s1"
  = Some (Examples.raid FULL 6)
  ∧ processRoleSelection (λ _ date, (date `div` 86400000)%Z) 0
      (PartyMember.mk "player1" "One" "dm-player1" TANK) "s1"
      (Examples.fresh FULL 6 Examples.noFaults)
    = (Returned LOCKED, Examples.fresh FULL 6 Examples.noFaults).
Proof.
  assert (sessions (Examples.fresh FULL 6 Examples.noFaults) !! "s1"
          = Some (Examples.raid FULL 6)) as H by (vm_compute; reflexivity).
  split; [exact H|].
  destruct (selection_locked_or_expired (λ _ date, (date `div` 86400000)%Z) 0
              (PartyMember.mk "player1" "One" "dm-player1" TANK) "s1" _ _ H)
    as [Hlocked _].
  apply Hlocked. discriminate.
Defined.

(** X14.  For a request on a stored SCHEDULED session with a future date, for
    a role other than GAME_MASTER, by a user who has no entry in its party
    (session and campaign ids not empty): the call returns, and its outcome
    is ALREADY_IN_SESSION exactly when the user has an entry in the party of
    another session of the same campaign that is SCHEDULED, ACTIVE or FULL.
    Entries in COMPLETED or CANCELED sessions, or in sessions of another
    campaign, do not count. *)
Theorem selection_already_in_session localDate now newPartyMember sessionId
    session w :
  sessions w !! sessionId = Some session →
  Db.status session = SCHEDULED →
  isFutureDate now (Db.date session) = true →
  PartyMember.role newPartyMember ≠ GAME_MASTER →
  PartyMember.userId newPartyMember
  ∉ map Db.userId (Db.partyMembers session) →
  sessionId ≠ "" → Db.campaignId session ≠ "" →
  ∃ outcome w',
    processRoleSelection localDate now newPartyMember sessionId w
    = (Returned outcome, w')
    ∧ (outcome = ALREADY_IN_SESSION
       ↔ ∃ other session',
           other ≠ sessionId
           ∧ sessions w !! other = Some session'
           ∧ Db.campaignId session' = Db.campaignId session
           ∧ Db.status session' ∈ [SCHEDULED; ACTIVE; FULL]
           ∧ PartyMember.userId newPartyMember
             ∈ map Db.userId (Db.partyMembers session')).
Proof.
  intros H Hst Hfut Hrole Hnew Hid Hcamp.
  unfold processRoleSelection, bind. rewrite (getSession_found _ _ _ H).
  cbn [toSessionWithParty Session.status Session.date Session.partyMembers
       Session.campaignId Session.timezone].
  rewrite Hst, Hfut. cbn [negb].
  rewrite (bool_decide_eq_false_2 (SCHEDULED ≠ SCHEDULED)) by (intros ?; done).
  rewrite bool_decide_eq_false_2 by done.
  rewrite find_toPartyMember.
  destruct (List.find _ (Db.partyMembers session)) as [existing|] eqn:Hfind.
  { exfalso. apply find_some in Hfind as [Hin Hu].
    apply bool_decide_eq_true_1 in Hu. apply Hnew. rewrite <- Hu.
    apply list_elem_of_In, in_map, Hin. }
  cbn [fmap option_fmap option_map].
  destruct (isUserInActiveSession_run (PartyMember.userId newPartyMember)
              sessionId (Db.campaignId session) w) as (inOther & -> & Hiff).
  assert (inOther = true
          ↔ ∃ other session',
              other ≠ sessionId
              ∧ sessions w !! other = Some session'
              ∧ Db.campaignId session' = Db.campaignId session
              ∧ Db.status session' ∈ [SCHEDULED; ACTIVE; FULL]
              ∧ PartyMember.userId newPartyMember
                ∈ map Db.userId (Db.partyMembers session')) as Hiff'.
  { rewrite Hiff. split.
    - intros (other & session' & Hl & He & Hc & Hp & Hm).
      exists other, session'. auto 10.
    - intros (other & session' & He & Hl & Hc & Hp & Hm).
      exists other, session'. auto 10. }
  destruct inOther.
  { eexists _, _. split; [done|]. split; [intros _; by apply Hiff'|done]. }
  assert (∀ outcome, outcome ≠ ALREADY_IN_SESSION →
            (outcome = ALREADY_IN_SESSION
             ↔ ∃ other session',
                 other ≠ sessionId
                 ∧ sessions w !! other = Some session'
                 ∧ Db.campaignId session' = Db.campaignId session
                 ∧ Db.status session' ∈ [SCHEDULED; ACTIVE; FULL]
                 ∧ PartyMember.userId newPartyMember
                   ∈ map Db.userId (Db.partyMembers session'))) as Hno.
  { intros outcome Hne. split; [done|]. intros Hex.
    apply Hiff' in Hex. discriminate. }
  destruct (isUserHostingOnDate_run localDate
              (PartyMember.userId newPartyMember) (Db.date session)
              (Db.campaignId session)
              (default "America/Los_Angeles" (Db.timezone session)) w)
    as (hosting & ->).
  destruct hosting.
  { eexists _, _. split; [done|]. by apply Hno. }
  unfold addUserToPartyIfNotFull. rewrite H.
  destruct (decide (length (Db.partyMembers session) < 6)); simpl;
    (eexists _, _; split; [done|]); by apply Hno.
Qed.

Lemma selection_already_in_session_witness :
  sessions TwoSessions.fresh !! "s2"
  = Some (Db.mkSession "Heist" (Examples.start + 86400000)%Z None
            "channel-1" "guild-1" None SCHEDULED
            [Db.mkPartyMember "gm2" GAME_MASTER;
             Db.mkPartyMember "player7" SUPPORT])
  ∧ ∃ w',
      processRoleSelection (λ _ date, (date `div` 86400000)%Z) 0
        (PartyMember.mk "player2" "Two" "dm-player2" TANK) "s2"
        TwoSessions.fresh
      = (Returned ALREADY_IN_SESSION, w').
Proof.
  assert (sessions TwoSessions.fresh !! "s2"
          = Some (Db.mkSession "Heist" (Examples.start + 86400000)%Z None
                    "channel-1" "guild-1" None SCHEDULED
                    [Db.mkPartyMember "gm2" GAME_MASTER;
                     Db.mkPartyMember "player7" SUPPORT])) as H
    by (vm_compute; reflexivity).
  split; [exact H|].
  destruct (selection_already_in_session (λ _ date, (date `div` 86400000)%Z) 0
              (PartyMember.mk "player2" "Two" "dm-player2" TANK) "s2" _ _ H)
    as (outcome & w' & E & Hiff); try done.
  - simpl. intros Hin.
    repeat (apply elem_of_cons in Hin as [Hin|Hin]; [discriminate|]).
    by apply elem_of_nil in Hin.
  - exists w'. rewrite E. do 2 f_equal. apply Hiff.
    exists "s1", (Examples.raid SCHEDULED 3).
    split; [discriminate|]. split; [vm_compute; reflexivity|].
    split; [reflexivity|]. split; [by left|].
    vm_compute. right. right. left.
Defined.

(** * Further properties: the party of a new session *)

Lemma copy_members (l : list PartyMember.t) :
  map (λ member,
     PartyMember.mk (PartyMember.userId member) (PartyMember.username member)
       (PartyMember.channelId member) (PartyMember.role member)) l = l.
Proof. rewrite <- (map_id l) at 2. apply map_ext. by intros []. Qed.

Lemma created_party_has_one_game_master_aux userId (party : list PartyMember.t) :
  partyMembersToCreate userId (Some party)
  = Db.mkPartyMember userId GAME_MASTER
    :: map (λ member, Db.mkPartyMember (PartyMember.userId member)
                        (PartyMember.role member))
         (filter (λ member, PartyMember.role member ≠ GAME_MASTER) party).
Proof.
  unfold partyMembersToCreate. destruct party as [|m l]; [done|].
  by rewrite bool_decide_eq_true_2 by (simpl; lia).
Qed.

(** X15.  The party rows that the repository's [createSession] writes hold
    exactly one GAME_MASTER, the creator, in first position: members of the
    given party that carry the GAME_MASTER role are left out, and the other
    members follow in their order with their roles.  So there are at most one
    row more than the given party has members. *)
Theorem created_party_has_one_game_master userId
    (party : option (list PartyMember.t)) :
  filter (λ row, Db.roleId row = GAME_MASTER)
    (partyMembersToCreate userId party)
  = [Db.mkPartyMember userId GAME_MASTER]
  ∧ partyMembersToCreate userId party
    = Db.mkPartyMember userId GAME_MASTER
      :: map (λ member, Db.mkPartyMember (PartyMember.userId member)
                          (PartyMember.role member))
           (filter (λ member, PartyMember.role member ≠ GAME_MASTER)
              (default [] party))
  ∧ length (partyMembersToCreate userId party)
    ≤ 1 + length (default [] party).
Proof.
  assert (partyMembersToCreate userId party
          = Db.mkPartyMember userId GAME_MASTER
            :: map (λ member, Db.mkPartyMember (PartyMember.userId member)
                                (PartyMember.role member))
                 (filter (λ member, PartyMember.role member ≠ GAME_MASTER)
                    (default [] party))) as Hshape.
  { unfold partyMembersToCreate. destruct party as [[|m l]|]; [done| |done].
    by rewrite bool_decide_eq_true_2 by (simpl; lia). }
  split; [|split; [exact Hshape|]].
  - rewrite Hshape, filter_cons_True by done. f_equal.
    apply filter_none. intros row Hin Hrole.
    apply list_elem_of_In, in_map_iff in Hin as (m & <- & Hin).
    by apply list_elem_of_In, list_elem_of_filter in Hin as [Hne _].
  - rewrite Hshape. simpl. rewrite length_map.
    pose proof (length_filter (λ member, PartyMember.role member ≠ GAME_MASTER)
                  (default [] party)). lia.
Qed.

(** X16.  When a session is continued, the party rows written for the new
    session are the continuing user as GAME_MASTER followed by the members of
    the existing session that are neither that user nor a GAME_MASTER.  No
    user occurs twice in them if none did in the existing party.  The party
    list that [continueSession] returns and compares with 6, however, still
    counts the game masters of the existing session other than the
    continuing user: it is longer than the rows written by their number. *)
Theorem continued_session_party userId username dmChannelId existingSession :
  partyMembersToCreate userId
    (Some (continuedParty userId username dmChannelId existingSession))
  = Db.mkPartyMember userId GAME_MASTER
    :: map (λ member, Db.mkPartyMember (PartyMember.userId member)
                        (PartyMember.role member))
         (filter (λ member, PartyMember.role member ≠ GAME_MASTER
                            ∧ PartyMember.userId member ≠ userId)
            (Session.partyMembers existingSession))
  ∧ (NoDup (map PartyMember.userId (Session.partyMembers existingSession)) →
     NoDup (map Db.userId
              (partyMembersToCreate userId
                 (Some (continuedParty userId username dmChannelId
                          existingSession)))))
  ∧ length (continuedParty userId username dmChannelId existingSession)
    = length (partyMembersToCreate userId
                (Some (continuedParty userId username dmChannelId
                         existingSession)))
      + length (filter (λ member, PartyMember.role member = GAME_MASTER
                                  ∧ PartyMember.userId member ≠ userId)
                  (Session.partyMembers existingSession)).
Proof.
  assert (partyMembersToCreate userId
            (Some (continuedParty userId username dmChannelId existingSession))
          = Db.mkPartyMember userId GAME_MASTER
            :: map (λ member, Db.mkPartyMember (PartyMember.userId member)
                                (PartyMember.role member))
                 (filter (λ member, PartyMember.role member ≠ GAME_MASTER
                                    ∧ PartyMember.userId member ≠ userId)
                    (Session.partyMembers existingSession))) as Hshape.
  { rewrite created_party_has_one_game_master_aux.
    unfold continuedParty. rewrite copy_members.
    rewrite filter_cons_False by (simpl; tauto).
    by rewrite list_filter_filter. }
  split; [exact Hshape|]. split.
  - intros Hnd. rewrite Hshape. simpl. apply NoDup_cons. split.
    + rewrite map_map. simpl. intros Hin.
      apply list_elem_of_In, in_map_iff in Hin as (m & Hu & Hin).
      apply list_elem_of_In, list_elem_of_filter in Hin as [[_ Hne] _].
      done.
    + rewrite map_map. simpl.
      eapply sublist_NoDup; [exact Hnd|].
      change (map ?f ?l) with (f <$> l). apply fmap_sublist, sublist_filter.
  - rewrite Hshape. unfold continuedParty. simpl.
    rewrite copy_members, !length_map. f_equal. clear Hshape.
    induction (Session.partyMembers existingSession) as [|m l IH]; [done|].
    rewrite !filter_cons.
    destruct (decide (PartyMember.userId m ≠ userId)),
      (decide (PartyMember.role m = GAME_MASTER)) as [Hr|Hr];
      repeat (case_decide; try tauto); simpl; rewrite ?IH; lia.
Qed.

(** The session of [TwoSessions] "s2", continued by "player7" after a second
    game master "gm3" had been stored in it: the new session gets "player7"
    as its only GAME_MASTER and no other row, while the returned party still
    lists the two former game masters. *)
Lemma continued_session_party_witness :
  let existing :=
    Session.mk "s2" "Heist" (Examples.start + 86400000)%Z "America/Los_Angeles"
      "channel-1" "guild-1" None (Some SCHEDULED)
      [PartyMember.mk "gm2" "gm2" "dm-gm2" GAME_MASTER;
       PartyMember.mk "player7" "player7" "dm-player7" SUPPORT;
       PartyMember.mk "gm3" "gm3" "dm-gm3" GAME_MASTER] in
  NoDup (map PartyMember.userId (Session.partyMembers existing))
  ∧ partyMembersToCreate "player7"
      (Some (continuedParty "player7" "player7" "dm-player7" existing))
    = [Db.mkPartyMember "player7" GAME_MASTER]
  ∧ NoDup (map Db.userId
             (partyMembersToCreate "player7"
                (Some (continuedParty "player7" "player7" "dm-player7"
                         existing))))
  ∧ length (continuedParty "player7" "player7" "dm-player7" existing) = 3.
Proof.
  intros existing.
  assert (NoDup (map PartyMember.userId (Session.partyMembers existing)))
    as Hnd.
  { simpl. repeat (apply NoDup_cons; split;
      [rewrite ?elem_of_cons, elem_of_nil; intuition congruence|]).
    apply NoDup_nil_2. }
  destruct (continued_session_party "player7" "player7" "dm-player7" existing)
    as (Hrows & Hnodup & Hlen).
  split; [exact Hnd|]. split; [|split].
  - rewrite Hrows. vm_compute. reflexivity.
  - exact (Hnodup Hnd).
  - rewrite Hlen, Hrows. vm_compute. reflexivity.
Defined.

(** * Further properties: the listing of sessions *)

(** X17.  [formatSessionsAsStr] prints the header alone for an empty list,
    joined by tabs whatever the delimiter is.  A session's row never has more
    cells than the header has columns, and has as many exactly when the
    session has a campaign name if that column is asked for and a user role
    if that column is asked for: a missing value is left out of the row, not
    printed as an empty cell, so the cells after it move one column to the
    left. *)
Theorem formatSessionsAsStr_columns (toUTCString : Date → string)
    (options : ListSessionsOptions.t) (delimiter : string)
    (session : ListedSession.t) :
  formatSessionsAsStr toUTCString [] options delimiter
  = String.concat tab (headerParts options)
  ∧ length (sessionCells toUTCString options session)
    ≤ length (headerParts options)
  ∧ (length (sessionCells toUTCString options session)
     = length (headerParts options)
     ↔ (ListSessionsOptions.includeCampaign options = true →
        truthyOpt (ListedSession.campaign session) = true)
       ∧ (ListSessionsOptions.includeRole options = true →
          truthyOpt (ListedSession.userRole session) = true)).
Proof.
  split; [done|].
  unfold sessionCells, headerParts.
  destruct options as [[] [] [] []]; simpl;
    destruct (truthyOpt (ListedSession.campaign session)),
      (truthyOpt (ListedSession.userRole session)); simpl;
    (split; [lia|]); split; intros; try lia; intuition congruence.
Qed.

(** * Further properties: the validation of a new session *)

Lemma count_positive {A} (P : A → Prop) `{∀ x, Decision (P x)} (l : list A) :
  bool_decide (0 < length (filter P l)) = true ↔ ∃ x, x ∈ l ∧ P x.
Proof.
  rewrite bool_decide_eq_true. split.
  - intros Hlen. destruct (filter P l) as [|x l'] eqn:Hf; [simpl in Hlen; lia|].
    assert (x ∈ filter P l) as Hx by (rewrite Hf; left).
    apply list_elem_of_filter in Hx as [HP Hin]. by exists x.
  - intros (x & Hin & HP).
    assert (x ∈ filter P l) as Hx by by apply list_elem_of_filter.
    destruct (filter P l); [by apply elem_of_nil in Hx|simpl; lia].
Qed.

Lemma count_zero {A} (P : A → Prop) `{∀ x, Decision (P x)} (l : list A) :
  bool_decide (0 < length (filter P l)) = false ↔ ∀ x, x ∈ l → ¬ P x.
Proof.
  rewrite <- not_true_iff_false, count_positive. split.
  - intros Hno x Hin HP. apply Hno. by exists x.
  - intros Hall (x & Hin & HP). by apply (Hall x).
Qed.

Lemma member_split userId (party : list Db.partyMemberRow) :
  Exists (λ m, Db.userId m = userId) party ↔
  Exists (λ m, Db.userId m = userId ∧ Db.roleId m = GAME_MASTER) party
  ∨ Exists (λ m, Db.userId m = userId ∧ Db.roleId m ≠ GAME_MASTER) party.
Proof.
  rewrite !Exists_exists. split.
  - intros (m & Hin & Hu).
    destruct (decide (Db.roleId m = GAME_MASTER)); [left|right]; by exists m.
  - intros [(m & Hin & Hu & _)|(m & Hin & Hu & _)]; by exists m.
Qed.

(** X18.  For a channel and a user that are given and a date that
    [isFutureDate] accepts, [isSessionValid] answers without changing
    anything.  Its two queries together cover every role: the answer is the
    empty string when the user is in the party of no SCHEDULED, ACTIVE or
    FULL session of the channel on the same calendar day, and it is one of
    the two same-day messages as soon as the user is in the party of one,
    as game master or not. *)
Theorem isSessionValid_same_day localDate now dialogs campaignId date userId
    timezone w :
  truthy campaignId = true →
  isFutureDate now date = true →
  truthy userId = true →
  ∃ answer,
    isSessionValid localDate now dialogs campaignId (Some date) userId
      timezone w = (Returned answer, w)
    ∧ ((∀ sessionId session,
          sessions w !! sessionId = Some session →
          Db.campaignId session = campaignId →
          isPending (Db.status session) = true →
          localDate timezone (Db.date session) = localDate timezone date →
          hasMember userId session = false) →
       answer = EmptyString)
    ∧ (∀ sessionId session,
          sessions w !! sessionId = Some session →
          Db.campaignId session = campaignId →
          isPending (Db.status session) = true →
          localDate timezone (Db.date session) = localDate timezone date →
          hasMember userId session = true →
          answer = BotDialogs.createSessionHostingMultipleSessions dialogs
          ∨ answer = BotDialogs.createSessionAlreadyMemberSameDay dialogs).
Proof.
  intros Hc Hfuture Hu.
  unfold isSessionValid. rewrite Hc, Hfuture, Hu. cbn [negb].
  unfold bind, isUserHostingOnDate, isUserMemberOnDate, ret. cbv zeta.
  set (P := λ s : string * Db.sessionRow,
    Db.campaignId s.2 = campaignId
    ∧ Exists (λ m, Db.userId m = userId ∧ Db.roleId m = GAME_MASTER)
        (Db.partyMembers s.2)
    ∧ isPending (Db.status s.2) = true
    ∧ localDate timezone (Db.date s.2) = localDate timezone date).
  set (Q := λ s : string * Db.sessionRow,
    Db.campaignId s.2 = campaignId
    ∧ Exists (λ m, Db.userId m = userId ∧ Db.roleId m ≠ GAME_MASTER)
        (Db.partyMembers s.2)
    ∧ isPending (Db.status s.2) = true
    ∧ localDate timezone (Db.date s.2) = localDate timezone date).
  destruct (bool_decide (0 < length (filter P (map_to_list (sessions w)))))
    eqn:Hhost.
  { eexists. split; [reflexivity|]. split; [|by left].
    intros Hnone. apply count_positive in Hhost as ([sessionId session] & Hin & HP).
    apply elem_of_map_to_list in Hin.
    destruct HP as (Hcamp & Hgm & Hpend & Hday). simpl in *.
    specialize (Hnone _ _ Hin Hcamp Hpend Hday).
    unfold hasMember in Hnone. apply bool_decide_eq_false in Hnone.
    exfalso. apply Hnone, member_split. by left. }
  destruct (bool_decide (0 < length (filter Q (map_to_list (sessions w)))))
    eqn:Hmember.
  { eexists. split; [reflexivity|]. split; [|by right].
    intros Hnone. apply count_positive in Hmember as ([sessionId session] & Hin & HQ).
    apply elem_of_map_to_list in Hin.
    destruct HQ as (Hcamp & Hgm & Hpend & Hday). simpl in *.
    specialize (Hnone _ _ Hin Hcamp Hpend Hday).
    unfold hasMember in Hnone. apply bool_decide_eq_false in Hnone.
    exfalso. apply Hnone, member_split. by right. }
  eexists. split; [reflexivity|]. split; [done|].
  intros sessionId session Hin Hcamp Hpend Hday Hhas. exfalso.
  unfold hasMember in Hhas. apply bool_decide_eq_true in Hhas.
  apply member_split in Hhas as [Hgm|Hother].
  - apply (proj1 (count_zero P _) Hhost (sessionId, session)).
    + by apply elem_of_map_to_list.
    + done.
  - apply (proj1 (count_zero Q _) Hmember (sessionId, session)).
    + by apply elem_of_map_to_list.
    + done.
Qed.

(** In the store of [TwoSessions], "player1" is a tank of "s1"; a session
    two hours after "s1" in the same channel is refused with one of the two
    same-day messages. *)
Lemma isSessionValid_same_day_witness :
  let localDate := λ (_ : string) (d : Date), (d / 86400000)%Z in
  let dialogs :=
    BotDialogs.mk "invalid guild" "invalid date" "date must be in the future"
      "invalid user" "hosting another session that day"
      "member of another session that day" in
  let date := (Examples.start + 7200000)%Z in
  truthy "channel-1" = true
  ∧ isFutureDate 0 date = true
  ∧ truthy "player1" = true
  ∧ ∃ answer,
      isSessionValid localDate 0 dialogs "channel-1" (Some date) "player1"
        "America/Los_Angeles" TwoSessions.fresh
      = (Returned answer, TwoSessions.fresh)
      ∧ (answer = "hosting another session that day"
         ∨ answer = "member of another session that day").
Proof.
  intros localDate dialogs date.
  assert (truthy "channel-1" = true) as Hc by (vm_compute; reflexivity).
  assert (isFutureDate 0 date = true) as Hf by (vm_compute; reflexivity).
  assert (truthy "player1" = true) as Hu by (vm_compute; reflexivity).
  split; [exact Hc|]. split; [exact Hf|]. split; [exact Hu|].
  destruct (isSessionValid_same_day localDate 0 dialogs "channel-1" date
              "player1" "America/Los_Angeles" TwoSessions.fresh Hc Hf Hu)
    as (answer & Hrun & _ & Hsome).
  exists answer. split; [exact Hrun|].
  apply (Hsome "s1" (Examples.raid SCHEDULED 3)); vm_compute; reflexivity.
Defined.

(** * Further properties: the administration server *)

Lemma prefix_app (p s : string) :
  String.prefix p s = true ↔ ∃ r, s = (p +:+ r)%string.
Proof.
  revert s. induction p as [|c p IH]; intros s.
  - split; [intros _; exists s; reflexivity|intros _; by destruct s].
  - destruct s as [|c' s].
    + split; [discriminate|]. intros (r & Hr). discriminate Hr.
    + change (String.prefix (String c p) (String c' s))
        with (if Ascii.ascii_dec c c' then String.prefix p s else false).
      destruct (Ascii.ascii_dec c c') as [->|Hne].
      * rewrite IH. split; intros (r & Hr); exists r.
        -- rewrite Hr. reflexivity.
        -- change (String c' p +:+ r)%string with (String c' (p +:+ r))%string
             in Hr. congruence.
      * split; [discriminate|]. intros (r & Hr).
        change (String c p +:+ r)%string with (String c (p +:+ r))%string in Hr.
        congruence.
Qed.

Lemma slice_app (p r : string) :
  AdminServer.slice (String.length p) (p +:+ r)%string = r.
Proof. induction p as [|c p IH]; [reflexivity|]. exact IH. Qed.

(** X19.  The listener of [createAdminServer] hands a request over to
    [handleRegenSession] exactly when its URL is /admin/regen-session, its
    method is POST, ADMIN_API_TOKEN is set and not empty, and its
    authorization header is "Bearer " followed by a string whose HMAC equals
    that of the token: the listener compares the digests, never the strings.
    A request for /health is answered 200 OK whatever its method and header
    are. *)
Theorem admin_regen_needs_token (hmacSha256 : string → string)
    (adminApiToken : option string) (req : AdminServer.Request) :
  (AdminServer.createAdminServer hmacSha256 adminApiToken req
   = AdminServer.HandleRegenSession
   ↔ AdminServer.url req = "/admin/regen-session"
     ∧ AdminServer.method req = "POST"
     ∧ ∃ token provided,
         adminApiToken = Some token ∧ token ≠ EmptyString
         ∧ AdminServer.authorization req = Some ("Bearer " +:+ provided)%string
         ∧ hmacSha256 token = hmacSha256 provided)
  ∧ (AdminServer.url req = "/health" →
     AdminServer.createAdminServer hmacSha256 adminApiToken req
     = AdminServer.Text 200 "OK").
Proof.
  assert (AdminServer.createAdminServer hmacSha256 adminApiToken req
          = AdminServer.HandleRegenSession
          ↔ AdminServer.url req = "/admin/regen-session"
            ∧ AdminServer.method req = "POST"
            ∧ ∃ token provided,
                adminApiToken = Some token ∧ token ≠ EmptyString
                ∧ AdminServer.authorization req
                  = Some ("Bearer " +:+ provided)%string
                ∧ hmacSha256 token = hmacSha256 provided) as Hiff.
  { unfold AdminServer.createAdminServer. split.
    - case_bool_decide as Hhealth; [done|].
      case_bool_decide as Hurl; [|done].
      case_bool_decide as Hmethod; [|done]. cbn [andb].
      destruct adminApiToken as [token|]; [|done]. cbn [truthyOpt default].
      destruct (truthy token) eqn:Htoken; [|done]. cbn [negb].
      unfold AdminServer.isAuthorized.
      destruct (AdminServer.authorization req) as [authHeader|]; [|done].
      destruct (String.prefix "Bearer " authHeader) eqn:Hprefix; [|done].
      cbn [negb]. cbv zeta. case_bool_decide as Hmac; [|done]. intros _.
      apply prefix_app in Hprefix as (provided & ->).
      rewrite slice_app in Hmac.
      split; [done|]. split; [done|]. exists token, provided.
      apply bool_decide_eq_true in Htoken. done.
    - intros (Hurl & Hmethod & token & provided & -> & Htoken & Hauth & Hmac).
      rewrite Hurl, Hmethod.
      rewrite bool_decide_eq_false_2 by done.
      rewrite !bool_decide_eq_true_2 by done. cbn [andb truthyOpt default].
      unfold truthy. rewrite bool_decide_eq_true_2 by done. cbn [negb].
      unfold AdminServer.isAuthorized. rewrite Hauth.
      rewrite (proj2 (prefix_app "Bearer " _)) by by exists provided.
      cbn [negb]. cbv zeta. rewrite slice_app.
      by rewrite bool_decide_eq_true_2 by done. }
  split; [exact Hiff|].
  intros Hurl. unfold AdminServer.createAdminServer.
  by rewrite bool_decide_eq_true_2 by done.
Qed.

(** * Further properties: what a callback may touch *)

Lemma handleCompletion_total sessionId w :
  (∀ other, other ≠ sessionId →
     sessions (handleCompletion sessionId w).2 !! other = sessions w !! other)
  ∧ scheduledTasks (handleCompletion sessionId w).2
    = scheduledTasks (cancelSessionTasks sessionId w)
  ∧ cronJobs (handleCompletion sessionId w).2
    = cronJobs (cancelSessionTasks sessionId w).
Proof.
  destruct (cancelSessionTasks_frame sessionId w) as (Hframe & _).
  destruct (sessions w !! sessionId) as [session|] eqn:H.
  - destruct (decide (Db.status session = ACTIVE)) as [Hst|Hst].
    + destruct (handleCompletion_active sessionId session w H Hst)
        as (w' & -> & _ & Hs & Hk & Hj). simpl. split; [|split].
      * intros other Hne. rewrite Hs.
        destruct (next_fails OpUpdateSession w); [done|].
        by rewrite lookup_alter_ne.
      * by rewrite cancelSessionTasks_tasks.
      * done.
    + rewrite (handleCompletion_not_active sessionId session w H Hst). simpl.
      split; [|done]. intros other _. by rewrite Hframe.
  - rewrite (handleCompletion_missing sessionId w H). simpl.
    split; [|done]. intros other _. by rewrite Hframe.
Qed.

Lemma handleCancellation_total sessionId w :
  (∀ other, other ≠ sessionId →
     sessions (handleCancellation sessionId w).2 !! other
     = sessions w !! other)
  ∧ match sessions w !! sessionId with
    | Some _ =>
        scheduledTasks (handleCancellation sessionId w).2
        = scheduledTasks (cancelSessionTasks sessionId w)
        ∧ cronJobs (handleCancellation sessionId w).2
          = cronJobs (cancelSessionTasks sessionId w)
    | None => (handleCancellation sessionId w).2 = w
    end.
Proof.
  destruct (sessions w !! sessionId) as [session|] eqn:H.
  - destruct (decide (6 ≤ length (Db.partyMembers session))) as [Hfull|Hsmall].
    + destruct (handleCancellation_full sessionId session w H Hfull)
        as (w' & -> & Hs & Hk & Hj). simpl. split; [|split].
      * intros other Hne. rewrite Hs.
        destruct (next_fails OpUpdateSession w); [done|].
        by rewrite lookup_alter_ne.
      * by rewrite cancelSessionTasks_tasks.
      * done.
    + destruct (handleCancellation_unfilled sessionId session w H)
        as (w' & -> & Hk & Hj & Hok & Hfail); [lia|]. simpl. split; [|split].
      * intros other Hne.
        destruct (next_fails OpUpdateSession w) eqn:Hnext.
        -- rewrite (Hfail eq_refl).
           destruct (faults w OpUpdateSession _); [done|].
           by rewrite lookup_alter_ne.
        -- destruct (cancelSession_run sessionId
                       (insufficientPlayers (length (Db.partyMembers session)))
                       session w H) as (w'' & Hrun & Hs & _).
           rewrite (Hok eq_refl), Hnext in Hrun.
           injection Hrun as <-. rewrite Hs, Hnext.
           by rewrite lookup_alter_ne.
      * by rewrite cancelSessionTasks_tasks.
      * done.
  - unfold handleCancellation, logged, try_catch, bind, getSessionById.
    rewrite (getSession_missing _ _ H). simpl. by split.
Qed.

(** X20.  [cancelSession], [endSession], the fill-deadline callback and the
    completion callback of one session, whatever fails in them, keep the two
    invariants of the registry and leave every other session as it was: its
    stored row and the timers of it that can still fire. *)
Theorem callbacks_confined_to_session sessionId reason w :
  stepFrame sessionId w (cancelSession sessionId reason w).2
  ∧ stepFrame sessionId w (endSession sessionId w).2
  ∧ stepFrame sessionId w (handleCancellation sessionId w).2
  ∧ stepFrame sessionId w (handleCompletion sessionId w).2.
Proof.
  split; [apply stepFrame_cancelSession|].
  split; [apply stepFrame_endSession|]. split.
  - destruct (handleCancellation_total sessionId w) as [Hs Hreg].
    apply stepFrame_registry_step; [exact Hs|].
    destruct (sessions w !! sessionId); [by right|left]. by rewrite Hreg.
  - destruct (handleCompletion_total sessionId w) as (Hs & Hk & Hj).
    apply stepFrame_registry_step; [exact Hs|]. by right.
Qed.

(** X21.  On a stored session, in a world whose registry knows every started
    job, [cancelSession], [endSession], the fill-deadline callback and the
    completion callback leave the session without a registered task and
    without a timer that can still fire, whether they resolve or reject and
    whatever status they stored: no callback of the session runs after
    them. *)
Theorem no_timer_survives_transition sessionId reason session w :
  sessions w !! sessionId = Some session →
  registry_wf w →
  (liveTimers sessionId (cancelSession sessionId reason w).2 = []
   ∧ scheduledTasks (cancelSession sessionId reason w).2 !! sessionId = None)
  ∧ (liveTimers sessionId (endSession sessionId w).2 = []
     ∧ scheduledTasks (endSession sessionId w).2 !! sessionId = None)
  ∧ (liveTimers sessionId (handleCancellation sessionId w).2 = []
     ∧ scheduledTasks (handleCancellation sessionId w).2 !! sessionId = None)
  ∧ (liveTimers sessionId (handleCompletion sessionId w).2 = []
     ∧ scheduledTasks (handleCompletion sessionId w).2 !! sessionId = None).
Proof.
  intros H Hwf.
  pose proof (liveTimers_cancelSessionTasks sessionId w Hwf) as Hlive.
  pose proof (cancelSessionTasks_tasks sessionId w) as Htasks.
  destruct (cancelSession_run sessionId reason session w H)
    as (w1 & -> & _ & Hk1 & Hj1 & _).
  destruct (endSession_run sessionId session w H)
    as (w2 & -> & _ & Hk2 & Hj2 & _).
  destruct (handleCancellation_total sessionId w) as [_ Hreg3].
  rewrite H in Hreg3. destruct Hreg3 as [Hk3 Hj3].
  destruct (handleCompletion_total sessionId w) as (_ & Hk4 & Hj4).
  simpl. repeat split.
  - by rewrite (liveTimers_congr _ _ _ Hj1).
  - rewrite Hk1. apply lookup_delete_eq.
  - by rewrite (liveTimers_congr _ _ _ Hj2).
  - rewrite Hk2. apply lookup_delete_eq.
  - by rewrite (liveTimers_congr _ _ _ Hj3).
  - rewrite Hk3, Htasks. apply lookup_delete_eq.
  - by rewrite (liveTimers_congr _ _ _ Hj4).
  - rewrite Hk4, Htasks. apply lookup_delete_eq.
Qed.

(** With "s1" and "s2" scheduled: the completion callback of "s1", which finds
    it SCHEDULED and so writes nothing, leaves "s1" without timers and "s2"
    with its three timers. *)
Lemma callbacks_confined_to_session_witness :
  registry_owned TwoSessions.scheduled
  ∧ liveTimers "s2" (handleCompletion "s1" TwoSessions.scheduled).2
    = [(ReminderJob, 182800000%Z); (CancellationJob, 186100000%Z);
       (CompletionJob, 204400000%Z)]
  ∧ sessions (handleCompletion "s1" TwoSessions.scheduled).2 !! "s2"
    = sessions TwoSessions.scheduled !! "s2".
Proof.
  assert (registry_owned TwoSessions.scheduled) as Hown.
  { do 2 apply registry_owned_scheduleSessionTasks.
    apply registry_owned_fresh. }
  split; [exact Hown|].
  destruct (callbacks_confined_to_session "s1" "called off"
              TwoSessions.scheduled)
    as (_ & _ & _ & (_ & _ & Hrows & Hlive)).
  split.
  - rewrite (Hlive "s2") by (discriminate || exact Hown).
    vm_compute. reflexivity.
  - apply Hrows. discriminate.
Defined.

Lemma no_timer_survives_transition_witness :
  sessions TwoSessions.scheduled !! "s1" = Some (Examples.raid SCHEDULED 3)
  ∧ registry_wf TwoSessions.scheduled
  ∧ liveTimers "s1" TwoSessions.scheduled
    = [(ReminderJob, 96400000%Z); (CancellationJob, 99700000%Z);
       (CompletionJob, 118000000%Z)]
  ∧ liveTimers "s1" (endSession "s1" TwoSessions.scheduled).2 = []
  ∧ liveTimers "s1" (handleCancellation "s1" TwoSessions.scheduled).2 = [].
Proof.
  assert (sessions TwoSessions.scheduled !! "s1"
          = Some (Examples.raid SCHEDULED 3)) as H
    by (vm_compute; reflexivity).
  assert (registry_wf TwoSessions.scheduled) as Hwf.
  { do 2 apply registry_wf_scheduleSessionTasks. apply registry_wf_fresh. }
  split; [exact H|]. split; [exact Hwf|].
  split; [vm_compute; reflexivity|].
  destruct (no_timer_survives_transition "s1" "called off" _ _ H Hwf)
    as (_ & (Hend & _) & (Hfill & _) & _).
  split; [exact Hend|exact Hfill].
Defined.
